(** * AI Study Notes Generator: the chunking-and-assembly pipeline of app.py

    A shallow embedding of [split_text_into_chunks], the five
    [generate_*] functions and the generation loop of [main], together
    with the properties of the natural-language specification that can
    be settled on them.

    Conventions.
    - A Python [str] is a list of Unicode code points ([N]); [len] is the
      list length, so every length test of the source counts code points.
    - A Python [int] is a [Z].
    - A call that may raise returns a [result]; the external summarizer
      and the progress bar act on an abstract [World]. *)

From Stdlib Require Import ZArith NArith List String Ascii Lia Bool DecimalString.
From stdpp Require Import gmap list fin_maps.
Import ListNotations.

#[local] Open Scope Z_scope.
#[local] Open Scope list_scope.

(** ** Python strings *)

Abbreviation char := N (only parsing).
Abbreviation str := (list N) (only parsing).

(** An ASCII literal of the source, as code points. *)
Definition lit (s : string) : str :=
  List.map N_of_ascii (list_ascii_of_string s).

Definition nl : N := 10%N.          (* "\n" *)
Definition space : N := 32%N.       (* " "  *)
Definition dot : N := 46%N.         (* "."  *)

(** Python's [len], as an [int]. *)
Definition len {A} (xs : list A) : Z := Z.of_nat (length xs).

(** [str.isspace] on one code point: the table behind [str.split()] and
    [str.strip()] with no argument. *)
Definition isspace (c : N) : bool :=
  ((9 <=? c) && (c <=? 13) || (28 <=? c) && (c <=? 32)
   || (c =? 133) || (c =? 160) || (c =? 5760)
   || (8192 <=? c) && (c <=? 8202)
   || (c =? 8232) || (c =? 8233) || (c =? 8239) || (c =? 8287)
   || (c =? 12288))%N.

(** [text.split()]: maximal runs of non-whitespace. [cur] holds the
    current word, reversed. *)
Fixpoint split_ws_go (cur : str) (s : str) : list str :=
  match s with
  | [] => match cur with [] => [] | _ => [rev cur] end
  | c :: s' =>
      if isspace c
      then match cur with
           | [] => split_ws_go [] s'
           | _ => rev cur :: split_ws_go [] s'
           end
      else split_ws_go (c :: cur) s'
  end.

Definition py_split (s : str) : list str := split_ws_go [] s.

(** [s.strip()] *)
Fixpoint lstrip (s : str) : str :=
  match s with
  | c :: s' => if isspace c then lstrip s' else s
  | [] => []
  end.

Definition rstrip (s : str) : str := rev (lstrip (rev s)).
Definition py_strip (s : str) : str := rstrip (lstrip s).

(** [sep.join(xs)] *)
Fixpoint py_join (sep : str) (xs : list str) : str :=
  match xs with
  | [] => []
  | [x] => x
  | x :: xs' => x ++ sep ++ py_join sep xs'
  end.

(** [s.startswith(p)] and [s.endswith(p)] *)
Fixpoint startswith (s p : str) : bool :=
  match p, s with
  | [], _ => true
  | a :: p', b :: s' => (a =? b)%N && startswith s' p'
  | _ :: _, [] => false
  end.

Definition endswith (s p : str) : bool := startswith (rev s) (rev p).

(** [s.split(sep)] for a non-empty separator: left to right, occurrences
    do not overlap. [skip] counts the separator characters still to be
    passed over, [cur] is the current piece, reversed. *)
Fixpoint split_sep_go (sep : str) (skip : nat) (cur : str) (s : str)
  : list str :=
  match s with
  | [] => [rev cur]
  | c :: s' =>
      match skip with
      | S k => split_sep_go sep k cur s'
      | O =>
          if startswith s sep
          then rev cur :: split_sep_go sep (length sep - 1) [] s'
          else split_sep_go sep 0 (c :: cur) s'
      end
  end.

Definition py_split_sep (s sep : str) : list str := split_sep_go sep 0 [] s.

(** Slices [xs[lo:hi]] and [xs[:hi]] with Python's treatment of negative
    and out-of-range indices. *)
Definition clamp_index (n i : Z) : nat :=
  Z.to_nat (Z.min n (Z.max 0 (if i <? 0 then i + n else i))).

Definition slice {A} (xs : list A) (lo hi : Z) : list A :=
  let a := clamp_index (len xs) lo in
  let b := clamp_index (len xs) hi in
  take (b - a)%nat (drop a xs).

Definition slice_to {A} (xs : list A) (hi : Z) : list A :=
  take (clamp_index (len xs) hi) xs.

(** [str(n)] for an [int]. *)
Definition str_of_int (n : Z) : str :=
  lit (NilZero.string_of_int (Z.to_int n)).

(** [c * n] for a one-character string [c]. *)
Definition str_mul (c : N) (n : Z) : str := repeat c (Z.to_nat n).

(** ** Exceptions *)

(** The two [except] forms of the source differ on what they catch:
    a bare [except:] catches everything, [except Exception] does not catch
    [KeyboardInterrupt], [SystemExit] and the like. *)
Inductive exn : Type :=
| ValueError (msg : str)
| ZeroDivisionError (msg : str)
| OtherException (msg : str)        (* any other subclass of Exception *)
| BaseOnly (msg : str).             (* BaseException but not Exception *)

Definition is_Exception (e : exn) : bool :=
  match e with BaseOnly _ => false | _ => true end.

(** [str(e)] *)
Definition exn_str (e : exn) : str :=
  match e with
  | ValueError m | ZeroDivisionError m | OtherException m | BaseOnly m => m
  end.

Inductive result (A : Type) : Type :=
| Ok (a : A)
| Raise (e : exn).
Arguments Ok {A} a.
Arguments Raise {A} e.

(** ** TEXT PROCESSING *)

(** [range(start, stop, step)] as the list of its elements. *)
Definition py_range (start stop step : Z) : result (list Z) :=
  if step =? 0 then Raise (ValueError (lit "range() arg 3 must not be zero"))
  else
    let n := if (0 <? step) && (start <? stop)
             then (stop - start - 1) / step + 1
             else if (step <? 0) && (stop <? start)
             then (start - stop - 1) / (- step) + 1
             else 0 in
    Ok (List.map (fun j => start + Z.of_nat j * step) (seq 0 (Z.to_nat n))).

(** One iteration of the loop of [split_text_into_chunks]. *)
Definition chunk_step (words : list str) (max_tokens : Z)
    (chunks : list str) (i : Z) : list str :=
  let chunk := py_join [space] (slice words i (i + max_tokens)) in
  if 50 <? len (py_strip chunk) then chunks ++ [chunk] else chunks.

Definition split_text_into_chunks (text : str) (max_tokens : Z)
  : result (list str) :=
  let words := py_split text in
  match py_range 0 (len words) max_tokens with
  | Raise e => Raise e
  | Ok idxs => Ok (fold_left (chunk_step words max_tokens) idxs [])
  end.

(** ** The outside world

    The summarizer and the progress bar are collaborators of the core:
    opaque, stateful, and free to raise. A computation is a function of
    the state of that world which returns the new state and either a
    value or the exception it raised. *)

Section Generators.

Variable World : Type.

Definition M (A : Type) : Type := World -> World * result A.

Definition ret {A} (a : A) : M A := fun w => (w, Ok a).
Definition raise {A} (e : exn) : M A := fun w => (w, Raise e).
Definition bind {A B} (m : M A) (k : A -> M B) : M B :=
  fun w => match m w with
           | (w', Ok a) => k a w'
           | (w', Raise e) => (w', Raise e)
           end.
Definition lift {A} (r : result A) : M A := fun w => (w, r).

Notation "x <- m ;; k" := (bind m (fun x => k))
  (at level 90, m at level 60, right associativity).
Notation "m ;;; k" := (bind m (fun _ => k))
  (at level 90, right associativity).

(** [summarizer(text, max_length=.., min_length=.., do_sample=..)[0]['summary_text']]:
    the summary text, or whatever the call, the indexing or the key lookup
    raised. *)
Definition Summarizer : Type := str -> Z -> Z -> bool -> M str.

(** A progress bar: [progress(value)] receives the quotient [a / b] as the
    exact ratio [(a, b)]. *)
Definition ProgressBar : Type := Z * Z -> M unit.

(** [a / b] on [int]s. *)
Definition truediv (a b : Z) : M (Z * Z) :=
  if b =? 0 then raise (ZeroDivisionError (lit "division by zero"))
  else ret (a, b).

(** [if progress_bar: progress_bar.progress(a / b)] *)
Definition report (progress_bar : option ProgressBar) (a b : Z) : M unit :=
  match progress_bar with
  | None => ret tt
  | Some pb => q <- truediv a b ;; pb q
  end.

(** [for i, x in enumerate(xs): try: <body> except: continue], the loop
    variable threading the list the body appends to. *)
Fixpoint for_try {A Acc} (body : Z -> A -> Acc -> M Acc)
    (i : Z) (xs : list A) (acc : Acc) : World -> World * Acc :=
  match xs with
  | [] => fun w => (w, acc)
  | x :: xs' =>
      fun w =>
        match body i x acc w with
        | (w', Ok acc') => for_try body (i + 1) xs' acc' w'
        | (w', Raise _) => for_try body (i + 1) xs' acc w'
        end
  end.

Definition for_enumerate_try {A Acc} (xs : list A) (acc : Acc)
    (body : Z -> A -> Acc -> M Acc) : M Acc :=
  fun w => let (w', acc') := for_try body 0 xs acc w in (w', Ok acc').

(** [enumerate(xs, start)] *)
Fixpoint enumerate {A} (start : Z) (xs : list A) : list (Z * A) :=
  match xs with
  | [] => []
  | x :: xs' => (start, x) :: enumerate (start + 1) xs'
  end.

(** ** NOTE GENERATION FUNCTIONS *)

Definition pushpin : N := 128204%N.      (* U+1F4CC *)
Definition bullet : N := 8226%N.         (* U+2022 *)
Definition bar_chart : N := 128202%N.    (* U+1F4CA *)
Definition box_vr : N := 9500%N.         (* U+251C *)
Definition box_h : N := 9472%N.          (* U+2500 *)
Definition box_v : N := 9474%N.          (* U+2502 *)
Definition box_ur : N := 9492%N.         (* U+2514 *)

Definition section_entry (p : Z * str) : str :=
  let (i, s) := p in
  [pushpin] ++ lit " Section " ++ str_of_int (i + 1) ++ lit ":" ++ [nl] ++ s.

Definition generate_comprehensive_summary (text : str)
    (summarizer : Summarizer) (detail_level : Z)
    (progress_bar : option ProgressBar) : M str :=
  let max_length := 100 + detail_level * 30 in
  let min_length := 30 + detail_level * 10 in
  chunks <- lift (split_text_into_chunks text 400) ;;
  summaries <- for_enumerate_try chunks [] (fun i chunk summaries =>
      report progress_bar (i + 1) (len chunks) ;;;
      summary <- summarizer (slice_to chunk 3000) max_length min_length false ;;
      ret (summaries ++ [summary])) ;;
  match summaries with
  | [] => ret (lit "Could not generate summary.")
  | _ => ret (py_join [nl; nl] (List.map section_entry (enumerate 0 summaries)))
  end.

Definition bullet_point (s : str) : str :=
  [bullet] ++ lit " " ++ py_strip s ++ (if negb (endswith s [dot]) then [dot] else []).

Definition generate_bullet_points (text : str)
    (summarizer : Summarizer) (detail_level : Z)
    (progress_bar : option ProgressBar) : M str :=
  chunks <- lift (split_text_into_chunks text 400) ;;
  all_points <- for_enumerate_try chunks [] (fun i chunk all_points =>
      report progress_bar (i + 1) (len chunks) ;;;
      summary <- summarizer (slice_to chunk 3000) 120 30 false ;;
      let sentences := py_split_sep summary [dot; space] in
      let points := List.map bullet_point
          (List.filter (fun s => 10 <? len (py_strip s)) sentences) in
      ret (all_points ++ points)) ;;
  match all_points with
  | [] => ret (lit "Could not generate bullet points.")
  | _ => ret (py_join [nl] all_points)
  end.

Definition flashcard (summary : str) (sentences : list str) : str :=
  let question := lit "What is important about: "
                  ++ slice_to (List.hd [] sentences) 50 ++ lit "...?" in
  lit "Q: " ++ question ++ [nl] ++ lit "A: " ++ summary.

Definition card_entry (p : Z * str) : str :=
  let (i, card) := p in
  lit "--- Card " ++ str_of_int (i + 1) ++ lit " ---" ++ [nl] ++ card.

Definition generate_flashcards (text : str)
    (summarizer : Summarizer) (detail_level : Z)
    (progress_bar : option ProgressBar) : M str :=
  let num_cards := detail_level * 5 in
  chunks <- lift (split_text_into_chunks text 500) ;;
  flashcards <- for_enumerate_try (slice_to chunks num_cards) []
    (fun i chunk flashcards =>
      report progress_bar (i + 1) (Z.min (len chunks) num_cards) ;;;
      summary <- summarizer (slice_to chunk 3000) 80 20 false ;;
      let sentences := py_split_sep summary [dot; space] in
      if 0 <? len sentences
      then ret (flashcards ++ [flashcard summary sentences])
      else ret flashcards) ;;
  match flashcards with
  | [] => ret (lit "Could not generate flashcards.")
  | _ => ret (py_join [nl; nl] (List.map card_entry (enumerate 0 flashcards)))
  end.

Definition qa_pair (i : Z) (summary : str) (words : list str) : str :=
  let question := lit "Q" ++ str_of_int (i + 1) ++ lit ": Explain - "
                  ++ py_join [space] (slice_to words 8) ++ lit "...?" in
  let answer := lit "A" ++ str_of_int (i + 1) ++ lit ": " ++ summary in
  question ++ [nl] ++ answer.

Definition generate_qa_format (text : str)
    (summarizer : Summarizer) (detail_level : Z)
    (progress_bar : option ProgressBar) : M str :=
  chunks <- lift (split_text_into_chunks text 400) ;;
  let num_questions := detail_level * 3 in
  qa_pairs <- for_enumerate_try (slice_to chunks num_questions) []
    (fun i chunk qa_pairs =>
      report progress_bar (i + 1) (Z.min (len chunks) num_questions) ;;;
      summary <- summarizer (slice_to chunk 3000) 100 30 false ;;
      let words := py_split summary in
      if 10 <? len words
      then ret (qa_pairs ++ [qa_pair i summary words])
      else ret qa_pairs) ;;
  match qa_pairs with
  | [] => ret (lit "Could not generate Q&A pairs.")
  | _ => ret (py_join [nl; nl] qa_pairs)
  end.

Definition concept_node (p : Z * str) : str :=
  let (i, concept) := p in
  [box_vr; box_h] ++ lit " Concept " ++ str_of_int i ++ [nl]
  ++ [box_v] ++ lit "  " ++ [box_ur; box_h] ++ lit " " ++ concept ++ [nl]
  ++ [box_v] ++ [nl].

Definition concept_map_header : str :=
  [bar_chart] ++ lit " CONCEPT MAP" ++ [nl] ++ str_mul 61%N 50
  ++ [nl; nl] ++ lit "Main Topic" ++ [nl] ++ lit "|" ++ [nl].

Definition generate_concept_map (text : str)
    (summarizer : Summarizer) (detail_level : Z)
    (progress_bar : option ProgressBar) : M str :=
  chunks <- lift (split_text_into_chunks text 500) ;;
  concepts <- for_enumerate_try (slice_to chunks (detail_level * 2)) []
    (fun i chunk concepts =>
      report progress_bar (i + 1) (Z.min (len chunks) (detail_level * 2)) ;;;
      summary <- summarizer (slice_to chunk 3000) 60 20 false ;;
      ret (concepts ++ [summary])) ;;
  match concepts with
  | [] => ret (lit "Could not generate concept map.")
  | _ =>
      ret (fold_left (fun result p => result ++ concept_node p)
             (enumerate 1 concepts) concept_map_header)
  end.

End Generators.

Arguments ret {World A} a.
Arguments raise {World A} e.
Arguments bind {World A B} m k.
Arguments lift {World A} r.
Arguments report {World} progress_bar a b.
Arguments for_try {World A Acc} body i xs acc.
Arguments for_enumerate_try {World A Acc} xs acc body.

(** ** MAIN APP INTERFACE: the generation loop of [main] *)

(** What the loop shows on the page, in order. *)
Inductive ui_event : Type :=
| StMarkdown (body : str)
| StProgress (value : Z)
| ProgressEmpty
| StSuccess (body : str)
| StError (body : str)
| StBalloons.

(** [st.session_state.generated_notes] *)
Record NoteSet : Type := {
  content : gmap (list N) (list N);
  timestamp : str;
  ns_detail_level : Z;
  original_length : Z
}.

Section Orchestrator.

Variable World : Type.

Abbreviation Summ := (Summarizer World) (only parsing).
Abbreviation PBar := (ProgressBar World) (only parsing).

(** The five module-level functions the loop calls, by name. *)
Record GeneratorTable : Type := {
  tbl_comprehensive_summary : str -> Summ -> Z -> option PBar -> M World str;
  tbl_bullet_points : str -> Summ -> Z -> option PBar -> M World str;
  tbl_flashcards : str -> Summ -> Z -> option PBar -> M World str;
  tbl_qa_format : str -> Summ -> Z -> option PBar -> M World str;
  tbl_concept_map : str -> Summ -> Z -> option PBar -> M World str
}.

Definition app_generators : GeneratorTable := {|
  tbl_comprehensive_summary := generate_comprehensive_summary World;
  tbl_bullet_points := generate_bullet_points World;
  tbl_flashcards := generate_flashcards World;
  tbl_qa_format := generate_qa_format World;
  tbl_concept_map := generate_concept_map World
|}.

(** The page state: the collaborators' world and what was shown so far. *)
Definition Page : Type := World * list ui_event.

Definition show (ev : ui_event) : M Page unit :=
  fun p => ((p.1, p.2 ++ [ev]), Ok tt).

(** A generator call, run on the world part of the page. *)
Definition on_world {A} (m : M World A) : M Page A :=
  fun p => let (w', r) := m p.1 in ((w', p.2), r).

Definition white_check_mark : N := 9989%N.   (* U+2705 *)
Definition party_popper : N := 127881%N.     (* U+1F389 *)

Definition all_formats : list str :=
  [lit "Comprehensive Summary"; lit "Bullet Points"; lit "Flashcards";
   lit "Q&A Format"; lit "Concept Map"].

Definition select_formats (note_type : str) : list str :=
  if bool_decide (note_type = lit "All Formats")
  then all_formats else [note_type].

Variable gens : GeneratorTable.
Variable summarizer : Summ.
Variable st_progress_bar : PBar.   (* the object [st.progress(0)] returns *)

(** The [if]/[elif] chain: the new value of the local variable [result],
    which keeps its previous value (or stays unbound) when no branch
    matches. *)
Definition dispatch (fmt input_text : str) (detail_level : Z)
    (result : option str) : M Page (option str) :=
  let call g := bind (on_world (g input_text summarizer detail_level
                                  (Some st_progress_bar)))
                     (fun r => ret (Some r)) in
  if bool_decide (fmt = lit "Comprehensive Summary")
  then call (tbl_comprehensive_summary gens)
  else if bool_decide (fmt = lit "Bullet Points")
  then call (tbl_bullet_points gens)
  else if bool_decide (fmt = lit "Flashcards")
  then call (tbl_flashcards gens)
  else if bool_decide (fmt = lit "Q&A Format")
  then call (tbl_qa_format gens)
  else if bool_decide (fmt = lit "Concept Map")
  then call (tbl_concept_map gens)
  else ret result.

(** The body of the [try] block. *)
Definition try_format (fmt input_text : str) (detail_level : Z)
    (results : gmap (list N) (list N)) (result : option str)
  : M Page (gmap (list N) (list N) * option str) :=
  bind (dispatch fmt input_text detail_level result) (fun result' =>
  match result' with
  | None =>
      raise (OtherException
               (lit "cannot access local variable 'result' where it is not associated with a value"))
  | Some r =>
      let results' := <[fmt := r]> results in
      bind (show ProgressEmpty) (fun _ =>
      bind (show (StSuccess ([white_check_mark] ++ lit " " ++ fmt
                             ++ lit " complete!"))) (fun _ =>
      ret (results', result')))
  end).

Definition error_marker (fmt : str) (e : exn) : str :=
  lit "Error generating " ++ fmt ++ lit ": " ++ exn_str e.

(** [for fmt in formats: ... try: ... except Exception as e: ...]; the
    loop returns the dictionary [results] and the local variable
    [result] as the last iteration left them. *)
Fixpoint run_formats (formats : list str) (input_text : str)
    (detail_level : Z) (results : gmap (list N) (list N))
    (result : option str)
  : M Page (gmap (list N) (list N) * option str) :=
  match formats with
  | [] => ret (results, result)
  | fmt :: rest =>
      bind (show (StMarkdown (lit "### Generating " ++ fmt ++ lit "..."))) (fun _ =>
      bind (show (StProgress 0)) (fun _ =>
      fun p =>
        match try_format fmt input_text detail_level results result p with
        | (p', Ok (results', result')) =>
            run_formats rest input_text detail_level results' result' p'
        | (p', Raise e) =>
            if is_Exception e
            then bind (show (StError (error_marker fmt e))) (fun _ =>
                 bind (show ProgressEmpty) (fun _ =>
                 run_formats rest input_text detail_level results result)) p'
            else (p', Raise e)
        end))
  end.

(** The [Generate] branch of [main] for a non-empty [input_text]:
    returns the new value of [st.session_state.generated_notes].
    [now] is [datetime.now().strftime(..)]. *)
Definition generate_notes (note_type input_text : str) (detail_level : Z)
    (now : str) (generated_notes : option NoteSet)
  : M Page (option NoteSet) :=
  let formats := select_formats note_type in
  bind (run_formats formats input_text detail_level ∅ None) (fun final =>
  let results := final.1 in
  if bool_decide (results = ∅) then ret generated_notes
  else
    let notes := {| content := results;
                    timestamp := now;
                    ns_detail_level := detail_level;
                    original_length := len input_text |} in
    bind (show StBalloons) (fun _ =>
    bind (show (StSuccess ([party_popper] ++ lit " All notes generated successfully! Check the 'View Notes' tab."))) (fun _ =>
    ret (Some notes)))).

End Orchestrator.

Arguments tbl_comprehensive_summary {World} g.
Arguments tbl_bullet_points {World} g.
Arguments tbl_flashcards {World} g.
Arguments tbl_qa_format {World} g.
Arguments tbl_concept_map {World} g.
Arguments app_generators {World}.
Arguments show {World} ev.
Arguments try_format {World} gens summarizer st_progress_bar fmt input_text
  detail_level results result.
Arguments run_formats {World} gens summarizer st_progress_bar formats
  input_text detail_level results result.
Arguments generate_notes {World} gens summarizer st_progress_bar note_type
  input_text detail_level now generated_notes.

(** ** TEXT EXTRACTION FUNCTIONS and the input of [main] *)

(** [s.replace(old, new)]: occurrences of [old] are replaced left to
    right without overlap; an empty [old] matches before every character
    and at the end. *)
Fixpoint replace_go (old new : str) (skip : nat) (s : str) : str :=
  match s with
  | [] => []
  | c :: s' =>
      match skip with
      | S k => replace_go old new k s'
      | O =>
          if startswith s old
          then new ++ replace_go old new (length old - 1) s'
          else c :: replace_go old new 0 s'
      end
  end.

Definition py_replace (s old new : str) : str :=
  match old with
  | [] => new ++ flat_map (fun c => c :: new) s
  | _ => replace_go old new 0 s
  end.

Section Input.

Variable World : Type.

(** The uploaded file and the libraries that read it, as far as the
    extraction functions use them: [PyPDF2.PdfReader(f).pages],
    [page.extract_text()], the paragraph texts of [docx.Document(f)],
    [f.read().decode('utf-8')], [f.type] and [f.name]. *)
Variables File PdfPage : Type.
Variable PdfReader_pages : File -> result (list PdfPage).
Variable page_extract_text : PdfPage -> result str.
Variable Document_paragraph_texts : File -> result (list str).
Variable read_decode_utf8 : File -> result str.
Variable file_type : File -> str.
Variable file_name : File -> str.

(** [try: <body> except Exception as e: st.error(f"{label}{str(e)}");
    return ""] around a body that returns its value. *)
Definition try_extract (label : str) (body : result str) : M (Page World) str :=
  match body with
  | Ok text => ret text
  | Raise e =>
      if is_Exception e
      then bind (show (StError (label ++ exn_str e))) (fun _ => ret [])
      else raise e
  end.

(** [for page in pdf_reader.pages: text += page.extract_text() + "\n"] *)
Fixpoint pdf_pages_text (pages : list PdfPage) (text : str) : result str :=
  match pages with
  | [] => Ok text
  | page :: rest =>
      match page_extract_text page with
      | Ok t => pdf_pages_text rest (text ++ (t ++ [nl]))
      | Raise e => Raise e
      end
  end.

Definition extract_text_from_pdf (uploaded_file : File) : M (Page World) str :=
  try_extract (lit "Error reading PDF: ")
    match PdfReader_pages uploaded_file with
    | Raise e => Raise e
    | Ok pages =>
        match pdf_pages_text pages [] with
        | Raise e => Raise e
        | Ok text => Ok (py_strip text)
        end
    end.

Definition extract_text_from_docx (uploaded_file : File) : M (Page World) str :=
  try_extract (lit "Error reading DOCX: ")
    match Document_paragraph_texts uploaded_file with
    | Raise e => Raise e
    | Ok paragraphs => Ok (py_strip (py_join [nl] paragraphs))
    end.

Definition extract_text_from_txt (uploaded_file : File) : M (Page World) str :=
  try_extract (lit "Error reading TXT: ")
    match read_decode_utf8 uploaded_file with
    | Raise e => Raise e
    | Ok text => Ok (py_strip text)
    end.

(** The "Process input" part of [main]: the text of the uploaded file,
    overridden by the pasted text when there is one. *)
Definition select_input (uploaded_file : option File) (pasted_text : str)
  : M (Page World) str :=
  bind
    match uploaded_file with
    | None => ret []
    | Some f =>
        bind
          (if bool_decide (file_type f = lit "application/pdf")
           then extract_text_from_pdf f
           else if bool_decide
                     (file_type f
                      = lit "application/vnd.openxmlformats-officedocument.wordprocessingml.document")
           then extract_text_from_docx f
           else if bool_decide (file_type f = lit "text/plain")
           then extract_text_from_txt f
           else ret [])
          (fun input_text =>
             match input_text with
             | [] => ret input_text
             | _ =>
                 bind (show
                         (StSuccess ([9989%N] ++ lit " Extracted "
                                     ++ str_of_int (len input_text)
                                     ++ lit " characters from "
                                     ++ file_name f)))
                      (fun _ => ret input_text)
             end)
    end
    (fun input_text =>
       match pasted_text with
       | [] => ret input_text
       | _ => ret pasted_text
       end).

Variable gens : GeneratorTable World.
Variable summarizer : Summarizer World.   (* what [load_summarizer()] returns *)
Variable st_progress_bar : ProgressBar World.

(** The "Generate notes" part of [main]. *)
Definition on_generate (generate_btn : bool) (note_type input_text : str)
    (detail_level : Z) (now : str) (generated_notes : option NoteSet)
  : M (Page World) (option NoteSet) :=
  if generate_btn
  then
    match input_text with
    | [] =>
        bind (show
                (StError ([9888%N; 65039%N]
                          ++ lit " Please provide some study material!")))
             (fun _ => ret generated_notes)
    | _ =>
        bind (show (StSuccess ([9989%N] ++ lit " Model loaded!")))
             (fun _ =>
        generate_notes gens summarizer st_progress_bar note_type
          input_text detail_level now generated_notes)
    end
  else ret generated_notes.

End Input.

(** ** The "View Notes" tab: display and download *)

Section Download.

(** [str.upper], a builtin this file does not model. *)
Variable upper : str -> str.

(** The HTML shown for one artifact. *)
Definition note_html (content : str) : str :=
  lit "<div class=" ++ [34%N] ++ lit "note-section" ++ [34%N] ++ lit ">"
  ++ py_replace content [nl] (lit "<br>") ++ lit "</div>".

Definition download_header (timestamp : str) (detail_level : Z) : str :=
  [nl] ++ str_mul 61%N 60 ++ [nl]
  ++ [128218%N] ++ lit " AI STUDY NOTES GENERATOR" ++ [nl]
  ++ lit "Generated: " ++ timestamp ++ [nl]
  ++ lit "Detail Level: " ++ str_of_int detail_level ++ lit "/5" ++ [nl]
  ++ str_mul 61%N 60 ++ [nl]
  ++ [nl].

Definition download_section (item : str * str) : str :=
  let (fmt, content) := item in
  [nl; nl] ++ str_mul 61%N 60 ++ [nl] ++ upper fmt ++ [nl]
  ++ str_mul 61%N 60 ++ [nl; nl] ++ content ++ [nl].

(** [download_content] after the loop over [notes['content'].items()];
    [items] is that sequence of pairs. *)
Definition download_content (timestamp : str) (detail_level : Z)
    (items : list (str * str)) : str :=
  fold_left (fun acc item => acc ++ download_section item) items
    (download_header timestamp detail_level).

Definition markdown_content (timestamp : str) (detail_level : Z)
    (items : list (str * str)) : str :=
  py_replace (download_content timestamp detail_level items) [61%N] [35%N].

End Download.

Arguments try_extract {World} label body.
Arguments pdf_pages_text {PdfPage} page_extract_text pages text.
Arguments extract_text_from_pdf {World File PdfPage} PdfReader_pages
  page_extract_text uploaded_file.
Arguments extract_text_from_docx {World File} Document_paragraph_texts
  uploaded_file.
Arguments extract_text_from_txt {World File} read_decode_utf8 uploaded_file.
Arguments select_input {World File PdfPage} PdfReader_pages page_extract_text
  Document_paragraph_texts read_decode_utf8 file_type file_name
  uploaded_file pasted_text.
Arguments on_generate {World} gens summarizer st_progress_bar generate_btn
  note_type input_text detail_level now generated_notes.

(** * Specification vocabulary

    What the properties below are stated with: the words and windows of
    the chunker, the per-chunk outcomes of a generator run, and the
    collaborators and inputs of the concrete runs. *)

(** No character of [w] is whitespace. *)
Definition nonspace (w : str) : Prop := Forall (fun c => isspace c = false) w.

(** What [str.split()] returns: non-empty runs without whitespace. *)
Definition is_word (w : str) : Prop := w <> [] /\ nonspace w.

(** The fixed-size windows of the specification: consecutive groups of
    [k] words, the last one possibly shorter. *)
Fixpoint windows_fuel {A} (fuel k : nat) (ws : list A) : list (list A) :=
  match fuel with
  | O => []
  | S f =>
      match ws with
      | [] => []
      | _ => take k ws :: windows_fuel f k (drop k ws)
      end
  end.

Definition windows {A} (k : nat) (ws : list A) : list (list A) :=
  windows_fuel (length ws) k ws.

(** A window is kept when its rejoined length exceeds 50. *)
Definition long_enough (chunk : str) : bool := 50 <? len chunk.

(** The number of windows, as [range] computes it. *)
Definition window_count (k n : nat) : nat :=
  Z.to_nat (if 0 <? Z.of_nat n
            then (Z.of_nat n - 0 - 1) / Z.of_nat k + 1 else 0).

(** The length test of the source, on the stripped chunk. *)
Definition keep_chunk (chunk : str) : bool := 50 <? len (py_strip chunk).

(** Whether a window survives the length test. *)
Definition keep_window (ws : list str) : bool :=
  long_enough (py_join [space] ws).

(** A text of two words, ["a"] and 51 times ["x"]. *)
Definition x51 : str := repeat 120%N 51.
Definition text_a_x51 : str := lit "a " ++ x51.

(** An outcome that is a value, and one that is an exception. *)
Definition succeeded {A} (r : result A) : Prop :=
  match r with Ok _ => True | Raise _ => False end.

Definition failed {A} (r : result A) : Prop :=
  match r with Ok _ => False | Raise _ => True end.

(** The summaries obtained, in order. *)
Fixpoint successes {A} (rs : list (result A)) : list A :=
  match rs with
  | [] => []
  | Ok s :: rs' => s :: successes rs'
  | Raise _ :: rs' => successes rs'
  end.

(** What a loop gathers from the outcomes when each summary obtained at
    index [i] contributes [post i summary]. *)
Fixpoint collect {B} (post : Z -> str -> list B) (i : Z)
    (rs : list (result str)) : list B :=
  match rs with
  | [] => []
  | Ok s :: rs' => post i s ++ collect post (i + 1) rs'
  | Raise _ :: rs' => collect post (i + 1) rs'
  end.

Section Outcomes.

Variable World : Type.
Variable summarizer : Summarizer World.
Variable progress_bar : option (ProgressBar World).

(** The part of a loop body that can raise: the progress report and the
    summarizer call on the truncated chunk. *)
Definition acquire (den max_length min_length : Z) (i : Z) (chunk : str)
  : M World str :=
  bind (report progress_bar (i + 1) den) (fun _ =>
  summarizer (slice_to chunk 3000) max_length min_length false).

(** The outcomes of [step] on the chunks, called in order from world [w]. *)
Fixpoint outcomes (step : Z -> str -> M World str) (i : Z)
    (chunks : list str) (w : World) : list (result str) :=
  match chunks with
  | [] => []
  | c :: cs => let (w', r) := step i c w in r :: outcomes step (i + 1) cs w'
  end.

Fixpoint world_after (step : Z -> str -> M World str) (i : Z)
    (chunks : list str) (w : World) : World :=
  match chunks with
  | [] => w
  | c :: cs => world_after step (i + 1) cs (step i c w).1
  end.

(** The chunks of a text for a chunk size the generators use. *)
Definition chunks_of (text : str) (max_tokens : Z) : list str :=
  match split_text_into_chunks text max_tokens with
  | Ok chunks => chunks
  | Raise _ => []
  end.

(** The per-chunk outcomes of each generator's run from world [w]. *)
Definition summary_attempts (text : str) (detail_level : Z) (w : World) :=
  let chunks := chunks_of text 400 in
  outcomes (acquire (len chunks) (100 + detail_level * 30)
              (30 + detail_level * 10)) 0 chunks w.

Definition bullet_attempts (text : str) (w : World) :=
  let chunks := chunks_of text 400 in
  outcomes (acquire (len chunks) 120 30) 0 chunks w.

Definition flashcard_attempts (text : str) (detail_level : Z) (w : World) :=
  let chunks := chunks_of text 500 in
  outcomes (acquire (Z.min (len chunks) (detail_level * 5)) 80 20) 0
    (slice_to chunks (detail_level * 5)) w.

Definition qa_attempts (text : str) (detail_level : Z) (w : World) :=
  let chunks := chunks_of text 400 in
  outcomes (acquire (Z.min (len chunks) (detail_level * 3)) 100 30) 0
    (slice_to chunks (detail_level * 3)) w.

Definition concept_attempts (text : str) (detail_level : Z) (w : World) :=
  let chunks := chunks_of text 500 in
  outcomes (acquire (Z.min (len chunks) (detail_level * 2)) 60 20) 0
    (slice_to chunks (detail_level * 2)) w.

End Outcomes.

Arguments acquire {World} summarizer progress_bar den max_length min_length i chunk.
Arguments outcomes {World} step i chunks w.
Arguments world_after {World} step i chunks w.
Arguments summary_attempts {World} summarizer progress_bar text detail_level w.
Arguments bullet_attempts {World} summarizer progress_bar text w.
Arguments flashcard_attempts {World} summarizer progress_bar text detail_level w.
Arguments qa_attempts {World} summarizer progress_bar text detail_level w.
Arguments concept_attempts {World} summarizer progress_bar text detail_level w.

(** What each loop appends for a summary obtained at index [i]: the tail
    of the loop body after the summarizer call. *)
Definition bullet_post (_ : Z) (summary : str) : list str :=
  List.map bullet_point
    (List.filter (fun s => 10 <? len (py_strip s))
       (py_split_sep summary [dot; space])).

Definition flashcard_post (_ : Z) (summary : str) : list str :=
  let sentences := py_split_sep summary [dot; space] in
  if 0 <? len sentences then [flashcard summary sentences] else [].

Definition qa_post (i : Z) (summary : str) : list str :=
  let words := py_split summary in
  if 10 <? len words then [qa_pair i summary words] else [].

(** Collaborators for concrete runs: a summarizer that always raises, one
    that always returns the same summary, and one that answers from a
    list of prepared results, one per call. *)
Definition failing_summarizer : Summarizer unit :=
  fun _ _ _ _ w => (w, Raise (OtherException (lit "model unavailable"))).

Definition const_summarizer (summary : str) : Summarizer unit :=
  fun _ _ _ _ w => (w, Ok summary).

Definition scripted_summarizer : Summarizer (list (result str)) :=
  fun _ _ _ _ w =>
    match w with
    | [] => ([], Raise (OtherException (lit "no more answers")))
    | r :: w' => (w', r)
    end.

(** A text with one chunk: a single word of 51 characters. *)
Definition one_chunk_text : str := x51.

(** A text with two chunks for a chunk size of 400 words: 430 words of
    one character each. *)
Definition two_chunk_text : str :=
  py_join [space] (repeat [120%N] 430).

(** The pair emitted for the attempted chunk at 1-based position [n]. *)
Definition qa_entry (n : Z) (summary : str) : str :=
  (lit "Q" ++ str_of_int n ++ lit ": Explain - "
   ++ py_join [space] (slice_to (py_split summary) 8) ++ lit "...?")
  ++ [nl] ++ (lit "A" ++ str_of_int n ++ lit ": " ++ summary).

(** The pairs emitted for numbered outcomes: one per summary of more than
    ten words, labelled with the number of its outcome. *)
Definition qa_emitted (numbered : list (Z * result str)) : list str :=
  flat_map (fun p : Z * result str =>
              match p.2 with
              | Ok summary =>
                  if 10 <? len (py_split summary)
                  then [qa_entry p.1 summary] else []
              | Raise _ => []
              end) numbered.

(** A run of two attempts in which the first summary is too short. *)
Definition short_then_long : list (result str) :=
  [Ok (lit "Too short.");
   Ok (lit "one two three four five six seven eight nine ten eleven twelve.")].

(** The block of the card with number [n]. *)
Definition card_block (p : Z * str) : str :=
  lit "--- Card " ++ str_of_int p.1 ++ lit " ---" ++ [nl] ++ p.2.

(** A bullet entry: the marker, at least 11 more characters, the last of
    them a period. *)
Definition bullet_entry_ok (p : str) : Prop :=
  exists body,
    p = [bullet; space] ++ body
    /\ (11 <= length body)%nat
    /\ last body = Some dot.

(** No character of [s] is a line feed. *)
Definition no_newline (s : str) : Prop := Forall (fun c => c <> nl) s.

(** The summary with a line break inside a sentence. *)
Definition two_line_summary : str := lit "abcdefghijkl" ++ [nl] ++ lit "xy".

(** A progress bar that accepts every value. *)
Definition quiet_progress_bar : ProgressBar unit := fun _ w => (w, Ok tt).

(** The generators of the application, except that building the
    flashcards raises. *)
Definition flashcards_raise : GeneratorTable unit := {|
  tbl_comprehensive_summary := generate_comprehensive_summary unit;
  tbl_bullet_points := generate_bullet_points unit;
  tbl_flashcards := fun _ _ _ _ => raise (OtherException (lit "malformed state"));
  tbl_qa_format := generate_qa_format unit;
  tbl_concept_map := generate_concept_map unit
|}.

(** A run over all formats with these generators, from an empty page. *)
Definition demo_run :=
  generate_notes flashcards_raise
    (const_summarizer (lit "Cells divide by mitosis. Ok."))
    quiet_progress_bar (lit "All Formats") one_chunk_text 3
    (lit "2025-01-01 00:00:00") None (tt, []).

(** The page after the two lines that open an iteration. *)
Definition opened {World : Type} (fmt : str) (p : Page World)
  : Page World :=
  (p.1, (p.2 ++ [StMarkdown (lit "### Generating " ++ fmt ++ lit "...")])
        ++ [StProgress 0]).

(** The page after the [except Exception] handler. *)
Definition handled {World : Type} (fmt : str) (e : exn) (p : Page World)
  : Page World :=
  (p.1, (p.2 ++ [StError (error_marker fmt e)]) ++ [ProgressEmpty]).

(** The page and the results of [demo_run] when the loop reaches
    "Flashcards". *)
Definition demo_before_flashcards :=
  run_formats flashcards_raise
    (const_summarizer (lit "Cells divide by mitosis. Ok."))
    quiet_progress_bar [lit "Comprehensive Summary"; lit "Bullet Points"]
    one_chunk_text 3 ∅ None (tt, []).

(** The length of a word list when every word is counted with one
    separating space. *)
Definition spaced_length (ws : list str) : nat :=
  list_sum (List.map (fun w => S (length w)) ws).

(** Every window but the last has exactly [k] elements, and the last has
    between 1 and [k]. *)
Fixpoint full_but_last {A} (k : nat) (wins : list (list A)) : Prop :=
  match wins with
  | [] => True
  | [w] => (0 < length w <= k)%nat
  | w :: wins' => length w = k /\ full_but_last k wins'
  end.

(** What the collaborators were asked, in order: the progress values
    reported and the calls made to the summarizer. *)
Record summarizer_call : Type := {
  call_text : str;
  call_max_length : Z;
  call_min_length : Z;
  call_do_sample : bool
}.

Inductive trace_event : Type :=
| Progressed (a b : Z)
| Summarized (c : summarizer_call).

(** A summarizer and a progress bar that behave as the given ones and
    also record each request in a log kept beside the world. *)
Definition traced_summarizer {World} (summarizer : Summarizer World)
  : Summarizer (World * list trace_event) :=
  fun text max_length min_length do_sample wl =>
    let (w', r) := summarizer text max_length min_length do_sample wl.1 in
    ((w', wl.2 ++ [Summarized {| call_text := text;
                                 call_max_length := max_length;
                                 call_min_length := min_length;
                                 call_do_sample := do_sample |}]), r).

Definition traced_progress_bar {World} (progress_bar : ProgressBar World)
  : ProgressBar (World * list trace_event) :=
  fun q wl =>
    let (w', r) := progress_bar q wl.1 in
    ((w', wl.2 ++ [Progressed q.1 q.2]), r).

Definition progress_values (log : list trace_event) : list (Z * Z) :=
  flat_map (fun ev => match ev with
                      | Progressed a b => [(a, b)]
                      | Summarized _ => []
                      end) log.

Definition summarizer_calls (log : list trace_event) : list summarizer_call :=
  flat_map (fun ev => match ev with
                      | Progressed _ _ => []
                      | Summarized c => [c]
                      end) log.

(** The log of a generator run that starts from world [w] with an empty
    log. *)
Definition run_log {World A} (m : M (World * list trace_event) A) (w : World)
  : list trace_event :=
  (m (w, [])).1.2.

(** The fractions 1/n, 2/n, .., n/n. *)
Definition fractions (n : Z) : list (Z * Z) :=
  List.map (fun j => (1 + Z.of_nat j, n)) (seq 0 (Z.to_nat n)).

(** The section of the summary with number [n]. *)
Definition section_block (p : Z * str) : str :=
  [pushpin] ++ lit " Section " ++ str_of_int p.1 ++ lit ":" ++ [nl] ++ p.2.

(** A summarizer call made for one of [chunks]: on at most the first 3000
    characters of the chunk, with the length bounds [mx] and [mn] and
    without sampling. *)
Definition call_within (chunks : list str) (mx mn : Z) (c : summarizer_call)
  : Prop :=
  (exists chunk, In chunk chunks /\ call_text c = take 3000 chunk)
  /\ len (call_text c) <= 3000
  /\ call_max_length c = mx
  /\ call_min_length c = mn
  /\ call_do_sample c = false.

(** What one loop iteration with index [i] reports to a traced progress
    bar: nothing without a progress bar or when the division fails. *)
Definition progress_event {World} (progress_bar : option (ProgressBar World))
    (den i : Z) : list trace_event :=
  match progress_bar with
  | Some _ => if den =? 0 then [] else [Progressed (i + 1) den]
  | None => []
  end.

(** What one iteration of the generation loop shows for [fmt]: the
    heading and a fresh progress bar, then either the cleared bar and the
    success line, or the error line and the cleared bar. *)
Definition format_block (p : str * option exn) : list ui_event :=
  [StMarkdown (lit "### Generating " ++ p.1 ++ lit "..."); StProgress 0]
  ++ match p.2 with
     | None =>
         [ProgressEmpty;
          StSuccess ([white_check_mark] ++ lit " " ++ p.1 ++ lit " complete!")]
     | Some e => [StError (error_marker p.1 e); ProgressEmpty]
     end.

(** Readers for concrete runs: a file is the list of its pages (or
    paragraphs), each with the text it yields. *)
Definition demo_pages (f : list (result str)) : result (list (result str)) :=
  Ok f.

Definition demo_page_text (page : result str) : result str := page.

Definition demo_paragraphs (f : list (result str)) : result (list str) :=
  Ok (successes f).

Definition demo_read (f : list (result str)) : result str :=
  Ok (concat (successes f)).

(** [str.upper] on the letters a-z, for concrete runs. *)
Definition ascii_upper (s : str) : str :=
  List.map (fun c => if ((97 <=? c) && (c <=? 122))%N then (c - 32)%N else c) s.

(** An outcome from which the bullet points loop gathers nothing: an
    exception, or a summary without a sentence of more than 10 characters
    once stripped. *)
Definition no_bullet (r : result str) : Prop :=
  match r with
  | Raise _ => True
  | Ok summary =>
      Forall (fun sentence => len (py_strip sentence) <= 10)
        (py_split_sep summary [dot; space])
  end.

(** An outcome from which the Q&A loop gathers nothing: an exception, or
    a summary of at most ten words. *)
Definition no_qa_pair (r : result str) : Prop :=
  match r with
  | Raise _ => True
  | Ok summary => len (py_split summary) <= 10
  end.

(** The call made for [chunk] by a generator with the length bounds [mx]
    and [mn]. *)
Definition call_for (mx mn : Z) (chunk : str) : summarizer_call :=
  {| call_text := take 3000 chunk;
     call_max_length := mx;
     call_min_length := mn;
     call_do_sample := false |}.

(** * Properties *)

(** ** Words and joins *)

Lemma split_ws_go_nonspace (w cur s : str) :
  nonspace w -> split_ws_go cur (w ++ s) = split_ws_go (rev w ++ cur) s.
Proof.
  intros Hw. revert cur.
  induction Hw as [|c w Hc _ IH]; intros cur; simpl; [reflexivity|].
  rewrite Hc, IH, <- app_assoc. reflexivity.
Qed.

Lemma split_ws_go_words (cur s : str) :
  nonspace cur -> Forall is_word (split_ws_go cur s).
Proof.
  revert cur. induction s as [|c s IH]; intros cur Hcur; simpl.
  - destruct cur as [|a cur]; constructor; [|constructor].
    split; [intros E; apply (f_equal (@length _)) in E; simpl in E;
            rewrite length_app in E; simpl in E; lia|].
    unfold nonspace. apply Forall_rev. exact Hcur.
  - destruct (isspace c) eqn:Hc.
    + destruct cur as [|a cur]; [apply IH; constructor|].
      constructor; [|apply IH; constructor].
      split; [intros E; apply (f_equal (@length _)) in E; simpl in E;
              rewrite length_app in E; simpl in E; lia|].
      unfold nonspace. apply Forall_rev. exact Hcur.
    + apply IH. constructor; assumption.
Qed.

Lemma py_split_words (s : str) : Forall is_word (py_split s).
Proof. apply split_ws_go_words. constructor. Qed.

Lemma isspace_space : isspace space = true.
Proof. reflexivity. Qed.

Lemma py_join_cons2 (sep x y : str) (l : list str) :
  py_join sep (x :: y :: l) = x ++ sep ++ py_join sep (y :: l).
Proof. reflexivity. Qed.

Lemma split_ws_go_flush (cur s : str) :
  cur <> [] -> split_ws_go cur (space :: s) = rev cur :: split_ws_go [] s.
Proof. destruct cur; [contradiction|reflexivity]. Qed.

Lemma rev_nonempty {A} (w : list A) : w <> [] -> rev w <> [].
Proof.
  intros Hne E. apply Hne. rewrite <- (rev_involutive w), E. reflexivity.
Qed.

Lemma py_split_join (ws : list str) :
  Forall is_word ws -> py_split (py_join [space] ws) = ws.
Proof.
  unfold py_split. induction 1 as [|w ws [Hne Hw] Hws IH]; [reflexivity|].
  destruct ws as [|w' ws].
  - simpl. rewrite <- (app_nil_r w) at 1.
    rewrite split_ws_go_nonspace by assumption. simpl.
    rewrite app_nil_r. destruct (rev w) eqn:E.
    + exfalso. revert E. apply rev_nonempty. assumption.
    + rewrite <- E, rev_involutive. reflexivity.
  - rewrite py_join_cons2.
    rewrite split_ws_go_nonspace by assumption.
    rewrite app_nil_r.
    change ([space] ++ py_join [space] (w' :: ws))
      with (space :: py_join [space] (w' :: ws)).
    rewrite split_ws_go_flush by (apply rev_nonempty; assumption).
    rewrite rev_involutive, IH. reflexivity.
Qed.

(** Joining joined groups is joining the concatenation, as long as no
    group is empty. *)
Lemma py_join_app (sep : str) (xs ys : list str) :
  xs <> [] -> ys <> [] ->
  py_join sep (xs ++ ys) = py_join sep xs ++ sep ++ py_join sep ys.
Proof.
  intros Hx Hy. induction xs as [|x xs IH]; [contradiction|].
  destruct xs as [|x' xs].
  - simpl. destruct ys; [contradiction|reflexivity].
  - rewrite <- !app_comm_cons, py_join_cons2.
    rewrite app_comm_cons, IH by discriminate.
    rewrite py_join_cons2, <- !app_assoc. reflexivity.
Qed.

Lemma py_join_concat (sep : str) (wss : list (list str)) :
  Forall (fun ws => ws <> []) wss ->
  py_join sep (List.map (py_join sep) wss) = py_join sep (concat wss).
Proof.
  induction 1 as [|ws wss Hne Hall IH]; [reflexivity|].
  destruct wss as [|ws' wss].
  - simpl. rewrite app_nil_r. reflexivity.
  - rewrite !map_cons, py_join_cons2, <- map_cons, IH.
    rewrite (concat_cons ws), py_join_app; [reflexivity|assumption|].
    inversion Hall as [|? ? Hne' _]; subst.
    destruct ws'; [contradiction|discriminate].
Qed.

(** ** [strip] on joined words *)

Lemma lstrip_nonspace_hd (c : N) (s : str) :
  isspace c = false -> lstrip (c :: s) = c :: s.
Proof. intros H. simpl. rewrite H. reflexivity. Qed.

Lemma rstrip_nonspace_last (s : str) (c : N) :
  isspace c = false -> rstrip (s ++ [c]) = s ++ [c].
Proof.
  intros H. unfold rstrip. rewrite rev_app_distr. simpl rev at 2.
  change ([c] ++ rev s) with (c :: rev s).
  rewrite lstrip_nonspace_hd by assumption.
  change (c :: rev s) with ([c] ++ rev s).
  rewrite rev_app_distr, rev_involutive. reflexivity.
Qed.

(** [lstrip] keeps a final non-whitespace character. *)
Lemma lstrip_keeps_last (s : str) (c : N) :
  isspace c = false -> exists t, lstrip (s ++ [c]) = t ++ [c].
Proof.
  intros H. induction s as [|a s IH].
  - exists []. simpl. rewrite H. reflexivity.
  - simpl. destruct (isspace a); [exact IH|].
    exists (a :: s). reflexivity.
Qed.

Lemma py_strip_keeps_last (s : str) (c : N) :
  isspace c = false -> exists t, py_strip (s ++ [c]) = t ++ [c].
Proof.
  intros H. destruct (lstrip_keeps_last s c H) as [t Ht].
  exists t. unfold py_strip. rewrite Ht. apply rstrip_nonspace_last, H.
Qed.

Lemma word_last (w : str) :
  is_word w -> exists t c, w = t ++ [c] /\ isspace c = false.
Proof.
  intros [Hne Hw]. destruct (exists_last Hne) as [t [c ->]].
  exists t, c. split; [reflexivity|].
  apply Forall_app in Hw as [_ Hc]. inversion Hc; assumption.
Qed.

Lemma py_join_last (sep : str) (ws : list str) (w : str) :
  exists t, py_join sep (ws ++ [w]) = t ++ w.
Proof.
  destruct ws as [|w0 ws]; [exists []; reflexivity|].
  exists (py_join sep (w0 :: ws) ++ sep).
  rewrite py_join_app by discriminate. rewrite <- app_assoc. reflexivity.
Qed.

Lemma py_strip_join_words (ws : list str) :
  Forall is_word ws -> py_strip (py_join [space] ws) = py_join [space] ws.
Proof.
  intros Hws. destruct ws as [|w ws]; [reflexivity|].
  assert (Hhd : exists c s, py_join [space] (w :: ws) = c :: s
                            /\ isspace c = false).
  { inversion Hws as [|? ? [Hne Hw] _]; subst.
    destruct w as [|c w]; [contradiction|].
    inversion Hw; subst.
    destruct ws; [exists c, w|eexists c, _]; (split; [reflexivity|assumption]). }
  assert (Hlast : exists t c, py_join [space] (w :: ws) = t ++ [c]
                              /\ isspace c = false).
  { destruct (@exists_last _ (w :: ws)) as [ws' [wl E]]; [discriminate|].
    rewrite E in *. apply Forall_app in Hws as [_ Hwl].
    inversion Hwl as [|? ? Hw _]; subst.
    destruct (word_last _ Hw) as [t [c [-> Hc]]].
    destruct (py_join_last [space] ws' (t ++ [c])) as [t' ->].
    exists (t' ++ t), c. rewrite app_assoc. split; [reflexivity|assumption]. }
  destruct Hhd as [c [s [E1 Hc]]]. destruct Hlast as [t [c' [E2 Hc']]].
  unfold py_strip. rewrite E1, lstrip_nonspace_hd, <- E1, E2 by assumption.
  apply rstrip_nonspace_last. assumption.
Qed.

(** A join of [n >= 1] words has at least [2n - 1] characters. *)
Lemma len_py_join_words (sep : str) (ws : list str) :
  Forall is_word ws -> ws <> [] ->
  (2 * length ws - 1 <= length (py_join (space :: sep) ws))%nat.
Proof.
  induction 1 as [|w ws [Hne _] Hws IH]; [contradiction|]. intros _.
  assert (1 <= length w)%nat by (destruct w; [contradiction|simpl; lia]).
  destruct ws as [|w' ws]; [simpl; lia|].
  rewrite py_join_cons2, !length_app.
  specialize (IH ltac:(discriminate)). simpl length in *. lia.
Qed.

(** ** Windows *)

Section Windows.

Context {A : Type}.
Variable k : nat.
Hypothesis k_pos : (0 < k)%nat.

Lemma windows_fuel_concat (fuel : nat) (ws : list A) :
  (length ws <= fuel)%nat -> concat (windows_fuel fuel k ws) = ws.
Proof using k_pos.
  revert ws. induction fuel as [|f IH]; intros ws Hlen.
  - destruct ws; [reflexivity|simpl in Hlen; lia].
  - destruct ws as [|a ws]; [reflexivity|].
    cbn [windows_fuel concat]. rewrite IH, take_drop; [reflexivity|].
    rewrite length_drop. simpl in *. lia.
Qed.

Lemma windows_fuel_nonempty (fuel : nat) (ws : list A) :
  Forall (fun w => w <> []) (windows_fuel fuel k ws).
Proof using k_pos.
  revert ws. induction fuel as [|f IH]; intros ws; [constructor|].
  destruct ws as [|a ws]; [constructor|].
  cbn [windows_fuel]. constructor; [|apply IH].
  destruct k; [lia|discriminate].
Qed.

Lemma windows_fuel_Forall (P : A -> Prop) (fuel : nat) (ws : list A) :
  Forall P ws -> Forall (Forall P) (windows_fuel fuel k ws).
Proof using Type.
  revert ws. induction fuel as [|f IH]; intros ws Hws; [constructor|].
  destruct ws as [|a ws]; [constructor|].
  cbn [windows_fuel]. constructor.
  - apply Forall_take. assumption.
  - apply IH. apply Forall_drop. assumption.
Qed.

Lemma window_count_S (n : nat) :
  (0 < n)%nat -> window_count k n = S (window_count k (n - k)).
Proof using k_pos.
  intros Hn. unfold window_count.
  destruct (Z.ltb_spec 0 (Z.of_nat n)) as [_|]; [|lia].
  destruct (Z.ltb_spec 0 (Z.of_nat (n - k))) as [Hgt|Hle].
  - replace (Z.of_nat n - 0 - 1)
      with ((Z.of_nat (n - k) - 0 - 1) + 1 * Z.of_nat k) by lia.
    rewrite Z.div_add by lia.
    assert (0 <= (Z.of_nat (n - k) - 0 - 1) / Z.of_nat k)
      by (apply Z.div_pos; lia).
    lia.
  - rewrite Z.div_small by lia. reflexivity.
Qed.

Lemma windows_fuel_index (fuel : nat) (ws : list A) :
  (length ws <= fuel)%nat ->
  windows_fuel fuel k ws
  = List.map (fun j => take k (drop (j * k) ws))
      (seq 0 (window_count k (length ws))).
Proof using k_pos.
  revert ws. induction fuel as [|f IH]; intros ws Hlen.
  - destruct ws; [reflexivity|simpl in Hlen; lia].
  - destruct ws as [|a ws]; [reflexivity|].
    cbn [windows_fuel]. rewrite window_count_S by (simpl; lia).
    rewrite <- cons_seq, map_cons. f_equal.
    rewrite IH by (rewrite length_drop; simpl in *; lia).
    rewrite length_drop, <- seq_shift, List.map_map.
    apply map_ext. intros j. rewrite drop_drop. reflexivity.
Qed.

End Windows.

(** ** The chunker *)

Lemma slice_window {A} (xs : list A) (lo d : Z) :
  0 <= lo -> 0 <= d ->
  slice xs lo (lo + d) = take (Z.to_nat d) (drop (Z.to_nat lo) xs).
Proof.
  intros Hlo Hd. unfold slice, clamp_index, len.
  destruct (Z.ltb_spec lo 0) as [|_]; [lia|].
  destruct (Z.ltb_spec (lo + d) 0) as [|_]; [lia|].
  destruct (Z.le_gt_cases (Z.of_nat (length xs)) lo) as [Hge|Hlt].
  - rewrite !drop_ge by lia. rewrite !take_nil. reflexivity.
  - replace (Z.to_nat (Z.min (Z.of_nat (length xs)) (Z.max 0 lo)))
      with (Z.to_nat lo) by lia.
    destruct (Z.le_gt_cases (Z.of_nat (length xs)) (lo + d)) as [Hge'|Hlt'].
    + rewrite !take_ge; [reflexivity| |]; rewrite length_drop; lia.
    + f_equal. lia.
Qed.

Lemma fold_chunk_step (words : list str) (k : Z) (idxs : list Z)
    (acc : list str) :
  fold_left (chunk_step words k) idxs acc
  = acc ++ List.filter keep_chunk
             (List.map (fun i => py_join [space] (slice words i (i + k))) idxs).
Proof.
  revert acc. induction idxs as [|i idxs IH]; intros acc; simpl.
  - rewrite app_nil_r. reflexivity.
  - rewrite IH. unfold chunk_step, keep_chunk.
    destruct (50 <? len (py_strip _)); [|reflexivity].
    rewrite <- app_assoc. reflexivity.
Qed.

Lemma filter_ext_Forall {A} (f g : A -> bool) (l : list A) :
  Forall (fun x => f x = g x) l -> List.filter f l = List.filter g l.
Proof.
  induction 1 as [|x l Hx _ IH]; [reflexivity|].
  simpl. rewrite Hx, IH. reflexivity.
Qed.

Lemma filter_map_comm {A B} (f : A -> B) (p : B -> bool) (l : list A) :
  List.filter p (List.map f l)
  = List.map f (List.filter (fun x => p (f x)) l).
Proof.
  induction l as [|x l IH]; [reflexivity|].
  simpl. destruct (p (f x)); simpl; rewrite IH; reflexivity.
Qed.

(** The loop over [range(0, len(words), max_tokens)] computes the windows
    of the specification and keeps the long ones. *)
Lemma split_text_into_chunks_windows (text : str) (k : Z) :
  1 <= k ->
  split_text_into_chunks text k
  = Ok (List.filter long_enough
          (List.map (py_join [space])
             (windows (Z.to_nat k) (py_split text)))).
Proof.
  intros Hk. unfold split_text_into_chunks, py_range.
  destruct (Z.eqb_spec k 0) as [|_]; [lia|].
  destruct (Z.ltb_spec 0 k) as [_|]; [|lia]. rewrite andb_true_l.
  destruct (Z.ltb_spec k 0) as [|_]; [lia|]. rewrite andb_false_l.
  f_equal. rewrite fold_chunk_step, app_nil_l.
  set (words := py_split text).
  assert (Hwin : List.map (fun i => py_join [space] (slice words i (i + k)))
            (List.map (fun j => 0 + Z.of_nat j * k)
               (seq 0 (Z.to_nat (if 0 <? len words
                                 then (len words - 0 - 1) / k + 1 else 0))))
          = List.map (py_join [space]) (windows (Z.to_nat k) words)).
  { unfold windows. rewrite (windows_fuel_index (Z.to_nat k)) by lia.
    rewrite !List.map_map. unfold window_count, len.
    rewrite Z2Nat.id by lia. apply map_ext. intros j.
    rewrite slice_window by lia. do 3 f_equal. lia. }
  rewrite Hwin. apply filter_ext_Forall.
  rewrite Forall_map. unfold windows.
  eapply Forall_impl;
    [apply (windows_fuel_Forall (Z.to_nat k) is_word), py_split_words|].
  intros ws Hws. cbn beta. unfold keep_chunk, long_enough.
  rewrite py_strip_join_words by assumption. reflexivity.
Qed.

Lemma rejoin_kept_windows (wins : list (list str)) :
  Forall (Forall is_word) wins -> Forall (fun ws => ws <> []) wins ->
  py_split (py_join [space]
              (List.filter long_enough (List.map (py_join [space]) wins)))
  = concat (List.filter keep_window wins).
Proof.
  intros Hw Hne. rewrite filter_map_comm. fold keep_window.
  assert (Hw' : Forall (Forall is_word) (List.filter keep_window wins)).
  { apply Forall_forall. intros ws Hin. apply list_elem_of_In in Hin.
    apply filter_In in Hin as [Hin _].
    rewrite Forall_forall in Hw. apply Hw, list_elem_of_In, Hin. }
  assert (Hne' : Forall (fun ws => ws <> []) (List.filter keep_window wins)).
  { apply Forall_forall. intros ws Hin. apply list_elem_of_In in Hin.
    apply filter_In in Hin as [Hin _].
    rewrite Forall_forall in Hne. apply Hne, list_elem_of_In, Hin. }
  rewrite py_join_concat by assumption.
  apply py_split_join. apply Forall_concat. assumption.
Qed.

(** With at least 26 words per window every full window is long enough,
    so only the last window can be discarded. *)
Lemma kept_windows_prefix (k fuel : nat) (ws : list str) :
  (26 <= k)%nat -> Forall is_word ws -> (length ws <= fuel)%nat ->
  exists dropped,
    ws = concat (List.filter keep_window (windows_fuel fuel k ws)) ++ dropped
    /\ (dropped = []
        \/ (len (py_join [space] dropped) <= 50
            /\ (length dropped <= k)%nat
            /\ last (windows_fuel fuel k ws) = Some dropped)).
Proof.
  intros Hk. revert ws. induction fuel as [|f IH]; intros ws Hws Hlen.
  - destruct ws; [|simpl in Hlen; lia]. exists []. auto.
  - destruct ws as [|w ws]; [exists []; auto|].
    cbn [windows_fuel]. set (l := w :: ws) in *.
    destruct (Nat.le_gt_cases (length l) k) as [Hshort|Hfull].
    + rewrite take_ge, drop_ge by lia.
      replace (windows_fuel f k []) with (@nil (list str))
        by (destruct f; reflexivity).
      cbn [List.filter]. destruct (keep_window l) eqn:Hkeep.
      * exists []. simpl. rewrite !app_nil_r. auto.
      * exists l. split; [reflexivity|right].
        unfold keep_window, long_enough in Hkeep.
        apply Z.ltb_ge in Hkeep. auto.
    + assert (Hkeep : keep_window (take k l) = true).
      { unfold keep_window, long_enough. apply Z.ltb_lt.
        pose proof (len_py_join_words [] (take k l)) as Hl.
        assert (Hk' : length (take k l) = k) by (rewrite length_take; lia).
        rewrite Hk' in Hl. unfold len.
        assert (take k l <> [])
          by (intros E; rewrite E in Hk'; simpl in Hk'; lia).
        specialize (Hl (Forall_take _ _ _ Hws) ltac:(assumption)). lia. }
      cbn [List.filter]. rewrite Hkeep.
      destruct (IH (drop k l)) as [dropped [E Hd]].
      { apply Forall_drop. assumption. }
      { rewrite length_drop. subst l. simpl in *. lia. }
      exists dropped. split.
      * rewrite concat_cons, <- app_assoc, <- E, take_drop. reflexivity.
      * destruct Hd as [->|[H1 [H2 H3]]]; [auto|right].
        split; [assumption|split; [assumption|]].
        rewrite last_cons, H3. reflexivity.
Qed.

(** C1, as stated, fails: with one word per window the first window
    ["a"] is short and is discarded although it is not a trailing window,
    so the rejoined words are not the text's words with a tail removed. *)
Lemma chunks_rejoin_not_prefix :
  exists chunks,
    split_text_into_chunks text_a_x51 1 = Ok chunks
    /\ py_split text_a_x51 = [lit "a"; x51]
    /\ py_split (py_join [space] chunks) = [x51]
    /\ ~ (exists dropped,
            py_split text_a_x51 = py_split (py_join [space] chunks) ++ dropped).
Proof.
  exists [x51]. split; [vm_compute; reflexivity|].
  split; [vm_compute; reflexivity|].
  split; [vm_compute; reflexivity|].
  intros [dropped E]. vm_compute in E. discriminate E.
Qed.

(** C1 (amended): for [wordsPerChunk >= 1] the chunker returns, and
    joining its chunks with single spaces and splitting again on
    whitespace gives the text's words with the words of every discarded
    window (rejoined length <= 50) removed, wherever that window lies;
    the windows themselves partition the text's words. From 26 words per
    window on, only the last window can be discarded, so the result is
    the text's word sequence with at most that last short window cut
    off. *)
Theorem chunks_rejoin_words (text : str) (k : Z) :
  1 <= k ->
  exists chunks,
    split_text_into_chunks text k = Ok chunks
    /\ concat (windows (Z.to_nat k) (py_split text)) = py_split text
    /\ py_split (py_join [space] chunks)
       = concat (List.filter (fun ws => 50 <? len (py_join [space] ws))
                   (windows (Z.to_nat k) (py_split text)))
    /\ (26 <= k ->
        exists dropped,
          py_split text = py_split (py_join [space] chunks) ++ dropped
          /\ (dropped = []
              \/ (len (py_join [space] dropped) <= 50
                  /\ last (windows (Z.to_nat k) (py_split text))
                     = Some dropped))).
Proof.
  intros Hk. eexists. split; [apply split_text_into_chunks_windows, Hk|].
  assert (Hpos : (0 < Z.to_nat k)%nat) by lia.
  split; [apply windows_fuel_concat; [exact Hpos|reflexivity]|].
  assert (Hre : py_split (py_join [space]
                   (List.filter long_enough
                      (List.map (py_join [space])
                         (windows (Z.to_nat k) (py_split text)))))
                = concat (List.filter keep_window
                            (windows (Z.to_nat k) (py_split text)))).
  { apply rejoin_kept_windows.
    - apply windows_fuel_Forall, py_split_words.
    - apply windows_fuel_nonempty, Hpos. }
  split; [exact Hre|].
  intros Hk26. rewrite Hre.
  destruct (kept_windows_prefix (Z.to_nat k) (length (py_split text))
              (py_split text)) as [dropped [E Hd]];
    [lia|apply py_split_words|reflexivity|].
  exists dropped. split; [exact E|].
  destruct Hd as [->|[H1 [_ H3]]]; [left; reflexivity|right; auto].
Qed.

Lemma chunks_rejoin_words_witness :
  1 <= 1
  /\ exists chunks,
       split_text_into_chunks text_a_x51 1 = Ok chunks
       /\ py_split (py_join [space] chunks)
          = concat (List.filter (fun ws => 50 <? len (py_join [space] ws))
                      (windows (Z.to_nat 1) (py_split text_a_x51))).
Proof.
  split; [lia|].
  destruct (chunks_rejoin_words text_a_x51 1 ltac:(lia))
    as [chunks [H1 [_ [H2 _]]]].
  exists chunks. split; assumption.
Defined.

(** C2: for [wordsPerChunk >= 1] every chunk the chunker emits is longer
    than 50 characters, and the output is exactly the sequence of rejoined
    windows with those of length <= 50 left out: a short window adds
    nothing, and the kept ones stand unmerged, in order. *)
Theorem chunks_longer_than_50 (text : str) (k : Z) :
  1 <= k ->
  exists chunks,
    split_text_into_chunks text k = Ok chunks
    /\ Forall (fun chunk => 50 < len chunk) chunks
    /\ chunks = List.filter (fun chunk => 50 <? len chunk)
                  (List.map (py_join [space])
                     (windows (Z.to_nat k) (py_split text))).
Proof.
  intros Hk. eexists. split; [apply split_text_into_chunks_windows, Hk|].
  split; [|reflexivity].
  apply Forall_forall. intros c Hin. apply list_elem_of_In in Hin.
  apply filter_In in Hin as [_ Hlong]. apply Z.ltb_lt. exact Hlong.
Qed.

Lemma chunks_longer_than_50_witness :
  1 <= 1
  /\ exists chunks,
       split_text_into_chunks text_a_x51 1 = Ok chunks
       /\ Forall (fun chunk => 50 < len chunk) chunks.
Proof.
  split; [lia|].
  destruct (chunks_longer_than_50 text_a_x51 1 ltac:(lia))
    as [chunks [H1 [H2 _]]].
  exists chunks. split; assumption.
Defined.

(** ** Per-chunk outcomes of a generator run *)

Lemma chunks_of_ok (text : str) (k : Z) :
  1 <= k -> split_text_into_chunks text k = Ok (chunks_of text k).
Proof.
  intros Hk. unfold chunks_of.
  rewrite split_text_into_chunks_windows by assumption. reflexivity.
Qed.

Lemma collect_single (i : Z) (rs : list (result str)) :
  collect (fun _ s => [s]) i rs = successes rs.
Proof.
  revert i. induction rs as [|[s|e] rs IH]; intros i; simpl;
    rewrite ?IH; reflexivity.
Qed.

Lemma collect_failed {B} (post : Z -> str -> list B) (i : Z)
    (rs : list (result str)) :
  Forall failed rs -> collect post i rs = [].
Proof.
  intros H. revert i.
  induction H as [|[s|e] rs Hr _ IH]; intros i; simpl;
    [reflexivity|contradiction|apply IH].
Qed.

Lemma collect_Forall {B} (P : B -> Prop) (post : Z -> str -> list B)
    (i : Z) (rs : list (result str)) :
  (forall j s, Forall P (post j s)) -> Forall P (collect post i rs).
Proof.
  intros Hpost. revert i.
  induction rs as [|[s|e] rs IH]; intros i; simpl;
    [constructor|apply Forall_app; split; [apply Hpost|apply IH]|apply IH].
Qed.

Lemma successes_succeeded {A} (rs : list (result A)) :
  Forall succeeded rs -> length (successes rs) = length rs.
Proof.
  induction 1 as [|[s|e] rs Hr _ IH]; simpl;
    [reflexivity|rewrite IH; reflexivity|contradiction].
Qed.

Lemma successes_exists {A} (rs : list (result A)) :
  Exists succeeded rs -> successes rs <> [].
Proof.
  induction 1 as [[s|e] rs Hr|[s|e] rs _ IH]; simpl;
    [discriminate|contradiction|discriminate|exact IH].
Qed.

Section Runs.

Variable World : Type.
Variable summarizer : Summarizer World.
Variable progress_bar : option (ProgressBar World).

Lemma length_outcomes (step : Z -> str -> M World str) (i : Z)
    (chunks : list str) (w : World) :
  length (outcomes step i chunks w) = length chunks.
Proof.
  revert i w. induction chunks as [|c cs IH]; intros i w; simpl;
    [reflexivity|].
  destruct (step i c w) as [w' r]. simpl. rewrite IH. reflexivity.
Qed.

(** A loop whose body first obtains a summary through [step] and then
    appends [post i summary] gathers [collect post] of the outcomes. *)
Lemma for_try_collect {B} (body : Z -> str -> list B -> M World (list B))
    (step : Z -> str -> M World str) (post : Z -> str -> list B) :
  (forall i x acc w,
      body i x acc w
      = match step i x w with
        | (w', Ok s) => (w', Ok (acc ++ post i s))
        | (w', Raise e) => (w', Raise e)
        end) ->
  forall xs i acc w,
    for_try body i xs acc w
    = (world_after step i xs w, acc ++ collect post i (outcomes step i xs w)).
Proof.
  intros Hbody. induction xs as [|x xs IH]; intros i acc w; simpl.
  - rewrite app_nil_r. reflexivity.
  - rewrite Hbody. destruct (step i x w) as [w' [s|e]]; simpl.
    + rewrite IH, <- app_assoc. reflexivity.
    + rewrite IH. reflexivity.
Qed.

Lemma for_enumerate_try_collect {B}
    (body : Z -> str -> list B -> M World (list B))
    (step : Z -> str -> M World str) (post : Z -> str -> list B)
    (xs : list str) (w : World) :
  (forall i x acc w,
      body i x acc w
      = match step i x w with
        | (w', Ok s) => (w', Ok (acc ++ post i s))
        | (w', Raise e) => (w', Raise e)
        end) ->
  for_enumerate_try xs [] body w
  = (world_after step 0 xs w, Ok (collect post 0 (outcomes step 0 xs w))).
Proof.
  intros Hbody. unfold for_enumerate_try.
  rewrite (for_try_collect body step post Hbody). reflexivity.
Qed.

(** Every loop body of the source has the shape [for_try_collect] asks
    for. *)
Ltac body_shape :=
  intros i x acc w0; unfold acquire, bind, ret;
  destruct (report _ _ _ w0) as [w1 [[]|e1]]; [|reflexivity];
  destruct (summarizer _ _ _ _ w1) as [w2 [s|e2]]; reflexivity.

Lemma generate_comprehensive_summary_run (text : str) (D : Z) (w : World) :
  (generate_comprehensive_summary World text summarizer D progress_bar w).2
  = Ok match successes (summary_attempts summarizer progress_bar text D w) with
       | [] => lit "Could not generate summary."
       | summaries =>
           py_join [nl; nl] (List.map section_entry (enumerate 0 summaries))
       end.
Proof.
  unfold generate_comprehensive_summary, summary_attempts.
  unfold bind at 1, lift. rewrite (chunks_of_ok text 400) by lia.
  unfold bind at 1.
  rewrite (for_enumerate_try_collect _
             (acquire summarizer progress_bar (len (chunks_of text 400))
                (100 + D * 30) (30 + D * 10))
             (fun _ s => [s])) by body_shape.
  rewrite collect_single. destruct (successes _); reflexivity.
Qed.

Lemma generate_bullet_points_run (text : str) (D : Z) (w : World) :
  (generate_bullet_points World text summarizer D progress_bar w).2
  = Ok match collect bullet_post 0
               (bullet_attempts summarizer progress_bar text w) with
       | [] => lit "Could not generate bullet points."
       | all_points => py_join [nl] all_points
       end.
Proof.
  unfold generate_bullet_points, bullet_attempts.
  unfold bind at 1, lift. rewrite (chunks_of_ok text 400) by lia.
  unfold bind at 1.
  rewrite (for_enumerate_try_collect _
             (acquire summarizer progress_bar (len (chunks_of text 400))
                120 30) bullet_post) by body_shape.
  destruct (collect _ _ _); reflexivity.
Qed.

Lemma generate_flashcards_run (text : str) (D : Z) (w : World) :
  (generate_flashcards World text summarizer D progress_bar w).2
  = Ok match collect flashcard_post 0
               (flashcard_attempts summarizer progress_bar text D w) with
       | [] => lit "Could not generate flashcards."
       | flashcards =>
           py_join [nl; nl] (List.map card_entry (enumerate 0 flashcards))
       end.
Proof.
  unfold generate_flashcards, flashcard_attempts.
  unfold bind at 1, lift. rewrite (chunks_of_ok text 500) by lia.
  unfold bind at 1.
  rewrite (for_enumerate_try_collect _
             (acquire summarizer progress_bar
                (Z.min (len (chunks_of text 500)) (D * 5)) 80 20)
             flashcard_post).
  - destruct (collect _ _ _); reflexivity.
  - intros i x acc w0; unfold acquire, bind, ret, flashcard_post.
    destruct (report _ _ _ w0) as [w1 [[]|e1]]; [|reflexivity].
    destruct (summarizer _ _ _ _ w1) as [w2 [s|e2]]; [|reflexivity].
    destruct (0 <? len _); [reflexivity|rewrite app_nil_r; reflexivity].
Qed.

Lemma generate_qa_format_run (text : str) (D : Z) (w : World) :
  (generate_qa_format World text summarizer D progress_bar w).2
  = Ok match collect qa_post 0
               (qa_attempts summarizer progress_bar text D w) with
       | [] => lit "Could not generate Q&A pairs."
       | qa_pairs => py_join [nl; nl] qa_pairs
       end.
Proof.
  unfold generate_qa_format, qa_attempts.
  unfold bind at 1, lift. rewrite (chunks_of_ok text 400) by lia.
  unfold bind at 1.
  rewrite (for_enumerate_try_collect _
             (acquire summarizer progress_bar
                (Z.min (len (chunks_of text 400)) (D * 3)) 100 30)
             qa_post).
  - destruct (collect _ _ _); reflexivity.
  - intros i x acc w0; unfold acquire, bind, ret, qa_post.
    destruct (report _ _ _ w0) as [w1 [[]|e1]]; [|reflexivity].
    destruct (summarizer _ _ _ _ w1) as [w2 [s|e2]]; [|reflexivity].
    destruct (10 <? len _); [reflexivity|rewrite app_nil_r; reflexivity].
Qed.

Lemma fold_left_app_concat {A B} (f : A -> list B) (l : list A)
    (init : list B) :
  fold_left (fun acc x => acc ++ f x) l init = init ++ concat (List.map f l).
Proof.
  revert init. induction l as [|x l IH]; intros init; simpl.
  - rewrite app_nil_r. reflexivity.
  - rewrite IH, <- app_assoc. reflexivity.
Qed.

Lemma generate_concept_map_run (text : str) (D : Z) (w : World) :
  (generate_concept_map World text summarizer D progress_bar w).2
  = Ok match successes (concept_attempts summarizer progress_bar text D w) with
       | [] => lit "Could not generate concept map."
       | concepts =>
           concept_map_header
           ++ concat (List.map concept_node (enumerate 1 concepts))
       end.
Proof.
  unfold generate_concept_map, concept_attempts.
  unfold bind at 1, lift. rewrite (chunks_of_ok text 500) by lia.
  unfold bind at 1.
  rewrite (for_enumerate_try_collect _
             (acquire summarizer progress_bar
                (Z.min (len (chunks_of text 500)) (D * 2)) 60 20)
             (fun _ s => [s])) by body_shape.
  rewrite collect_single. destruct (successes _) eqn:E; [reflexivity|].
  unfold ret. cbn [snd]. rewrite fold_left_app_concat. reflexivity.
Qed.

End Runs.

(** ** Fallbacks and totality *)

Lemma py_join_nonempty (sep x : str) (l : list str) :
  x <> [] -> py_join sep (x :: l) <> [].
Proof.
  intros Hx. destruct l as [|y l]; [exact Hx|].
  rewrite py_join_cons2. destruct x; [contradiction|discriminate].
Qed.

Section Returns.

Variable World : Type.
Variable summarizer : Summarizer World.
Variable pb : option (ProgressBar World).
Variables (text : str) (D : Z) (w : World).

Lemma generate_comprehensive_summary_returns :
  exists out,
    (generate_comprehensive_summary World text summarizer D pb w).2 = Ok out
    /\ out <> [].
Proof.
  eexists. split; [apply generate_comprehensive_summary_run|].
  destruct (successes _) as [|s l]; [discriminate|].
  apply py_join_nonempty. discriminate.
Qed.

Lemma generate_bullet_points_returns :
  exists out,
    (generate_bullet_points World text summarizer D pb w).2 = Ok out
    /\ out <> [].
Proof.
  eexists. split; [apply generate_bullet_points_run|].
  pose proof (collect_Forall (fun p : str => p <> []) bullet_post 0
                (bullet_attempts summarizer pb text w)) as Hall.
  destruct (collect _ _ _) as [|p l]; [discriminate|].
  apply py_join_nonempty.
  assert (Hp : Forall (fun p : str => p <> []) (p :: l)).
  { apply Hall. intros j s. unfold bullet_post. apply Forall_map.
    apply Forall_forall. intros; discriminate. }
  inversion Hp; assumption.
Qed.

Lemma generate_flashcards_returns :
  exists out,
    (generate_flashcards World text summarizer D pb w).2 = Ok out
    /\ out <> [].
Proof.
  eexists. split; [apply generate_flashcards_run|].
  destruct (collect _ _ _) as [|p l]; [discriminate|].
  apply py_join_nonempty. discriminate.
Qed.

Lemma generate_qa_format_returns :
  exists out,
    (generate_qa_format World text summarizer D pb w).2 = Ok out
    /\ out <> [].
Proof.
  eexists. split; [apply generate_qa_format_run|].
  pose proof (collect_Forall (fun p : str => p <> []) qa_post 0
                (qa_attempts summarizer pb text D w)) as Hall.
  destruct (collect _ _ _) as [|p l]; [discriminate|].
  apply py_join_nonempty.
  assert (Hp : Forall (fun p : str => p <> []) (p :: l)).
  { apply Hall. intros j s. unfold qa_post.
    destruct (10 <? _); repeat constructor. discriminate. }
  inversion Hp; assumption.
Qed.

Lemma generate_concept_map_returns :
  exists out,
    (generate_concept_map World text summarizer D pb w).2 = Ok out
    /\ out <> [].
Proof.
  eexists. split; [apply generate_concept_map_run|].
  destruct (successes _) as [|s l]; discriminate.
Qed.

End Returns.

(** C10: whatever the summarizer and the progress bar do, every format
    generator returns, and returns a non-empty string: no exception
    leaves the per-chunk handler, and nothing outside it raises. *)
Theorem generators_total (World : Type)
    (summarizer : Summarizer World) (pb : option (ProgressBar World))
    (text : str) (D : Z) (w : World) :
  (exists out,
      (generate_comprehensive_summary World text summarizer D pb w).2 = Ok out
      /\ out <> [])
  /\ (exists out,
         (generate_bullet_points World text summarizer D pb w).2 = Ok out
         /\ out <> [])
  /\ (exists out,
         (generate_flashcards World text summarizer D pb w).2 = Ok out
         /\ out <> [])
  /\ (exists out,
         (generate_qa_format World text summarizer D pb w).2 = Ok out
         /\ out <> [])
  /\ (exists out,
         (generate_concept_map World text summarizer D pb w).2 = Ok out
         /\ out <> []).
Proof.
  split; [apply generate_comprehensive_summary_returns|].
  split; [apply generate_bullet_points_returns|].
  split; [apply generate_flashcards_returns|].
  split; [apply generate_qa_format_returns|].
  apply generate_concept_map_returns.
Qed.

(** ** Concept map *)

(** C4, as stated, fails: with one successful concept the output starts
    with the banner line, not with the line "Main Topic". *)
Lemma concept_map_starts_with_banner :
  Exists succeeded
    (concept_attempts (const_summarizer (lit "Cells divide.")) None
       one_chunk_text 3 tt)
  /\ exists out,
       (generate_concept_map unit one_chunk_text
          (const_summarizer (lit "Cells divide.")) 3 None tt).2 = Ok out
       /\ startswith out (lit "Main Topic") = false
       /\ startswith out ([bar_chart] ++ lit " CONCEPT MAP" ++ [nl]) = true.
Proof.
  split; [vm_compute; repeat constructor|].
  eexists. split; [vm_compute; reflexivity|].
  split; vm_compute; reflexivity.
Qed.

(** C4 (amended): when at least one attempt succeeds, the concept map is
    the banner line, a rule of fifty "=", an empty line, the line
    "Main Topic", the line "|", and then one node per successful concept,
    in chunk order, numbered from 1. *)
Theorem concept_map_layout (World : Type)
    (summarizer : Summarizer World) (pb : option (ProgressBar World))
    (text : str) (D : Z) (w : World) :
  Exists succeeded (concept_attempts summarizer pb text D w) ->
  (generate_concept_map World text summarizer D pb w).2
  = Ok ([bar_chart] ++ lit " CONCEPT MAP" ++ [nl]
        ++ repeat 61%N 50 ++ [nl]
        ++ [nl]
        ++ lit "Main Topic" ++ [nl]
        ++ lit "|" ++ [nl]
        ++ concat
             (List.map
                (fun p : Z * str =>
                   [box_vr; box_h] ++ lit " Concept " ++ str_of_int p.1 ++ [nl]
                   ++ [box_v] ++ lit "  " ++ [box_ur; box_h] ++ lit " "
                   ++ p.2 ++ [nl]
                   ++ [box_v] ++ [nl])
                (enumerate 1
                   (successes (concept_attempts summarizer pb text D w))))).
Proof.
  intros Hex. rewrite generate_concept_map_run.
  pose proof (successes_exists _ Hex) as Hne.
  destruct (successes _) as [|s l] eqn:E; [contradiction|].
  rewrite (map_ext concept_node
             (fun p : Z * str =>
                [box_vr; box_h] ++ lit " Concept " ++ str_of_int p.1 ++ [nl]
                ++ [box_v] ++ lit "  " ++ [box_ur; box_h] ++ lit " "
                ++ p.2 ++ [nl]
                ++ [box_v] ++ [nl]))
    by (intros [n c]; reflexivity).
  reflexivity.
Qed.

Lemma concept_map_layout_witness :
  Exists succeeded
    (concept_attempts (const_summarizer (lit "Cells divide.")) None
       one_chunk_text 3 tt)
  /\ exists nodes,
       (generate_concept_map unit one_chunk_text
          (const_summarizer (lit "Cells divide.")) 3 None tt).2
       = Ok ([bar_chart] ++ lit " CONCEPT MAP" ++ [nl]
             ++ repeat 61%N 50 ++ [nl] ++ [nl]
             ++ lit "Main Topic" ++ [nl] ++ lit "|" ++ [nl] ++ nodes).
Proof.
  assert (H : Exists succeeded
                (concept_attempts (const_summarizer (lit "Cells divide."))
                   None one_chunk_text 3 tt))
    by (vm_compute; repeat constructor).
  split; [exact H|].
  eexists. exact (concept_map_layout unit _ None one_chunk_text 3 tt H).
Defined.

(** ** Detail level *)

Lemma slice_to_nonneg {A} (xs : list A) (hi : Z) :
  0 <= hi -> slice_to xs hi = take (Z.to_nat (Z.min (len xs) hi)) xs.
Proof.
  intros Hhi. unfold slice_to, clamp_index.
  destruct (Z.ltb_spec hi 0) as [|_]; [lia|].
  f_equal. lia.
Qed.

Lemma length_slice_to {A} (xs : list A) (hi : Z) :
  0 <= hi -> len (slice_to xs hi) = Z.min (len xs) hi.
Proof.
  intros Hhi. rewrite slice_to_nonneg by assumption.
  unfold len. rewrite length_take. lia.
Qed.

Lemma outcomes_ext {World} (step step' : Z -> str -> M World str)
    (i : Z) (chunks : list str) (w : World) :
  (forall j c w', step j c w' = step' j c w') ->
  outcomes step i chunks w = outcomes step' i chunks w.
Proof.
  intros Hext. revert i w.
  induction chunks as [|c cs IH]; intros i w; simpl; [reflexivity|].
  rewrite Hext. destruct (step' i c w) as [w' r]. rewrite IH. reflexivity.
Qed.

Lemma bind_lift_ok {World A B} (a : A) (k : A -> M World B) (w : World) :
  bind (lift (Ok a)) k w = k a w.
Proof. reflexivity. Qed.

(** C9: the bullet points do not depend on the detail level. The detail
    level reaches the other generators only through the chunk cap
    (flashcards, Q&A, concept map: two levels that cap the chunks at the
    same count give the same result) and through the length bounds handed
    to the summarizer (comprehensive summary: a summarizer that ignores
    them gives the same result at every level). *)
Theorem detail_level_influence (World : Type)
    (summarizer : Summarizer World) (pb : option (ProgressBar World))
    (text : str) (D1 D2 : Z) (w : World) :
  generate_bullet_points World text summarizer D1 pb w
  = generate_bullet_points World text summarizer D2 pb w
  /\ (0 <= D1 -> 0 <= D2 ->
      Z.min (len (chunks_of text 500)) (D1 * 5)
      = Z.min (len (chunks_of text 500)) (D2 * 5) ->
      generate_flashcards World text summarizer D1 pb w
      = generate_flashcards World text summarizer D2 pb w)
  /\ (0 <= D1 -> 0 <= D2 ->
      Z.min (len (chunks_of text 400)) (D1 * 3)
      = Z.min (len (chunks_of text 400)) (D2 * 3) ->
      generate_qa_format World text summarizer D1 pb w
      = generate_qa_format World text summarizer D2 pb w)
  /\ (0 <= D1 -> 0 <= D2 ->
      Z.min (len (chunks_of text 500)) (D1 * 2)
      = Z.min (len (chunks_of text 500)) (D2 * 2) ->
      generate_concept_map World text summarizer D1 pb w
      = generate_concept_map World text summarizer D2 pb w)
  /\ ((forall chunk mx mn mx' mn' w',
          summarizer chunk mx mn false w' = summarizer chunk mx' mn' false w') ->
      (generate_comprehensive_summary World text summarizer D1 pb w).2
      = (generate_comprehensive_summary World text summarizer D2 pb w).2).
Proof.
  split; [reflexivity|].
  split; [|split; [|split]].
  - intros H1 H2 Hcap. unfold generate_flashcards.
    rewrite (chunks_of_ok text 500), !bind_lift_ok by lia. cbv beta.
    rewrite !slice_to_nonneg, Hcap by lia. reflexivity.
  - intros H1 H2 Hcap. unfold generate_qa_format.
    rewrite (chunks_of_ok text 400), !bind_lift_ok by lia. cbv beta.
    rewrite !slice_to_nonneg, Hcap by lia. reflexivity.
  - intros H1 H2 Hcap. unfold generate_concept_map.
    rewrite (chunks_of_ok text 500), !bind_lift_ok by lia. cbv beta.
    rewrite !slice_to_nonneg, Hcap by lia. reflexivity.
  - intros Hign. rewrite !generate_comprehensive_summary_run.
    unfold summary_attempts.
    rewrite (outcomes_ext
               (acquire summarizer pb (len (chunks_of text 400))
                  (100 + D1 * 30) (30 + D1 * 10))
               (acquire summarizer pb (len (chunks_of text 400))
                  (100 + D2 * 30) (30 + D2 * 10))); [reflexivity|].
    intros j c w'. unfold acquire, bind.
    destruct (report pb (j + 1) _ w') as [w1 [[]|e]]; [apply Hign|reflexivity].
Qed.

Lemma detail_level_influence_witness :
  0 <= 1 /\ 0 <= 5
  /\ Z.min (len (chunks_of one_chunk_text 500)) (1 * 5)
     = Z.min (len (chunks_of one_chunk_text 500)) (5 * 5)
  /\ generate_bullet_points unit one_chunk_text
       (const_summarizer (lit "Cells divide.")) 1 None tt
     = generate_bullet_points unit one_chunk_text
         (const_summarizer (lit "Cells divide.")) 5 None tt
  /\ generate_flashcards unit one_chunk_text
       (const_summarizer (lit "Cells divide.")) 1 None tt
     = generate_flashcards unit one_chunk_text
         (const_summarizer (lit "Cells divide.")) 5 None tt
  /\ (generate_comprehensive_summary unit one_chunk_text
        (const_summarizer (lit "Cells divide.")) 1 None tt).2
     = (generate_comprehensive_summary unit one_chunk_text
          (const_summarizer (lit "Cells divide.")) 5 None tt).2.
Proof.
  destruct (detail_level_influence unit
              (const_summarizer (lit "Cells divide.")) None
              one_chunk_text 1 5 tt) as [B [F [_ [_ S]]]].
  assert (Hcap : Z.min (len (chunks_of one_chunk_text 500)) (1 * 5)
                 = Z.min (len (chunks_of one_chunk_text 500)) (5 * 5))
    by (vm_compute; reflexivity).
  split; [lia|]. split; [lia|]. split; [exact Hcap|].
  split; [exact B|].
  split; [apply F; [lia|lia|exact Hcap]|].
  apply S. intros; reflexivity.
Defined.

(** ** Q&A numbering *)

Lemma collect_qa_post (i : Z) (rs : list (result str)) :
  collect qa_post i rs = qa_emitted (enumerate (i + 1) rs).
Proof.
  revert i. induction rs as [|[s|e] rs IH]; intros i;
    [reflexivity| |exact (IH (i + 1))].
  cbn [collect enumerate qa_emitted flat_map snd fst].
  rewrite IH. unfold qa_post. destruct (10 <? _); reflexivity.
Qed.

Lemma py_join_hd (sep x : str) (l : list str) :
  exists tail, py_join sep (x :: l) = x ++ tail.
Proof.
  destruct l as [|y l]; [exists []; simpl; rewrite app_nil_r; reflexivity|].
  eexists. apply py_join_cons2.
Qed.

(** C6: the Q&A generator attempts the first [3 * D] chunks, and the
    number in each emitted "Q{n}"/"A{n}" pair is the 1-based position of
    its chunk among those attempts, whatever happened to the earlier
    ones; so when the first attempt fails or yields at most ten words and
    the second yields more, the output opens with "Q2". *)
Theorem qa_numbering (World : Type)
    (summarizer : Summarizer World) (pb : option (ProgressBar World))
    (text : str) (D : Z) (w : World) :
  (generate_qa_format World text summarizer D pb w).2
  = Ok match qa_emitted
               (enumerate 1 (qa_attempts summarizer pb text D w)) with
       | [] => lit "Could not generate Q&A pairs."
       | pairs => py_join [nl; nl] pairs
       end
  /\ length (qa_attempts summarizer pb text D w)
     = length (slice_to (chunks_of text 400) (D * 3))
  /\ (0 <= D ->
      len (qa_attempts summarizer pb text D w)
      = Z.min (len (chunks_of text 400)) (3 * D))
  /\ (forall first second rest,
         qa_attempts summarizer pb text D w = first :: Ok second :: rest ->
         match first with
         | Ok summary => len (py_split summary) <= 10
         | Raise _ => True
         end ->
         10 < len (py_split second) ->
         exists tail,
           (generate_qa_format World text summarizer D pb w).2
           = Ok (lit "Q2: Explain - " ++ tail)).
Proof.
  assert (Hrun := generate_qa_format_run World summarizer pb text D w).
  rewrite collect_qa_post in Hrun.
  split; [exact Hrun|].
  split; [apply length_outcomes|].
  split.
  - intros HD. unfold len, qa_attempts. rewrite length_outcomes.
    fold (len (slice_to (chunks_of text 400) (D * 3))).
    rewrite length_slice_to by lia. f_equal. lia.
  - intros first second rest E Hfirst Hsecond. rewrite Hrun, E.
    cbn [enumerate qa_emitted flat_map snd fst].
    assert (Hnone : match first with
                    | Ok summary =>
                        if 10 <? len (py_split summary)
                        then [qa_entry (0 + 1) summary] else []
                    | Raise _ => []
                    end = []).
    { destruct first as [s|e]; [|reflexivity].
      destruct (Z.ltb_spec 10 (len (py_split s))); [lia|reflexivity]. }
    rewrite Hnone, app_nil_l.
    destruct (Z.ltb_spec 10 (len (py_split second))) as [_|]; [|lia].
    cbn [app].
    destruct (py_join_hd [nl; nl] (qa_entry (0 + 1 + 1) second)
                (flat_map
                   (fun p : Z * result str =>
                      match p.2 with
                      | Ok summary =>
                          if 10 <? len (py_split summary)
                          then [qa_entry p.1 summary] else []
                      | Raise _ => []
                      end) (enumerate (0 + 1 + 1 + 1) rest))) as [tail ->].
    eexists. unfold qa_entry. rewrite <- !app_assoc. reflexivity.
Qed.

Lemma qa_numbering_witness :
  0 <= 3
  /\ len (qa_attempts scripted_summarizer None two_chunk_text 3 short_then_long)
     = Z.min (len (chunks_of two_chunk_text 400)) (3 * 3)
  /\ exists tail,
       (generate_qa_format _ two_chunk_text scripted_summarizer 3 None
          short_then_long).2
       = Ok (lit "Q2: Explain - " ++ tail).
Proof.
  destruct (qa_numbering _ scripted_summarizer None two_chunk_text 3
              short_then_long) as [_ [_ [Hlen Hgap]]].
  split; [lia|]. split; [apply Hlen; lia|].
  apply (Hgap (Ok (lit "Too short."))
           (lit "one two three four five six seven eight nine ten eleven twelve.")
           []).
  - vm_compute. reflexivity.
  - vm_compute. discriminate.
  - vm_compute. reflexivity.
Defined.

(** ** Flashcards *)

Lemma split_sep_go_nonempty (sep : str) (skip : nat) (cur s : str) :
  split_sep_go sep skip cur s <> [].
Proof.
  revert skip cur. induction s as [|c s IH]; intros skip cur;
    cbn [split_sep_go]; [discriminate|].
  destruct skip; [|apply IH].
  destruct (startswith (c :: s) sep); [discriminate|apply IH].
Qed.

Lemma flashcard_post_single (i : Z) (summary : str) :
  flashcard_post i summary
  = [flashcard summary (py_split_sep summary [dot; space])].
Proof.
  unfold flashcard_post.
  pose proof (split_sep_go_nonempty [dot; space] 0 [] summary) as Hne.
  fold (py_split_sep summary [dot; space]) in Hne.
  destruct (py_split_sep summary [dot; space]); [contradiction|reflexivity].
Qed.

Lemma collect_flashcard_post (i : Z) (rs : list (result str)) :
  collect flashcard_post i rs
  = List.map (fun s => flashcard s (py_split_sep s [dot; space]))
      (successes rs).
Proof.
  revert i. induction rs as [|[s|e] rs IH]; intros i;
    [reflexivity| |exact (IH (i + 1))].
  cbn [collect successes List.map].
  rewrite IH, flashcard_post_single. reflexivity.
Qed.

Lemma card_entry_block (i : Z) (cards : list str) :
  List.map card_entry (enumerate i cards)
  = List.map card_block (enumerate (i + 1) cards).
Proof.
  revert i. induction cards as [|c cards IH]; intros i; [reflexivity|].
  cbn [enumerate List.map]. rewrite IH. reflexivity.
Qed.

Lemma enumerate_fst {A} (i : Z) (xs : list A) :
  List.map fst (enumerate i xs)
  = List.map (fun j => i + Z.of_nat j) (seq 0 (length xs)).
Proof.
  revert i. induction xs as [|x xs IH]; intros i; [reflexivity|].
  cbn [enumerate List.map length seq fst]. f_equal; [lia|].
  rewrite IH, <- seq_shift, List.map_map.
  apply map_ext. intros j. lia.
Qed.

(** C7: for a detail level [D >= 0], when every attempt succeeds the
    flashcards output consists of exactly [min (number of chunks, 5 * D)]
    card blocks, one per attempted chunk in chunk order, with the numbers
    1, 2, .., N (and is the fallback string when that minimum is 0). *)
Theorem flashcards_count (World : Type)
    (summarizer : Summarizer World) (pb : option (ProgressBar World))
    (text : str) (D : Z) (w : World) :
  0 <= D ->
  Forall succeeded (flashcard_attempts summarizer pb text D w) ->
  exists cards,
    len cards = Z.min (len (chunks_of text 500)) (5 * D)
    /\ cards = List.map (fun s => flashcard s (py_split_sep s [dot; space]))
                 (successes (flashcard_attempts summarizer pb text D w))
    /\ List.map fst (enumerate 1 cards)
       = List.map (fun j => 1 + Z.of_nat j) (seq 0 (length cards))
    /\ (generate_flashcards World text summarizer D pb w).2
       = Ok match cards with
            | [] => lit "Could not generate flashcards."
            | _ => py_join [nl; nl] (List.map card_block (enumerate 1 cards))
            end.
Proof.
  intros HD Hall. eexists. split; [|split; [reflexivity|split]].
  - unfold len. rewrite length_map, (successes_succeeded _ Hall).
    unfold flashcard_attempts. rewrite length_outcomes.
    fold (len (slice_to (chunks_of text 500) (D * 5))).
    rewrite length_slice_to by lia. f_equal. lia.
  - apply enumerate_fst.
  - rewrite generate_flashcards_run, collect_flashcard_post.
    destruct (List.map _ (successes _)) as [|c l] eqn:E; [reflexivity|].
    rewrite card_entry_block. reflexivity.
Qed.

Lemma flashcards_count_witness :
  0 <= 1
  /\ Forall succeeded
       (flashcard_attempts (const_summarizer (lit "Cells divide. They grow."))
          None one_chunk_text 1 tt)
  /\ exists cards,
       len cards = Z.min (len (chunks_of one_chunk_text 500)) (5 * 1)
       /\ (generate_flashcards unit one_chunk_text
             (const_summarizer (lit "Cells divide. They grow.")) 1 None tt).2
          = Ok match cards with
               | [] => lit "Could not generate flashcards."
               | _ => py_join [nl; nl]
                        (List.map card_block (enumerate 1 cards))
               end.
Proof.
  assert (H : Forall succeeded
                (flashcard_attempts
                   (const_summarizer (lit "Cells divide. They grow."))
                   None one_chunk_text 1 tt))
    by (vm_compute; repeat constructor).
  split; [lia|]. split; [exact H|].
  destruct (flashcards_count unit
              (const_summarizer (lit "Cells divide. They grow.")) None
              one_chunk_text 1 tt ltac:(lia) H) as [cards [H1 [_ [_ H2]]]].
  exists cards. split; assumption.
Defined.

(** ** Bullet points *)

Lemma endswith_last (s : str) (c : N) :
  endswith s [c] = true -> exists t, s = t ++ [c].
Proof.
  unfold endswith. cbn [rev app]. intros H.
  destruct (rev s) as [|b r] eqn:E; [discriminate|].
  cbn [startswith] in H. apply andb_prop in H as [Hb _].
  apply N.eqb_eq in Hb. subst b.
  exists (rev r). rewrite <- (rev_involutive s), E. reflexivity.
Qed.

Lemma bullet_point_ok (s : str) :
  10 < len (py_strip s) -> bullet_entry_ok (bullet_point s).
Proof.
  intros Hlen. unfold len in Hlen. unfold bullet_point, bullet_entry_ok.
  eexists. split; [reflexivity|].
  destruct (endswith s [dot]) eqn:Hend; cbn [negb].
  - rewrite app_nil_r. split; [lia|].
    destruct (endswith_last _ _ Hend) as [t ->].
    destruct (py_strip_keeps_last t dot eq_refl) as [t' ->].
    apply last_snoc.
  - split; [rewrite length_app; simpl; lia|apply last_snoc].
Qed.

Lemma lstrip_Forall (P : N -> Prop) (s : str) :
  Forall P s -> Forall P (lstrip s).
Proof.
  induction 1 as [|c s Hc Hs IH]; simpl; [constructor|].
  destruct (isspace c); [exact IH|constructor; assumption].
Qed.

Lemma py_strip_Forall (P : N -> Prop) (s : str) :
  Forall P s -> Forall P (py_strip s).
Proof.
  intros H. unfold py_strip, rstrip.
  apply Forall_rev, lstrip_Forall, Forall_rev, lstrip_Forall, H.
Qed.

Lemma split_sep_go_Forall (P : N -> Prop) (sep : str) (skip : nat)
    (cur s : str) :
  Forall P cur -> Forall P s -> Forall (Forall P) (split_sep_go sep skip cur s).
Proof.
  intros Hcur Hs. revert skip cur Hcur.
  induction Hs as [|c s Hc Hs IH]; intros skip cur Hcur; cbn [split_sep_go].
  - repeat constructor. apply Forall_rev, Hcur.
  - destruct skip; [|apply IH, Hcur].
    destruct (startswith (c :: s) sep).
    + constructor; [apply Forall_rev, Hcur|apply IH; constructor].
    + apply IH. constructor; assumption.
Qed.

Lemma bullet_point_no_newline (s : str) :
  no_newline s -> no_newline (bullet_point s).
Proof.
  intros H. unfold bullet_point, no_newline.
  repeat (apply Forall_app; split).
  - repeat constructor. discriminate.
  - repeat constructor. discriminate.
  - apply py_strip_Forall, H.
  - destruct (negb _); repeat constructor. discriminate.
Qed.

Lemma collect_Forall_if {B} (P : B -> Prop) (Q : str -> Prop)
    (post : Z -> str -> list B) (i : Z) (rs : list (result str)) :
  (forall j s, Q s -> Forall P (post j s)) ->
  Forall (fun r => forall s, r = Ok s -> Q s) rs ->
  Forall P (collect post i rs).
Proof.
  intros Hpost Hrs. revert i.
  induction Hrs as [|[s|e] rs Hr _ IH]; intros i; cbn [collect];
    [constructor| |apply IH].
  apply Forall_app. split; [apply Hpost, Hr; reflexivity|apply IH].
Qed.

Lemma startswith_nil (s : str) : startswith s [] = true.
Proof. destruct s; reflexivity. Qed.

Lemma split_lines_go (p cur rest : str) :
  no_newline p ->
  split_sep_go [nl] 0 cur (p ++ rest) = split_sep_go [nl] 0 (rev p ++ cur) rest.
Proof.
  intros Hp. revert cur.
  induction Hp as [|c p Hc _ IH]; intros cur; [reflexivity|].
  rewrite <- app_comm_cons. cbn [split_sep_go startswith].
  destruct (N.eqb_spec nl c) as [E|_]; [symmetry in E; contradiction|].
  cbn [andb]. rewrite IH. cbn [rev]. rewrite <- app_assoc. reflexivity.
Qed.

(** Splitting a newline-join of newline-free entries on newlines gives
    the entries back. *)
Lemma split_lines_join (points : list str) :
  points <> [] -> Forall no_newline points ->
  py_split_sep (py_join [nl] points) [nl] = points.
Proof.
  intros Hne Hall. unfold py_split_sep.
  induction Hall as [|p l Hp Hl IH]; [contradiction|].
  destruct l as [|q l].
  - cbn [py_join]. rewrite <- (app_nil_r p) at 1.
    rewrite split_lines_go by assumption.
    cbn [split_sep_go]. rewrite app_nil_r, rev_involutive. reflexivity.
  - rewrite py_join_cons2, split_lines_go by assumption.
    rewrite app_nil_r.
    change ([nl] ++ py_join [nl] (q :: l)) with (nl :: py_join [nl] (q :: l)).
    cbn [split_sep_go startswith]. rewrite N.eqb_refl, startswith_nil.
    cbn [andb length]. rewrite rev_involutive. f_equal. apply IH. discriminate.
Qed.

(** C8, as stated, fails: a summary with a line break inside a sentence
    yields one bullet entry spread over two lines; the first line does
    not end with a period and the second has no bullet marker. *)
Lemma bullet_lines_broken_by_newline :
  exists out,
    (generate_bullet_points unit one_chunk_text
       (const_summarizer two_line_summary) 3 None tt).2 = Ok out
    /\ out <> lit "Could not generate bullet points."
    /\ py_split_sep out [nl]
       = [[bullet] ++ lit " abcdefghijkl"; lit "xy."]
    /\ endswith ([bullet] ++ lit " abcdefghijkl") [dot] = false
    /\ startswith (lit "xy.") [bullet] = false.
Proof.
  eexists. split; [vm_compute; reflexivity|].
  split; [vm_compute; discriminate|].
  repeat split; vm_compute; reflexivity.
Qed.

(** C8 (amended): the bullet points output, when it is not the fallback
    string, is the newline-join of bullet entries, each made of the
    bullet marker followed by at least 11 characters of which the last is
    a period; when no summary contains a line break, these entries are
    exactly the lines of the output. *)
Theorem bullet_points_entries (World : Type)
    (summarizer : Summarizer World) (pb : option (ProgressBar World))
    (text : str) (D : Z) (w : World) :
  exists out,
    (generate_bullet_points World text summarizer D pb w).2 = Ok out
    /\ (out = lit "Could not generate bullet points."
        \/ exists points,
             points <> []
             /\ out = py_join [nl] points
             /\ Forall bullet_entry_ok points
             /\ (Forall (fun r => forall s, r = Ok s -> no_newline s)
                   (bullet_attempts summarizer pb text w) ->
                 py_split_sep out [nl] = points)).
Proof.
  eexists. split; [apply generate_bullet_points_run|].
  destruct (collect bullet_post 0 (bullet_attempts summarizer pb text w))
    as [|p l] eqn:E; [left; reflexivity|right].
  exists (p :: l). split; [discriminate|]. split; [reflexivity|].
  rewrite <- E. split.
  - apply collect_Forall. intros j s. unfold bullet_post.
    apply Forall_map, Forall_forall. intros x Hin.
    apply list_elem_of_In, filter_In in Hin as [_ Hlen].
    apply bullet_point_ok, Z.ltb_lt, Hlen.
  - intros Hnl. apply split_lines_join; [rewrite E; discriminate|].
    apply (collect_Forall_if _ no_newline); [|exact Hnl].
    intros j s Hs. unfold bullet_post.
    apply Forall_map, Forall_forall. intros x Hin.
    apply list_elem_of_In, filter_In in Hin as [Hin _].
    apply bullet_point_no_newline.
    pose proof (split_sep_go_Forall (fun c => c <> nl) [dot; space] 0 [] s
                  ltac:(constructor) Hs) as Hall.
    rewrite Forall_forall in Hall. apply Hall, list_elem_of_In, Hin.
Qed.

Lemma bullet_points_entries_witness :
  Forall (fun r => forall s, r = Ok s -> no_newline s)
    (bullet_attempts (const_summarizer (lit "Cells divide by mitosis. Ok."))
       None one_chunk_text tt)
  /\ exists out,
       (generate_bullet_points unit one_chunk_text
          (const_summarizer (lit "Cells divide by mitosis. Ok.")) 3 None tt).2
       = Ok out
       /\ (out = lit "Could not generate bullet points."
           \/ exists points,
                Forall bullet_entry_ok points
                /\ py_split_sep out [nl] = points).
Proof.
  assert (H : Forall (fun r => forall s, r = Ok s -> no_newline s)
                (bullet_attempts
                   (const_summarizer (lit "Cells divide by mitosis. Ok."))
                   None one_chunk_text tt)).
  { vm_compute. constructor; [|constructor].
    intros s E. injection E as <-. repeat constructor; discriminate. }
  split; [exact H|].
  destruct (bullet_points_entries unit
              (const_summarizer (lit "Cells divide by mitosis. Ok.")) None
              one_chunk_text 3 tt)
    as [out [Hout [Hfb|[points [_ [_ [Hok Hl]]]]]]].
  - exists out. split; [exact Hout|left; exact Hfb].
  - exists out. split; [exact Hout|right].
    exists points. split; [exact Hok|exact (Hl H)].
Defined.

(** ** The generation loop *)

Section Loop.

Variable World : Type.
Variable gens : GeneratorTable World.
Variable summarizer : Summarizer World.
Variable st_progress_bar : ProgressBar World.

Abbreviation run := (run_formats gens summarizer st_progress_bar) (only parsing).
Abbreviation attempt := (try_format gens summarizer st_progress_bar) (only parsing).

Lemma run_formats_cons (fmt : str) (rest : list str) (input : str) (D : Z)
    (results : gmap (list N) (list N)) (result : option str) (p : Page World) :
  run (fmt :: rest) input D results result p
  = match attempt fmt input D results result (opened fmt p) with
    | (p', Ok (results', result')) => run rest input D results' result' p'
    | (p', Raise e) =>
        if is_Exception e
        then run rest input D results result (handled fmt e p')
        else (p', Raise e)
    end.
Proof.
  cbn [run_formats]. unfold bind at 1 2, show at 1 2. cbn [fst snd].
  unfold opened.
  destruct (try_format _ _ _ _ _ _ _ _ _) as [p' [[rs r]|e]]; [reflexivity|].
  destruct (is_Exception e); reflexivity.
Qed.

Lemma run_formats_app (pre post : list str) (input : str) (D : Z)
    (results : gmap (list N) (list N)) (result : option str) (p : Page World) :
  run (pre ++ post) input D results result p
  = match run pre input D results result p with
    | (p', Ok (results', result')) => run post input D results' result' p'
    | (p', Raise e) => (p', Raise e)
    end.
Proof.
  revert results result p.
  induction pre as [|fmt pre IH]; intros results result p; [reflexivity|].
  rewrite <- app_comm_cons, !run_formats_cons.
  destruct (try_format _ _ _ _ _ _ _ _ _) as [p' [[rs r]|e]]; [apply IH|].
  destruct (is_Exception e); [apply IH|reflexivity].
Qed.

(** What a successful [try] body does: one more entry under [fmt], and a
    longer page. *)
Lemma try_format_ok (fmt input : str) (D : Z)
    (results results' : gmap (list N) (list N)) (result result' : option str)
    (p p' : Page World) :
  attempt fmt input D results result p = (p', Ok (results', result')) ->
  (exists r, results' = <[fmt := r]> results)
  /\ exists more, p'.2 = p.2 ++ more.
Proof.
  unfold try_format. unfold bind at 1.
  intros H.
  assert (Hd : exists more,
             (dispatch World gens summarizer st_progress_bar fmt input D
                result p).1.2 = p.2 ++ more).
  { unfold dispatch.
    repeat (destruct (bool_decide _));
      try (unfold bind, on_world, ret;
           match goal with
           | |- context [?g input summarizer D (Some st_progress_bar) p.1] =>
               destruct (g input summarizer D (Some st_progress_bar) p.1)
                 as [w' [r|e]]
           end; exists []; cbn [fst snd]; rewrite app_nil_r; reflexivity).
    exists []. unfold ret. cbn [fst snd]. rewrite app_nil_r. reflexivity. }
  destruct (dispatch _ _ _ _ _ _ _ _ _) as [p1 [[r|]|e]];
    [|discriminate H|discriminate H].
  unfold bind, show, ret in H. cbn [fst snd] in H.
  injection H as <- <- <-. split; [exists r; reflexivity|].
  destruct Hd as [more Hd]. cbn [fst snd] in *. rewrite Hd.
  eexists. rewrite <- !app_assoc. reflexivity.
Qed.

Lemma try_format_page (fmt input : str) (D : Z)
    (results : gmap (list N) (list N)) (result : option str)
    (p : Page World) :
  exists more,
    (attempt fmt input D results result p).1.2 = p.2 ++ more.
Proof.
  unfold try_format. unfold bind at 1.
  assert (Hd : exists more,
             (dispatch World gens summarizer st_progress_bar fmt input D
                result p).1.2 = p.2 ++ more).
  { unfold dispatch.
    repeat (destruct (bool_decide _));
      try (unfold bind, on_world, ret;
           match goal with
           | |- context [?g input summarizer D (Some st_progress_bar) p.1] =>
               destruct (g input summarizer D (Some st_progress_bar) p.1)
                 as [w' [r|e]]
           end; exists []; cbn [fst snd]; rewrite app_nil_r; reflexivity).
    exists []. unfold ret. cbn [fst snd]. rewrite app_nil_r. reflexivity. }
  destruct Hd as [more Hd].
  destruct (dispatch _ _ _ _ _ _ _ _ _) as [p1 [[r|]|e]]; cbn [fst snd] in *.
  - unfold bind, show, ret. cbn [fst snd]. rewrite Hd.
    eexists. rewrite <- !app_assoc. reflexivity.
  - unfold raise. cbn [fst snd]. exists more. exact Hd.
  - exists more. exact Hd.
Qed.

(** The page only grows during the loop. *)
Lemma run_formats_page (formats : list str) (input : str) (D : Z)
    (results : gmap (list N) (list N)) (result : option str) (p : Page World) :
  exists more, (run formats input D results result p).1.2 = p.2 ++ more.
Proof.
  revert results result p.
  induction formats as [|fmt rest IH]; intros results result p.
  - exists []. cbn. rewrite app_nil_r. reflexivity.
  - rewrite run_formats_cons.
    destruct (try_format_page fmt input D results result (opened fmt p))
      as [m1 H1].
    destruct (try_format _ _ _ _ _ _ _ _ _) as [p' [[rs r]|e]];
      cbn [fst snd] in H1.
    + destruct (IH rs r p') as [m2 H2]. rewrite H2, H1.
      unfold opened. cbn [fst snd]. eexists. rewrite <- !app_assoc. reflexivity.
    + destruct (is_Exception e).
      * destruct (IH results result (handled fmt e p')) as [m2 H2].
        rewrite H2. unfold handled, opened in *. cbn [fst snd] in *.
        rewrite H1. eexists. rewrite <- !app_assoc. reflexivity.
      * cbn [fst snd]. rewrite H1. unfold opened. cbn [fst snd].
        eexists. rewrite <- !app_assoc. reflexivity.
Qed.

(** The loop stores entries under requested formats only. *)
Lemma run_formats_other_keys (formats : list str) (input : str) (D : Z)
    (results results' : gmap (list N) (list N)) (result result' : option str)
    (p p' : Page World) (key : str) :
  run formats input D results result p = (p', Ok (results', result')) ->
  ~ In key formats ->
  results' !! key = results !! key.
Proof.
  revert results result p.
  induction formats as [|fmt rest IH]; intros results result p H Hnot.
  - injection H as _ <- _. reflexivity.
  - rewrite run_formats_cons in H.
    destruct (try_format _ _ _ _ _ _ _ _ _) as [p1 [[rs r]|e]] eqn:E.
    + apply try_format_ok in E as [[v ->] _].
      rewrite (IH _ _ _ H) by (intros Hin; apply Hnot; right; exact Hin).
      apply lookup_insert_ne. intros ->. apply Hnot. left. reflexivity.
    + destruct (is_Exception e); [|discriminate H].
      apply (IH _ _ _ H). intros Hin. apply Hnot. right. exact Hin.
Qed.

End Loop.

(** With the generators of the application itself the [try] body never
    raises for one of the five format names: the handler is there for
    failures the generators do not produce on their own. *)
Lemma try_format_app_generators (World : Type)
    (summarizer : Summarizer World) (st_progress_bar : ProgressBar World)
    (fmt input : str) (D : Z) (results : gmap (list N) (list N))
    (result : option str) (p : Page World) :
  In fmt all_formats ->
  exists out p',
    out <> []
    /\ try_format app_generators summarizer st_progress_bar fmt input D
         results result p
       = (p', Ok (<[fmt := out]> results, Some out)).
Proof.
  intros Hin.
  destruct (generate_comprehensive_summary_returns World summarizer
              (Some st_progress_bar) input D p.1) as [o1 [E1 N1]].
  destruct (generate_bullet_points_returns World summarizer
              (Some st_progress_bar) input D p.1) as [o2 [E2 N2]].
  destruct (generate_flashcards_returns World summarizer
              (Some st_progress_bar) input D p.1) as [o3 [E3 N3]].
  destruct (generate_qa_format_returns World summarizer
              (Some st_progress_bar) input D p.1) as [o4 [E4 N4]].
  destruct (generate_concept_map_returns World summarizer
              (Some st_progress_bar) input D p.1) as [o5 [E5 N5]].
  unfold try_format, dispatch, bind, on_world, ret, show.
  cbn [all_formats In] in Hin.
  destruct Hin as [<-|[<-|[<-|[<-|[<-|[]]]]]];
    repeat (rewrite bool_decide_eq_false_2
              by (intros Habs; vm_compute in Habs; discriminate Habs));
    rewrite bool_decide_eq_true_2 by reflexivity;
    cbn [app_generators tbl_comprehensive_summary tbl_bullet_points
         tbl_flashcards tbl_qa_format tbl_concept_map].
  - destruct (generate_comprehensive_summary _ _ _ _ _ _) as [w' r].
    cbn [snd] in E1. subst r. cbn [fst snd]. eauto.
  - destruct (generate_bullet_points _ _ _ _ _ _) as [w' r].
    cbn [snd] in E2. subst r. cbn [fst snd]. eauto.
  - destruct (generate_flashcards _ _ _ _ _ _) as [w' r].
    cbn [snd] in E3. subst r. cbn [fst snd]. eauto.
  - destruct (generate_qa_format _ _ _ _ _ _) as [w' r].
    cbn [snd] in E4. subst r. cbn [fst snd]. eauto.
  - destruct (generate_concept_map _ _ _ _ _ _) as [w' r].
    cbn [snd] in E5. subst r. cbn [fst snd]. eauto.
Qed.

(** C5, as stated, fails: when building the flashcards raises, the
    resulting NoteSet holds nothing under "Flashcards", neither an
    artifact nor an error marker; the marker only goes to the page. The
    other four formats are generated. *)
Lemma failed_format_leaves_no_marker :
  exists page notes,
    demo_run = (page, Ok (Some notes))
    /\ ~ (exists marker, content notes !! lit "Flashcards" = Some marker)
    /\ In (StError (lit "Error generating Flashcards: malformed state")) page.2
    /\ dom (content notes)
       = list_to_set [lit "Comprehensive Summary"; lit "Bullet Points";
                      lit "Q&A Format"; lit "Concept Map"].
Proof.
  eexists. eexists. split; [vm_compute; reflexivity|].
  split; [intros [marker H]; vm_compute in H; discriminate H|].
  split; [|vm_compute; reflexivity].
  vm_compute. do 10 right. left. reflexivity.
Qed.

(** C5 (amended): when, after the formats [pre] have been processed,
    building the artifact of [fmt] raises an instance of [Exception], the
    loop catches it, shows "Error generating {fmt}: {message}" on the
    page, leaves the results and the page's earlier content as they
    were, and carries on with the remaining formats [post] from there.
    When the loop then completes, the error message is still on the page
    and the results hold nothing under [fmt] (no artifact and no marker)
    unless [fmt] was requested twice or was present beforehand. *)
Theorem failed_format_is_skipped (World : Type)
    (gens : GeneratorTable World) (summarizer : Summarizer World)
    (st_progress_bar : ProgressBar World)
    (pre post : list str) (fmt input : str) (D : Z)
    (results0 results1 : gmap (list N) (list N))
    (result0 result1 : option str) (p0 p1 p2 : Page World) (e : exn) :
  run_formats gens summarizer st_progress_bar pre input D results0 result0 p0
  = (p1, Ok (results1, result1)) ->
  try_format gens summarizer st_progress_bar fmt input D results1 result1
    (opened fmt p1) = (p2, Raise e) ->
  is_Exception e = true ->
  run_formats gens summarizer st_progress_bar (pre ++ fmt :: post) input D
    results0 result0 p0
  = run_formats gens summarizer st_progress_bar post input D
      results1 result1 (handled fmt e p2)
  /\ In (StError (lit "Error generating " ++ fmt ++ lit ": " ++ exn_str e))
       (handled fmt e p2).2
  /\ forall p3 results3 result3,
       run_formats gens summarizer st_progress_bar post input D
         results1 result1 (handled fmt e p2) = (p3, Ok (results3, result3)) ->
       In (StError (lit "Error generating " ++ fmt ++ lit ": " ++ exn_str e))
         p3.2
       /\ (~ In fmt pre -> ~ In fmt post -> results0 !! fmt = None ->
           results3 !! fmt = None).
Proof.
  intros Hpre Htry Hexn.
  assert (Hshown : In (StError (lit "Error generating " ++ fmt ++ lit ": "
                                ++ exn_str e)) (handled fmt e p2).2).
  { unfold handled. cbn [snd]. apply in_or_app. left.
    apply in_or_app. right. left. reflexivity. }
  split; [|split; [exact Hshown|]].
  - rewrite run_formats_app, Hpre, run_formats_cons, Htry, Hexn. reflexivity.
  - intros p3 results3 result3 Hpost. split.
    + destruct (run_formats_page World gens summarizer st_progress_bar post
                  input D results1 result1 (handled fmt e p2)) as [more Hm].
      rewrite Hpost in Hm. cbn [fst snd] in Hm. rewrite Hm.
      apply in_or_app. left. exact Hshown.
    + intros Hnpre Hnpost Hnone.
      rewrite (run_formats_other_keys World gens summarizer st_progress_bar
                 post input D results1 results3 result1 result3 _ p3 fmt
                 Hpost Hnpost).
      rewrite (run_formats_other_keys World gens summarizer st_progress_bar
                 pre input D results0 results1 result0 result1 p0 p1 fmt
                 Hpre Hnpre).
      exact Hnone.
Qed.

Lemma failed_format_is_skipped_witness :
  is_Exception (OtherException (lit "malformed state")) = true
  /\ run_formats flashcards_raise
       (const_summarizer (lit "Cells divide by mitosis. Ok."))
       quiet_progress_bar all_formats one_chunk_text 3 ∅ None (tt, [])
     = run_formats flashcards_raise
         (const_summarizer (lit "Cells divide by mitosis. Ok."))
         quiet_progress_bar [lit "Q&A Format"; lit "Concept Map"]
         one_chunk_text 3
         (match demo_before_flashcards.2 with
          | Ok final => final.1
          | Raise _ => ∅
          end)
         (match demo_before_flashcards.2 with
          | Ok final => final.2
          | Raise _ => None
          end)
         (handled (lit "Flashcards") (OtherException (lit "malformed state"))
            (opened (lit "Flashcards") demo_before_flashcards.1)).
Proof.
  split; [reflexivity|].
  refine (proj1 (failed_format_is_skipped unit flashcards_raise
            (const_summarizer (lit "Cells divide by mitosis. Ok."))
            quiet_progress_bar
            [lit "Comprehensive Summary"; lit "Bullet Points"]
            [lit "Q&A Format"; lit "Concept Map"]
            (lit "Flashcards") one_chunk_text 3 ∅ _ None _ (tt, []) _ _
            (OtherException (lit "malformed state")) _ _ _)).
  - vm_compute. reflexivity.
  - vm_compute. reflexivity.
  - reflexivity.
Defined.

(** ** When the fallback is returned *)

Lemma successes_nil {A} (rs : list (result A)) :
  successes rs = [] -> Forall failed rs.
Proof.
  induction rs as [|[s|e] rs IH]; cbn [successes]; intros H;
    [constructor|discriminate H|].
  constructor; [exact I|apply IH, H].
Qed.

Lemma collect_nil_iff {B} (post : Z -> str -> list B) (Q : str -> Prop)
    (i : Z) (rs : list (result str)) :
  (forall j s, post j s = [] <-> Q s) ->
  collect post i rs = []
  <-> Forall (fun r => match r with Ok s => Q s | Raise _ => True end) rs.
Proof.
  intros Hpost. revert i.
  induction rs as [|[s|e] rs IH]; intros i; cbn [collect].
  - split; [constructor|reflexivity].
  - split.
    + intros H. apply app_eq_nil in H as [H1 H2].
      constructor; [apply (Hpost i), H1|apply (IH (i + 1)), H2].
    + intros H. inversion H as [|? ? Hs Hrs]; subst.
      apply (Hpost i) in Hs. apply (IH (i + 1)) in Hrs.
      rewrite Hs, Hrs. reflexivity.
  - split.
    + intros H. constructor; [exact I|apply (IH (i + 1)), H].
    + intros H. inversion H; subst. apply (IH (i + 1)). assumption.
Qed.

Lemma bullet_post_nil (j : Z) (summary : str) :
  bullet_post j summary = [] <-> no_bullet (Ok summary).
Proof.
  unfold bullet_post, no_bullet.
  induction (py_split_sep summary [dot; space]) as [|x l IH].
  - split; [constructor|reflexivity].
  - cbn [List.filter]. destruct (Z.ltb_spec 10 (len (py_strip x))) as [Hlt|Hle].
    + split; [discriminate|].
      intros H. inversion H; subst. lia.
    + split.
      * intros H. constructor; [exact Hle|apply IH, H].
      * intros H. inversion H; subst. apply IH. assumption.
Qed.

Lemma qa_post_nil (j : Z) (summary : str) :
  qa_post j summary = [] <-> no_qa_pair (Ok summary).
Proof.
  unfold qa_post, no_qa_pair.
  destruct (Z.ltb_spec 10 (len (py_split summary))) as [Hlt|Hle].
  - split; [discriminate|lia].
  - split; [intros _; exact Hle|reflexivity].
Qed.

Lemma Ok_inj {A} (a b : A) : Ok a = Ok b -> a = b.
Proof. intros H. injection H as H. exact H. Qed.

(** A join does not start like a fallback string (with "C") when its
    first entry starts with another character. *)
Lemma py_join_not_fallback (sep x : str) (l : list str) (c : N)
    (fallback : str) :
  c <> 67%N -> (exists t, fallback = 67%N :: t) ->
  py_join sep ((c :: x) :: l) <> fallback.
Proof.
  intros Hc [t ->] H.
  destruct (py_join_hd sep (c :: x) l) as [tail E]. rewrite E in H.
  cbn [app] in H. injection H as H _. contradiction.
Qed.

(** C3, as stated, fails: a summarizer that returns the empty string
    yields no usable result on every call, and yet the comprehensive
    summary, the flashcards and the concept map are not the fallback
    strings: each call still adds a section, a card or a node. *)
Lemma empty_summaries_are_not_failures :
  Forall (fun r => r = Ok [])
    (summary_attempts (const_summarizer []) None one_chunk_text 3 tt)
  /\ (generate_comprehensive_summary unit one_chunk_text (const_summarizer [])
        3 None tt).2
     = Ok ([pushpin] ++ lit " Section 1:" ++ [nl])
  /\ (generate_comprehensive_summary unit one_chunk_text (const_summarizer [])
        3 None tt).2
     <> Ok (lit "Could not generate summary.")
  /\ (generate_flashcards unit one_chunk_text (const_summarizer [])
        3 None tt).2
     <> Ok (lit "Could not generate flashcards.")
  /\ (generate_concept_map unit one_chunk_text (const_summarizer [])
        3 None tt).2
     <> Ok (lit "Could not generate concept map.").
Proof.
  split; [vm_compute; repeat constructor|].
  split; [vm_compute; reflexivity|].
  repeat split; intros H; vm_compute in H; discriminate H.
Qed.

(** C3 (amended): when every per-chunk attempt of a generator's run
    raises, the generator returns its format's fixed, non-empty fallback
    string, and no exception. A summary that is returned, even an empty
    one, is not a failure: the comprehensive summary, the flashcards and
    the concept map return the fallback only when every attempt raises.
    The bullet points and the Q&A pairs return it exactly when no attempt
    contributes an entry: each one raises or yields a summary without a
    sentence of more than 10 characters, resp. of at most ten words. *)
Theorem fallback_when_nothing_usable (World : Type)
    (summarizer : Summarizer World) (pb : option (ProgressBar World))
    (text : str) (D : Z) (w : World) :
  ((generate_comprehensive_summary World text summarizer D pb w).2
   = Ok (lit "Could not generate summary.")
   <-> Forall failed (summary_attempts summarizer pb text D w))
  /\ ((generate_flashcards World text summarizer D pb w).2
      = Ok (lit "Could not generate flashcards.")
      <-> Forall failed (flashcard_attempts summarizer pb text D w))
  /\ ((generate_concept_map World text summarizer D pb w).2
      = Ok (lit "Could not generate concept map.")
      <-> Forall failed (concept_attempts summarizer pb text D w))
  /\ ((generate_bullet_points World text summarizer D pb w).2
      = Ok (lit "Could not generate bullet points.")
      <-> Forall no_bullet (bullet_attempts summarizer pb text w))
  /\ ((generate_qa_format World text summarizer D pb w).2
      = Ok (lit "Could not generate Q&A pairs.")
      <-> Forall no_qa_pair (qa_attempts summarizer pb text D w))
  /\ (Forall failed (bullet_attempts summarizer pb text w) ->
      (generate_bullet_points World text summarizer D pb w).2
      = Ok (lit "Could not generate bullet points."))
  /\ (Forall failed (qa_attempts summarizer pb text D w) ->
      (generate_qa_format World text summarizer D pb w).2
      = Ok (lit "Could not generate Q&A pairs."))
  /\ Forall (fun fallback : str => fallback <> [])
       [lit "Could not generate summary.";
        lit "Could not generate bullet points.";
        lit "Could not generate flashcards.";
        lit "Could not generate Q&A pairs.";
        lit "Could not generate concept map."].
Proof.
  split; [|split; [|split; [|split; [|split; [|split; [|split]]]]]].
  - rewrite generate_comprehensive_summary_run. split.
    + intros H. apply successes_nil.
      destruct (successes _) as [|s l]; [reflexivity|exfalso].
      apply Ok_inj in H. revert H. cbn [enumerate List.map].
      apply (py_join_not_fallback [nl; nl] _ _ pushpin);
        [discriminate|eexists; reflexivity].
    + intros H. rewrite <- (collect_single 0), (collect_failed _ _ _ H).
      reflexivity.
  - rewrite generate_flashcards_run, collect_flashcard_post. split.
    + intros H. apply successes_nil.
      destruct (successes _) as [|s l]; [reflexivity|exfalso].
      apply Ok_inj in H. revert H. cbn [enumerate List.map].
      apply (py_join_not_fallback [nl; nl] _ _ 45%N);
        [discriminate|eexists; reflexivity].
    + intros H. rewrite <- (collect_single 0), (collect_failed _ _ _ H).
      reflexivity.
  - rewrite generate_concept_map_run. split.
    + intros H. apply successes_nil.
      destruct (successes _) as [|s l]; [reflexivity|exfalso].
      apply Ok_inj in H. unfold concept_map_header in H.
      cbn [app] in H. discriminate H.
    + intros H. rewrite <- (collect_single 0), (collect_failed _ _ _ H).
      reflexivity.
  - rewrite generate_bullet_points_run.
    rewrite <- (collect_nil_iff bullet_post (fun s => no_bullet (Ok s)) 0)
      by apply bullet_post_nil.
    assert (Hshape := collect_Forall
                        (fun p : str => exists t, p = bullet :: t)
                        bullet_post 0
                        (bullet_attempts summarizer pb text w)).
    destruct (collect bullet_post 0 _) as [|p l].
    + split; reflexivity.
    + split; [|discriminate]. intros H. exfalso.
      assert (Hp : Forall (fun p : str => exists t, p = bullet :: t) (p :: l)).
      { apply Hshape. intros j s. unfold bullet_post.
        apply Forall_map, Forall_forall. intros x _. eexists. reflexivity. }
      inversion Hp as [|? ? [t ->] _]; subst.
      apply Ok_inj in H. revert H.
      apply py_join_not_fallback; [discriminate|eexists; reflexivity].
  - rewrite generate_qa_format_run.
    rewrite <- (collect_nil_iff qa_post (fun s => no_qa_pair (Ok s)) 0)
      by apply qa_post_nil.
    assert (Hshape := collect_Forall
                        (fun p : str => exists t, p = 81%N :: t)
                        qa_post 0
                        (qa_attempts summarizer pb text D w)).
    destruct (collect qa_post 0 _) as [|p l].
    + split; reflexivity.
    + split; [|discriminate]. intros H. exfalso.
      assert (Hp : Forall (fun p : str => exists t, p = 81%N :: t) (p :: l)).
      { apply Hshape. intros j s. unfold qa_post.
        destruct (10 <? _); repeat constructor. eexists. reflexivity. }
      inversion Hp as [|? ? [t ->] _]; subst.
      apply Ok_inj in H. revert H.
      apply py_join_not_fallback; [discriminate|eexists; reflexivity].
  - intros H. rewrite generate_bullet_points_run.
    rewrite (collect_failed _ _ _ H). reflexivity.
  - intros H. rewrite generate_qa_format_run.
    rewrite (collect_failed _ _ _ H). reflexivity.
  - repeat constructor; discriminate.
Qed.

Lemma fallback_when_nothing_usable_witness :
  Forall failed (summary_attempts failing_summarizer None one_chunk_text 3 tt)
  /\ (generate_comprehensive_summary unit one_chunk_text failing_summarizer
        3 None tt).2
     = Ok (lit "Could not generate summary.")
  /\ Forall no_qa_pair
       (qa_attempts (const_summarizer (lit "Too short.")) None
          one_chunk_text 3 tt)
  /\ (generate_qa_format unit one_chunk_text
        (const_summarizer (lit "Too short.")) 3 None tt).2
     = Ok (lit "Could not generate Q&A pairs.").
Proof.
  assert (H1 : Forall failed
                 (summary_attempts failing_summarizer None one_chunk_text 3 tt))
    by (vm_compute; repeat constructor).
  assert (H2 : Forall no_qa_pair
                 (qa_attempts (const_summarizer (lit "Too short.")) None
                    one_chunk_text 3 tt))
    by (vm_compute; repeat constructor; discriminate).
  destruct (fallback_when_nothing_usable unit failing_summarizer None
              one_chunk_text 3 tt) as [S _].
  destruct (fallback_when_nothing_usable unit
              (const_summarizer (lit "Too short.")) None
              one_chunk_text 3 tt) as [_ [_ [_ [_ [Q _]]]]].
  split; [exact H1|]. split; [apply S, H1|].
  split; [exact H2|apply Q, H2].
Defined.

(** * Further properties *)

(** ** The chunker: edges, sizes and re-chunking *)

Lemma split_ws_go_spaces (s : str) :
  Forall (fun c => isspace c = true) s -> split_ws_go [] s = [].
Proof.
  induction 1 as [|c s Hc _ IH]; [reflexivity|].
  cbn [split_ws_go]. rewrite Hc. exact IH.
Qed.

(** X1: a text that is empty or all whitespace has no chunks, whatever
    the non-zero window size. *)
Theorem whitespace_text_has_no_chunks (text : str) (k : Z) :
  Forall (fun c => isspace c = true) text ->
  k <> 0 ->
  split_text_into_chunks text k = Ok [].
Proof.
  intros Hws Hk. unfold split_text_into_chunks, py_split, py_range.
  rewrite split_ws_go_spaces by assumption.
  destruct (Z.eqb_spec k 0) as [|_]; [contradiction|].
  change (len []) with 0.
  rewrite Z.ltb_irrefl, !andb_false_r. reflexivity.
Qed.

Lemma whitespace_text_has_no_chunks_witness :
  Forall (fun c => isspace c = true) (lit "  " ++ [nl; 9%N; 160%N])
  /\ 400 <> 0
  /\ split_text_into_chunks (lit "  " ++ [nl; 9%N; 160%N]) 400 = Ok [].
Proof.
  assert (H : Forall (fun c => isspace c = true) (lit "  " ++ [nl; 9%N; 160%N]))
    by (repeat constructor).
  split; [exact H|]. split; [lia|].
  apply (whitespace_text_has_no_chunks _ 400 H). lia.
Defined.

(** X2: a window size of zero makes the chunker raise [ValueError] (from
    [range]), for every text; a negative one silently gives no chunks. *)
Theorem chunker_window_size_edges (text : str) (k : Z) :
  (k = 0 -> exists msg, split_text_into_chunks text k = Raise (ValueError msg))
  /\ (k < 0 -> split_text_into_chunks text k = Ok []).
Proof.
  split.
  - intros ->. eexists. reflexivity.
  - intros Hk. unfold split_text_into_chunks, py_range.
    destruct (Z.eqb_spec k 0) as [|_]; [lia|].
    destruct (Z.ltb_spec 0 k) as [|_]; [lia|]. rewrite andb_false_l.
    destruct (Z.ltb_spec (len (py_split text)) 0) as [Hneg|_];
      [unfold len in Hneg; lia|].
    rewrite andb_false_r. reflexivity.
Qed.

Lemma chunker_window_size_edges_witness :
  (exists msg, split_text_into_chunks text_a_x51 0 = Raise (ValueError msg))
  /\ split_text_into_chunks text_a_x51 (-400) = Ok [].
Proof.
  destruct (chunker_window_size_edges text_a_x51 0) as [H0 _].
  destruct (chunker_window_size_edges text_a_x51 (-400)) as [_ Hneg].
  split; [apply H0; reflexivity|apply Hneg; lia].
Defined.

Lemma windows_fuel_full_but_last {A} (k : nat) :
  (0 < k)%nat ->
  forall (fuel : nat) (ws : list A),
    full_but_last k (windows_fuel fuel k ws).
Proof.
  intros Hk. induction fuel as [|f IH]; intros ws; [exact I|].
  destruct ws as [|a ws]; [exact I|].
  cbn [windows_fuel]. specialize (IH (drop k (a :: ws))).
  destruct (windows_fuel f k (drop k (a :: ws))) as [|w' wins] eqn:E.
  - cbn [full_but_last]. rewrite length_take. simpl length. lia.
  - cbn [full_but_last]. split; [|exact IH].
    rewrite length_take.
    destruct (Nat.le_gt_cases k (length (a :: ws))) as [|Hlt]; [lia|].
    exfalso. rewrite drop_ge in E by lia.
    destruct f; discriminate E.
Qed.

Lemma full_but_last_bounds {A} (k : nat) (wins : list (list A)) :
  (0 < k)%nat -> full_but_last k wins ->
  Forall (fun w => (0 < length w <= k)%nat) wins.
Proof.
  intros Hk. induction wins as [|w wins IH]; intros H; [constructor|].
  destruct wins as [|w' wins].
  - constructor; [exact H|constructor].
  - destruct H as [Hw H]. constructor; [lia|apply IH, H].
Qed.

Lemma spaced_length_join (ws : list str) :
  ws <> [] -> S (length (py_join [space] ws)) = spaced_length ws.
Proof.
  induction ws as [|w ws IH]; [contradiction|]. intros _.
  destruct ws as [|w' ws]; [unfold spaced_length; simpl; lia|].
  rewrite py_join_cons2, !length_app.
  specialize (IH ltac:(discriminate)).
  unfold spaced_length in *. cbn [List.map list_sum fold_right length] in *. lia.
Qed.

Lemma spaced_length_app (xs ys : list str) :
  spaced_length (xs ++ ys) = (spaced_length xs + spaced_length ys)%nat.
Proof.
  unfold spaced_length. rewrite List.map_app, list_sum_app. reflexivity.
Qed.

Lemma spaced_length_filter_concat (p : list str -> bool)
    (wins : list (list str)) :
  (spaced_length (concat (List.filter p wins))
   <= spaced_length (concat wins))%nat.
Proof.
  induction wins as [|w wins IH]; [reflexivity|].
  cbn [List.filter concat]. destruct (p w); cbn [concat];
    rewrite ?spaced_length_app; lia.
Qed.

Lemma length_join_le (ws ws' : list str) :
  (spaced_length ws <= spaced_length ws')%nat ->
  (length (py_join [space] ws) <= length (py_join [space] ws'))%nat.
Proof.
  intros H. destruct ws as [|w ws]; [simpl; lia|].
  destruct ws' as [|w' ws'].
  - unfold spaced_length in H. cbn [List.map list_sum fold_right] in H. lia.
  - pose proof (spaced_length_join (w :: ws) ltac:(discriminate)).
    pose proof (spaced_length_join (w' :: ws') ltac:(discriminate)). lia.
Qed.

Lemma length_join_cons_le (x : str) (l : list str) :
  (length (py_join [space] (x :: l))
   <= length x + 1 + length (py_join [space] l))%nat.
Proof.
  destruct l as [|y l]; [simpl; lia|].
  rewrite py_join_cons2, !length_app. simpl length. lia.
Qed.

Lemma split_ws_go_length (cur s : str) :
  (length (py_join [space] (split_ws_go cur s)) <= length cur + length s)%nat.
Proof.
  revert cur. induction s as [|c s IH]; intros cur.
  - destruct cur; [simpl; lia|].
    cbn [split_ws_go py_join]. rewrite length_rev. lia.
  - cbn [split_ws_go]. destruct (isspace c).
    + destruct cur as [|a cur].
      * specialize (IH []). simpl length in *. lia.
      * etransitivity; [apply length_join_cons_le|].
        rewrite length_rev. specialize (IH []). simpl length in *. lia.
    + specialize (IH (c :: cur)). simpl length in *. lia.
Qed.

(** The chunks, in terms of the kept windows. *)
Lemma chunks_of_kept_windows (text : str) (k : Z) :
  1 <= k ->
  chunks_of text k
  = List.map (py_join [space])
      (List.filter keep_window (windows (Z.to_nat k) (py_split text))).
Proof.
  intros Hk. unfold chunks_of.
  rewrite split_text_into_chunks_windows by assumption.
  exact (filter_map_comm (py_join [space]) long_enough _).
Qed.

Lemma kept_windows_words (k : nat) (ws : list str) :
  (0 < k)%nat -> Forall is_word ws ->
  Forall (Forall is_word) (List.filter keep_window (windows k ws))
  /\ Forall (fun w => w <> []) (List.filter keep_window (windows k ws)).
Proof.
  intros Hk Hws.
  pose proof (windows_fuel_Forall k is_word (length ws) ws Hws) as H1.
  pose proof (windows_fuel_nonempty k Hk (length ws) ws) as H2.
  fold (windows k ws) in H1, H2.
  rewrite Forall_forall in H1, H2.
  split; apply Forall_forall; intros w Hin;
    apply list_elem_of_In, filter_In in Hin as [Hin _];
    [apply H1|apply H2]; apply list_elem_of_In, Hin.
Qed.

Lemma join_chunks_of (text : str) (k : Z) :
  1 <= k ->
  py_join [space] (chunks_of text k)
  = py_join [space]
      (concat (List.filter keep_window
                 (windows (Z.to_nat k) (py_split text)))).
Proof.
  intros Hk. rewrite chunks_of_kept_windows by assumption.
  apply py_join_concat.
  apply kept_windows_words; [lia|apply py_split_words].
Qed.

Lemma chunks_of_fit (text : str) (k : Z) :
  1 <= k ->
  len (py_join [space] (chunks_of text k)) <= len text
  /\ 52 * len (chunks_of text k) <= len text + 1.
Proof.
  intros Hk.
  assert (Hjoin : len (py_join [space] (chunks_of text k)) <= len text).
  { rewrite join_chunks_of by assumption. unfold len.
    apply inj_le. etransitivity; [|apply (split_ws_go_length [] text)].
    apply length_join_le.
    etransitivity; [apply spaced_length_filter_concat|].
    unfold windows. rewrite windows_fuel_concat by lia. reflexivity. }
  assert (Hlong : Forall (fun c => 50 < len c) (chunks_of text k)).
  { unfold chunks_of. rewrite split_text_into_chunks_windows by assumption.
    apply Forall_forall. intros c Hin.
    apply list_elem_of_In, filter_In in Hin as [_ Hl].
    apply Z.ltb_lt, Hl. }
  split; [exact Hjoin|].
  destruct (chunks_of text k) as [|c cs] eqn:E; [unfold len; simpl; lia|].
  pose proof (spaced_length_join (c :: cs) ltac:(discriminate)) as Hs.
  assert (Hsum : (52 * length (c :: cs) <= spaced_length (c :: cs))%nat).
  { clear -Hlong. unfold spaced_length, len in *.
    induction Hlong as [|x l Hx _ IH]; [simpl; lia|].
    unfold list_sum in *. cbn [List.map fold_right length] in *. lia. }
  unfold len in *. lia.
Qed.

Lemma short_text_no_chunks (text : str) (k : Z) :
  1 <= k -> len text <= 50 -> chunks_of text k = [].
Proof.
  intros Hk Hshort. destruct (chunks_of_fit text k Hk) as [_ Hcount].
  destruct (chunks_of text k); [reflexivity|].
  unfold len in *. simpl length in Hcount. lia.
Qed.

(** X3: the chunks, joined by single spaces, are never longer than the
    text; [n] chunks need a text of at least [52 n - 1] characters, so a
    text of at most 50 characters has no chunks. *)
Theorem chunks_fit_in_text (text : str) (k : Z) :
  1 <= k ->
  exists chunks,
    split_text_into_chunks text k = Ok chunks
    /\ len (py_join [space] chunks) <= len text
    /\ 52 * len chunks <= len text + 1
    /\ (len text <= 50 -> chunks = []).
Proof.
  intros Hk. exists (chunks_of text k).
  split; [apply chunks_of_ok, Hk|].
  destruct (chunks_of_fit text k Hk) as [Hjoin Hcount].
  split; [exact Hjoin|]. split; [exact Hcount|].
  apply short_text_no_chunks, Hk.
Qed.

Lemma chunks_fit_in_text_witness :
  1 <= 400
  /\ len (lit "Too short to summarize.") <= 50
  /\ split_text_into_chunks (lit "Too short to summarize.") 400 = Ok [].
Proof.
  split; [lia|]. split; [vm_compute; discriminate|].
  destruct (chunks_fit_in_text (lit "Too short to summarize.") 400
              ltac:(lia)) as [chunks [H1 [_ [_ H4]]]].
  rewrite H1, H4; [reflexivity|vm_compute; discriminate].
Defined.

(** X4: every chunk is a normal form: between 1 and [k] words separated
    by single spaces, with nothing to strip at either end. *)
Theorem chunks_are_normalised (text : str) (k : Z) :
  1 <= k ->
  exists chunks,
    split_text_into_chunks text k = Ok chunks
    /\ Forall (fun chunk =>
                 py_join [space] (py_split chunk) = chunk
                 /\ 1 <= len (py_split chunk) <= k
                 /\ py_strip chunk = chunk) chunks.
Proof.
  intros Hk. exists (chunks_of text k).
  split; [apply chunks_of_ok, Hk|].
  rewrite chunks_of_kept_windows by assumption.
  apply Forall_map, Forall_forall. intros ws Hin.
  apply list_elem_of_In, filter_In in Hin as [Hin _].
  assert (Hpos : (0 < Z.to_nat k)%nat) by lia.
  pose proof (windows_fuel_Forall (Z.to_nat k) is_word
                (length (py_split text)) _ (py_split_words text)) as Hw.
  pose proof (windows_fuel_nonempty (Z.to_nat k) Hpos
                (length (py_split text)) (py_split text)) as Hne.
  pose proof (windows_fuel_full_but_last (Z.to_nat k) Hpos
                (length (py_split text)) (py_split text)) as Hfull.
  apply full_but_last_bounds in Hfull; [|exact Hpos].
  rewrite Forall_forall in Hw, Hne, Hfull.
  apply list_elem_of_In in Hin.
  specialize (Hw _ Hin). specialize (Hne _ Hin). specialize (Hfull _ Hin).
  rewrite py_split_join by assumption.
  split; [reflexivity|]. split; [unfold len; lia|].
  apply py_strip_join_words, Hw.
Qed.

Lemma chunks_are_normalised_witness :
  1 <= 1
  /\ exists chunks,
       split_text_into_chunks text_a_x51 1 = Ok chunks
       /\ Forall (fun chunk => py_strip chunk = chunk) chunks.
Proof.
  split; [lia|].
  destruct (chunks_are_normalised text_a_x51 1 ltac:(lia)) as [chunks [H1 H2]].
  exists chunks. split; [exact H1|].
  eapply Forall_impl; [exact H2|]. intros c [_ [_ H]]. exact H.
Defined.

Lemma windows_fuel_nil {A} (fuel k : nat) : @windows_fuel A fuel k [] = [].
Proof. destruct fuel; reflexivity. Qed.

Lemma windows_fuel_enough {A} (k fuel : nat) (ws : list A) :
  (0 < k)%nat -> (length ws <= fuel)%nat ->
  windows_fuel fuel k ws = windows k ws.
Proof.
  intros Hk Hlen. unfold windows.
  rewrite !(windows_fuel_index k Hk) by lia. reflexivity.
Qed.

Lemma filter_full_but_last {A} (k : nat) (p : list A -> bool)
    (wins : list (list A)) :
  (0 < k)%nat -> full_but_last k wins -> full_but_last k (List.filter p wins).
Proof.
  intros Hk. induction wins as [|w wins IH]; intros H; [exact I|].
  assert (Hw : (0 < length w <= k)%nat).
  { pose proof (full_but_last_bounds k _ Hk H) as Hb.
    inversion Hb; assumption. }
  assert (Hrest : full_but_last k (List.filter p wins)).
  { apply IH. destruct wins; [exact I|apply H]. }
  cbn [List.filter]. destruct (p w); [|exact Hrest].
  destruct (List.filter p wins) as [|w' l] eqn:E; [exact Hw|].
  cbn [full_but_last]. split; [|exact Hrest].
  destruct wins as [|w0 wins]; [discriminate E|apply H].
Qed.

(** Cutting a concatenation of full windows (the last one possibly
    shorter) gives the windows back. *)
Lemma windows_concat {A} (k : nat) (wins : list (list A)) :
  (0 < k)%nat -> full_but_last k wins -> windows k (concat wins) = wins.
Proof.
  intros Hk. induction wins as [|w wins IH]; intros H; [reflexivity|].
  destruct wins as [|w' wins].
  - cbn [concat]. rewrite app_nil_r. cbn [full_but_last] in H.
    unfold windows. destruct w as [|a w]; [simpl in H; lia|].
    cbn [length windows_fuel]. rewrite take_ge, drop_ge by lia.
    rewrite windows_fuel_nil. reflexivity.
  - destruct H as [Hw H]. specialize (IH H).
    cbn [concat] in *. set (rest := w' ++ concat wins) in *.
    unfold windows at 1.
    destruct w as [|a w]; [simpl in Hw; lia|].
    rewrite <- app_comm_cons. cbn [length windows_fuel].
    rewrite app_comm_cons.
    rewrite take_app_length' by (symmetry; exact Hw).
    rewrite drop_app_length' by (symmetry; exact Hw).
    rewrite windows_fuel_enough; [rewrite IH; reflexivity|exact Hk|].
    rewrite length_app. lia.
Qed.

(** X5: re-chunking is stable: chunking the chunks joined by single
    spaces, with the same window size, gives the same chunks. *)
Theorem rechunking_is_stable (text : str) (k : Z) :
  1 <= k ->
  exists chunks,
    split_text_into_chunks text k = Ok chunks
    /\ split_text_into_chunks (py_join [space] chunks) k = Ok chunks.
Proof.
  intros Hk. exists (chunks_of text k).
  split; [apply chunks_of_ok, Hk|].
  assert (Hpos : (0 < Z.to_nat k)%nat) by lia.
  set (kept := List.filter keep_window
                 (windows (Z.to_nat k) (py_split text))).
  destruct (kept_windows_words (Z.to_nat k) (py_split text) Hpos
              (py_split_words text)) as [Hw Hne].
  fold kept in Hw, Hne.
  assert (Hfull : full_but_last (Z.to_nat k) kept).
  { apply filter_full_but_last; [exact Hpos|].
    apply windows_fuel_full_but_last, Hpos. }
  rewrite (chunks_of_ok (py_join [space] (chunks_of text k)) k) by assumption.
  f_equal. rewrite !chunks_of_kept_windows by assumption. fold kept.
  rewrite py_join_concat by assumption.
  rewrite py_split_join by (apply Forall_concat; assumption).
  rewrite windows_concat by assumption.
  f_equal. unfold kept. clear.
  induction (windows (Z.to_nat k) (py_split text)) as [|w l IH];
    [reflexivity|].
  cbn [List.filter]. destruct (keep_window w) eqn:E; [|exact IH].
  cbn [List.filter]. rewrite E, IH. reflexivity.
Qed.

Lemma rechunking_is_stable_witness :
  1 <= 1
  /\ split_text_into_chunks (py_join [space] [x51]) 1 = Ok [x51].
Proof.
  split; [lia|].
  destruct (rechunking_is_stable text_a_x51 1 ltac:(lia)) as [chunks [H1 H2]].
  assert (E : chunks = [x51]).
  { assert (H : split_text_into_chunks text_a_x51 1 = Ok [x51])
      by (vm_compute; reflexivity).
    rewrite H in H1. injection H1 as <-. reflexivity. }
  rewrite E in H2. exact H2.
Defined.

Lemma length_windows {A} (k : nat) (ws : list A) :
  (0 < k)%nat -> length (windows k ws) = window_count k (length ws).
Proof.
  intros Hk. unfold windows.
  rewrite (windows_fuel_index k Hk) by lia.
  rewrite length_map, length_seq. reflexivity.
Qed.

Lemma window_count_ceil (k n : nat) :
  (0 < k)%nat ->
  Z.of_nat (window_count k n) = (Z.of_nat n + Z.of_nat k - 1) / Z.of_nat k.
Proof.
  intros Hk. unfold window_count.
  destruct (Z.ltb_spec 0 (Z.of_nat n)) as [Hn|Hn].
  - replace (Z.of_nat n + Z.of_nat k - 1)
      with ((Z.of_nat n - 0 - 1) + 1 * Z.of_nat k) by lia.
    rewrite Z.div_add by lia.
    assert (0 <= (Z.of_nat n - 0 - 1) / Z.of_nat k) by (apply Z.div_pos; lia).
    lia.
  - replace (Z.of_nat n) with 0 by lia.
    rewrite Z.div_small by lia. reflexivity.
Qed.

Lemma length_filter_le {A} (p : A -> bool) (l : list A) :
  (length (List.filter p l) <= length l)%nat.
Proof.
  induction l as [|x l IH]; [reflexivity|].
  cbn [List.filter]. destruct (p x); simpl; lia.
Qed.

(** With at least 26 words per window at most the last window is
    discarded. *)
Lemma kept_windows_count (k fuel : nat) (ws : list str) :
  (26 <= k)%nat -> Forall is_word ws ->
  (length (windows_fuel fuel k ws)
   <= S (length (List.filter keep_window (windows_fuel fuel k ws))))%nat.
Proof.
  intros Hk. revert ws. induction fuel as [|f IH]; intros ws Hws; [simpl; lia|].
  destruct ws as [|w ws]; [simpl; lia|].
  cbn [windows_fuel]. set (l := w :: ws) in *.
  destruct (Nat.le_gt_cases (length l) k) as [Hshort|Hfull].
  - rewrite drop_ge by lia. rewrite windows_fuel_nil.
    cbn [List.filter]. destruct (keep_window _); simpl; lia.
  - assert (Hkeep : keep_window (take k l) = true).
    { unfold keep_window, long_enough. apply Z.ltb_lt.
      pose proof (len_py_join_words [] (take k l)) as Hl.
      assert (Hk' : length (take k l) = k) by (rewrite length_take; lia).
      rewrite Hk' in Hl. unfold len.
      assert (take k l <> [])
        by (intros E; rewrite E in Hk'; simpl in Hk'; lia).
      specialize (Hl (Forall_take _ _ _ Hws) ltac:(assumption)). lia. }
    cbn [List.filter]. rewrite Hkeep. cbn [length].
    specialize (IH (drop k l) (Forall_drop _ _ _ Hws)). lia.
Qed.

(** X6: the number of chunks is at most the number of windows,
    [ceil(words / k)]; from 26 words per window on (the generators use
    400 and 500) it is that number or one less. *)
Theorem chunk_count_bounds (text : str) (k : Z) :
  1 <= k ->
  exists chunks,
    split_text_into_chunks text k = Ok chunks
    /\ len chunks <= (len (py_split text) + k - 1) / k
    /\ (26 <= k -> (len (py_split text) + k - 1) / k - 1 <= len chunks).
Proof.
  intros Hk. exists (chunks_of text k).
  split; [apply chunks_of_ok, Hk|].
  assert (Hpos : (0 < Z.to_nat k)%nat) by lia.
  rewrite chunks_of_kept_windows by assumption.
  unfold len. rewrite length_map.
  pose proof (window_count_ceil (Z.to_nat k) (length (py_split text)) Hpos)
    as Hc.
  rewrite Z2Nat.id in Hc by lia. rewrite <- Hc.
  rewrite <- (length_windows (Z.to_nat k)) by exact Hpos.
  split.
  - apply inj_le, length_filter_le.
  - intros Hk26.
    pose proof (kept_windows_count (Z.to_nat k) (length (py_split text))
                  (py_split text) ltac:(lia) (py_split_words text)) as Hle.
    fold (windows (Z.to_nat k) (py_split text)) in Hle. lia.
Qed.

Lemma chunk_count_bounds_witness :
  1 <= 400 /\ 26 <= 400
  /\ exists chunks,
       split_text_into_chunks two_chunk_text 400 = Ok chunks
       /\ (len (py_split two_chunk_text) + 400 - 1) / 400 - 1 <= len chunks
          <= (len (py_split two_chunk_text) + 400 - 1) / 400.
Proof.
  split; [lia|]. split; [lia|].
  destruct (chunk_count_bounds two_chunk_text 400 ltac:(lia))
    as [chunks [H1 [H2 H3]]].
  exists chunks. split; [exact H1|]. split; [apply H3; lia|exact H2].
Defined.

(** ** The generators: inputs without chunks, numbering, and what the
    collaborators are asked *)

Lemma slice_to_nil {A} (hi : Z) : @slice_to A [] hi = [].
Proof. unfold slice_to. apply take_nil. Qed.

(** X7: a text of at most 50 characters has no chunks, so every generator
    returns its fallback string at once: the summarizer and the progress
    bar are not called and the world is left as it was. *)
Theorem short_text_gives_fallbacks (World : Type)
    (summarizer : Summarizer World) (pb : option (ProgressBar World))
    (text : str) (D : Z) (w : World) :
  len text <= 50 ->
  generate_comprehensive_summary World text summarizer D pb w
  = (w, Ok (lit "Could not generate summary."))
  /\ generate_bullet_points World text summarizer D pb w
     = (w, Ok (lit "Could not generate bullet points."))
  /\ generate_flashcards World text summarizer D pb w
     = (w, Ok (lit "Could not generate flashcards."))
  /\ generate_qa_format World text summarizer D pb w
     = (w, Ok (lit "Could not generate Q&A pairs."))
  /\ generate_concept_map World text summarizer D pb w
     = (w, Ok (lit "Could not generate concept map.")).
Proof.
  intros Hshort.
  pose proof (short_text_no_chunks text 400 ltac:(lia) Hshort) as H400.
  pose proof (short_text_no_chunks text 500 ltac:(lia) Hshort) as H500.
  repeat split.
  - unfold generate_comprehensive_summary.
    rewrite (chunks_of_ok text 400), bind_lift_ok, H400 by lia. reflexivity.
  - unfold generate_bullet_points.
    rewrite (chunks_of_ok text 400), bind_lift_ok, H400 by lia. reflexivity.
  - unfold generate_flashcards.
    rewrite (chunks_of_ok text 500), bind_lift_ok, H500 by lia.
    cbv beta. rewrite slice_to_nil. reflexivity.
  - unfold generate_qa_format.
    rewrite (chunks_of_ok text 400), bind_lift_ok, H400 by lia.
    cbv beta. rewrite slice_to_nil. reflexivity.
  - unfold generate_concept_map.
    rewrite (chunks_of_ok text 500), bind_lift_ok, H500 by lia.
    cbv beta. rewrite slice_to_nil. reflexivity.
Qed.

Lemma short_text_gives_fallbacks_witness :
  len (lit "Too short to summarize.") <= 50
  /\ generate_qa_format _ (lit "Too short to summarize.") scripted_summarizer
       3 None short_then_long
     = (short_then_long, Ok (lit "Could not generate Q&A pairs.")).
Proof.
  assert (H : len (lit "Too short to summarize.") <= 50)
    by (vm_compute; discriminate).
  split; [exact H|].
  destruct (short_text_gives_fallbacks _ scripted_summarizer None
              (lit "Too short to summarize.") 3 short_then_long H)
    as [_ [_ [_ [Q _]]]].
  exact Q.
Defined.

Lemma section_entry_block (i : Z) (summaries : list str) :
  List.map section_entry (enumerate i summaries)
  = List.map section_block (enumerate (i + 1) summaries).
Proof.
  revert i. induction summaries as [|s l IH]; intros i; [reflexivity|].
  cbn [enumerate List.map]. rewrite IH. reflexivity.
Qed.

(** X8: the sections of the comprehensive summary are numbered 1, 2, ..
    over the summaries obtained, not over the chunks attempted: a failed
    chunk leaves no gap (unlike the Q&A pairs), so after a failed first
    attempt the output still opens with "Section 1". *)
Theorem summary_sections_numbered (World : Type)
    (summarizer : Summarizer World) (pb : option (ProgressBar World))
    (text : str) (D : Z) (w : World) :
  (generate_comprehensive_summary World text summarizer D pb w).2
  = Ok match successes (summary_attempts summarizer pb text D w) with
       | [] => lit "Could not generate summary."
       | summaries =>
           py_join [nl; nl] (List.map section_block (enumerate 1 summaries))
       end
  /\ (forall e second rest,
         summary_attempts summarizer pb text D w
         = Raise e :: Ok second :: rest ->
         exists tail,
           (generate_comprehensive_summary World text summarizer D pb w).2
           = Ok ([pushpin] ++ lit " Section 1:" ++ [nl] ++ second ++ tail)).
Proof.
  assert (Hrun := generate_comprehensive_summary_run World summarizer pb
                    text D w).
  assert (Hrun' :
            (generate_comprehensive_summary World text summarizer D pb w).2
            = Ok match successes (summary_attempts summarizer pb text D w) with
                 | [] => lit "Could not generate summary."
                 | summaries =>
                     py_join [nl; nl]
                       (List.map section_block (enumerate 1 summaries))
                 end).
  { rewrite Hrun. destruct (successes _) as [|s l]; [reflexivity|].
    rewrite section_entry_block. reflexivity. }
  split; [exact Hrun'|].
  intros e second rest E. rewrite Hrun', E. cbn [successes enumerate List.map].
  destruct (py_join_hd [nl; nl] (section_block (1, second))
              (List.map section_block (enumerate (1 + 1) (successes rest))))
    as [tail ->].
  exists tail. unfold section_block. cbn [fst snd].
  rewrite <- !app_assoc. reflexivity.
Qed.

Lemma summary_sections_numbered_witness :
  exists tail,
    (generate_comprehensive_summary _ two_chunk_text scripted_summarizer 3 None
       [Raise (OtherException (lit "out of memory"));
        Ok (lit "Cells divide.")]).2
    = Ok ([pushpin] ++ lit " Section 1:" ++ [nl] ++ lit "Cells divide."
          ++ tail).
Proof.
  destruct (summary_sections_numbered _ scripted_summarizer None
              two_chunk_text 3
              [Raise (OtherException (lit "out of memory"));
               Ok (lit "Cells divide.")]) as [_ H].
  apply (H (OtherException (lit "out of memory")) (lit "Cells divide.") []).
  vm_compute. reflexivity.
Defined.

Lemma slice_to_3000 (chunk : str) :
  slice_to chunk 3000 = take 3000 chunk
  /\ len (slice_to chunk 3000) <= 3000.
Proof.
  split; [|rewrite length_slice_to by lia; lia].
  rewrite slice_to_nonneg by lia. unfold len.
  destruct (Z.le_gt_cases (Z.of_nat (length chunk)) 3000) as [Hle|Hgt].
  - rewrite Z.min_l, Nat2Z.id by lia. rewrite !take_ge; [reflexivity|lia|lia].
  - rewrite Z.min_r by lia. reflexivity.
Qed.

Section Worlds.

Variable World : Type.
Variable summarizer : Summarizer World.
Variable progress_bar : option (ProgressBar World).

Ltac loop_body :=
  intros i x acc w0; unfold acquire, bind, ret;
  destruct (report _ _ _ w0) as [w1 [[]|e1]]; [|reflexivity];
  destruct (summarizer _ _ _ _ w1) as [w2 [s|e2]]; try reflexivity.

(** The world each generator leaves behind is the world after its
    per-chunk attempts. *)
Lemma generate_comprehensive_summary_world (text : str) (D : Z) (w : World) :
  (generate_comprehensive_summary World text summarizer D progress_bar w).1
  = world_after (acquire summarizer progress_bar (len (chunks_of text 400))
                   (100 + D * 30) (30 + D * 10)) 0 (chunks_of text 400) w.
Proof.
  unfold generate_comprehensive_summary.
  rewrite (chunks_of_ok text 400), bind_lift_ok by lia. cbv beta.
  unfold bind at 1.
  rewrite (for_enumerate_try_collect World _
             (acquire summarizer progress_bar (len (chunks_of text 400))
                (100 + D * 30) (30 + D * 10))
             (fun _ s => [s])) by loop_body.
  destruct (collect _ _ _); reflexivity.
Qed.

Lemma generate_bullet_points_world (text : str) (D : Z) (w : World) :
  (generate_bullet_points World text summarizer D progress_bar w).1
  = world_after (acquire summarizer progress_bar (len (chunks_of text 400))
                   120 30) 0 (chunks_of text 400) w.
Proof.
  unfold generate_bullet_points.
  rewrite (chunks_of_ok text 400), bind_lift_ok by lia. cbv beta.
  unfold bind at 1.
  rewrite (for_enumerate_try_collect World _
             (acquire summarizer progress_bar (len (chunks_of text 400))
                120 30) bullet_post) by loop_body.
  destruct (collect _ _ _); reflexivity.
Qed.

Lemma generate_flashcards_world (text : str) (D : Z) (w : World) :
  (generate_flashcards World text summarizer D progress_bar w).1
  = world_after (acquire summarizer progress_bar
                   (Z.min (len (chunks_of text 500)) (D * 5)) 80 20) 0
      (slice_to (chunks_of text 500) (D * 5)) w.
Proof.
  unfold generate_flashcards.
  rewrite (chunks_of_ok text 500), bind_lift_ok by lia. cbv beta.
  unfold bind at 1.
  rewrite (for_enumerate_try_collect World _
             (acquire summarizer progress_bar
                (Z.min (len (chunks_of text 500)) (D * 5)) 80 20)
             flashcard_post).
  - destruct (collect _ _ _); reflexivity.
  - loop_body. unfold flashcard_post.
    destruct (0 <? len _); [reflexivity|rewrite app_nil_r; reflexivity].
Qed.

Lemma generate_qa_format_world (text : str) (D : Z) (w : World) :
  (generate_qa_format World text summarizer D progress_bar w).1
  = world_after (acquire summarizer progress_bar
                   (Z.min (len (chunks_of text 400)) (D * 3)) 100 30) 0
      (slice_to (chunks_of text 400) (D * 3)) w.
Proof.
  unfold generate_qa_format.
  rewrite (chunks_of_ok text 400), bind_lift_ok by lia. cbv beta.
  unfold bind at 1.
  rewrite (for_enumerate_try_collect World _
             (acquire summarizer progress_bar
                (Z.min (len (chunks_of text 400)) (D * 3)) 100 30)
             qa_post).
  - destruct (collect _ _ _); reflexivity.
  - loop_body. unfold qa_post.
    destruct (10 <? len _); [reflexivity|rewrite app_nil_r; reflexivity].
Qed.

Lemma generate_concept_map_world (text : str) (D : Z) (w : World) :
  (generate_concept_map World text summarizer D progress_bar w).1
  = world_after (acquire summarizer progress_bar
                   (Z.min (len (chunks_of text 500)) (D * 2)) 60 20) 0
      (slice_to (chunks_of text 500) (D * 2)) w.
Proof.
  unfold generate_concept_map.
  rewrite (chunks_of_ok text 500), bind_lift_ok by lia. cbv beta.
  unfold bind at 1.
  rewrite (for_enumerate_try_collect World _
             (acquire summarizer progress_bar
                (Z.min (len (chunks_of text 500)) (D * 2)) 60 20)
             (fun _ s => [s])) by loop_body.
  destruct (collect _ _ _); reflexivity.
Qed.

(** *** Logs of traced collaborators *)

Variables den mx mn : Z.

Abbreviation traced_step :=
  (acquire (traced_summarizer summarizer)
     (option_map traced_progress_bar progress_bar) den mx mn) (only parsing).

Lemma traced_acquire_log (i : Z) (c : str) (w : World)
    (log : list trace_event) :
  exists ev,
    (traced_step i c (w, log)).1.2 = log ++ progress_event progress_bar den i ++ ev
    /\ (ev = []
        \/ ev = [Summarized {| call_text := slice_to c 3000;
                               call_max_length := mx;
                               call_min_length := mn;
                               call_do_sample := false |}]).
Proof.
  unfold acquire, bind, report, progress_event, option_map.
  destruct progress_bar as [pb|].
  - unfold truediv. destruct (den =? 0).
    + exists []. split; [cbn; rewrite app_nil_r; reflexivity|left; reflexivity].
    + unfold bind, ret, traced_progress_bar. cbn [fst snd].
      destruct (pb (i + 1, den) w) as [w1 [[]|e]].
      * unfold traced_summarizer. cbn [fst snd].
        destruct (summarizer _ _ _ _ w1) as [w2 r]. cbn [fst snd].
        eexists. split; [rewrite <- app_assoc; reflexivity|right; reflexivity].
      * cbn [fst snd]. exists []. rewrite app_nil_r.
        split; [reflexivity|left; reflexivity].
  - unfold ret, traced_summarizer. cbn [fst snd].
    destruct (summarizer _ _ _ _ w) as [w2 r]. cbn [fst snd].
    eexists. split; [reflexivity|right; reflexivity].
Qed.

Lemma progress_values_app (l1 l2 : list trace_event) :
  progress_values (l1 ++ l2) = progress_values l1 ++ progress_values l2.
Proof. apply flat_map_app. Qed.

Lemma summarizer_calls_app (l1 l2 : list trace_event) :
  summarizer_calls (l1 ++ l2) = summarizer_calls l1 ++ summarizer_calls l2.
Proof. apply flat_map_app. Qed.

Lemma traced_world_after_log (xs : list str) (i : Z) (w : World)
    (log : list trace_event) :
  exists more,
    (world_after traced_step i xs (w, log)).2 = log ++ more
    /\ progress_values more
       = match progress_bar with
         | Some _ =>
             if den =? 0 then []
             else List.map (fun j => (i + 1 + Z.of_nat j, den))
                    (seq 0 (length xs))
         | None => []
         end
    /\ Forall (fun c => exists chunk,
                 In chunk xs
                 /\ c = {| call_text := slice_to chunk 3000;
                           call_max_length := mx;
                           call_min_length := mn;
                           call_do_sample := false |})
         (summarizer_calls more)
    /\ (length (summarizer_calls more) <= length xs)%nat.
Proof.
  revert i w log. induction xs as [|c xs IH]; intros i w log.
  - exists []. cbn. rewrite app_nil_r.
    split; [reflexivity|]. split; [|split; [constructor|lia]].
    destruct progress_bar; [destruct (den =? 0)|]; reflexivity.
  - cbn [world_after].
    destruct (traced_acquire_log i c w log) as [ev [Hlog Hev]].
    destruct (traced_step i c (w, log)) as [[w1 log1] r]. cbn [fst snd] in *.
    subst log1.
    destruct (IH (i + 1) w1 (log ++ progress_event progress_bar den i ++ ev))
      as [more [Hmore [Hp [Hc Hn]]]].
    exists (progress_event progress_bar den i ++ ev ++ more).
    split; [rewrite Hmore, <- !app_assoc; reflexivity|].
    rewrite !progress_values_app, !summarizer_calls_app.
    assert (Hpe : summarizer_calls (progress_event progress_bar den i) = []).
    { unfold progress_event. destruct progress_bar; [destruct (den =? 0)|];
        reflexivity. }
    assert (Hev_p : progress_values ev = []).
    { destruct Hev as [->| ->]; reflexivity. }
    rewrite Hpe, Hev_p, Hp. cbn [app].
    split; [|split].
    + unfold progress_event.
      destruct progress_bar; [destruct (den =? 0)|]; try reflexivity.
      cbn [progress_values flat_map app length seq List.map].
      f_equal; [f_equal; lia|].
      rewrite <- seq_shift, List.map_map. apply map_ext. intros j.
      f_equal. lia.
    + apply Forall_app. split.
      * destruct Hev as [->| ->]; [constructor|].
        repeat constructor. exists c. split; [left; reflexivity|reflexivity].
      * eapply Forall_impl; [exact Hc|].
        intros call [chunk [Hin E]]. exists chunk.
        split; [right; exact Hin|exact E].
    + rewrite length_app. cbn [length].
      destruct Hev as [->| ->]; cbn; lia.
Qed.

(** The calls are those for a sublist of the chunks: in chunk order, and
    at most one for each chunk. *)
Lemma traced_calls_sublist (xs : list str) (i : Z) (w : World)
    (log : list trace_event) :
  exists more called,
    (world_after traced_step i xs (w, log)).2 = log ++ more
    /\ sublist called xs
    /\ summarizer_calls more = List.map (call_for mx mn) called.
Proof.
  revert i w log. induction xs as [|c xs IH]; intros i w log.
  - exists [], []. cbn. rewrite app_nil_r.
    split; [reflexivity|]. split; [constructor|reflexivity].
  - cbn [world_after].
    destruct (traced_acquire_log i c w log) as [ev [Hlog Hev]].
    destruct (traced_step i c (w, log)) as [[w1 log1] r]. cbn [fst snd] in *.
    subst log1.
    destruct (IH (i + 1) w1 (log ++ progress_event progress_bar den i ++ ev))
      as [more [called [Hmore [Hsub Hcalls]]]].
    assert (Hpe : summarizer_calls (progress_event progress_bar den i) = []).
    { unfold progress_event. destruct progress_bar; [destruct (den =? 0)|];
        reflexivity. }
    exists (progress_event progress_bar den i ++ ev ++ more).
    destruct Hev as [->| ->].
    + exists called.
      split; [rewrite Hmore, <- !app_assoc; reflexivity|].
      split; [apply sublist_cons, Hsub|].
      rewrite !summarizer_calls_app, Hpe, Hcalls. reflexivity.
    + exists (c :: called).
      split; [rewrite Hmore, <- !app_assoc; reflexivity|].
      split; [apply sublist_skip, Hsub|].
      rewrite !summarizer_calls_app, Hpe, Hcalls.
      cbn [summarizer_calls flat_map app List.map]. unfold call_for at 2.
      rewrite (proj1 (slice_to_3000 c)). reflexivity.
Qed.

End Worlds.

Lemma fractions_of_run (den i : Z) (xs : list str) :
  den = len xs ->
  (if den =? 0 then []
   else List.map (fun j => (0 + 1 + Z.of_nat j, den)) (seq 0 (length xs)))
  = fractions den.
Proof.
  intros ->. unfold fractions, len. rewrite Nat2Z.id.
  destruct (Z.eqb_spec (Z.of_nat (length xs)) 0) as [E|_]; [|reflexivity].
  destruct xs; [reflexivity|simpl in E; lia].
Qed.

Lemma len_slice_to_cap {A} (xs : list A) (D c : Z) :
  0 <= D -> 0 <= c -> Z.min (len xs) (D * c) = len (slice_to xs (D * c)).
Proof. intros HD Hc. rewrite length_slice_to by lia. reflexivity. Qed.

(** X9: with a progress bar, every generator reports exactly the
    fractions 1/n, 2/n, .., n/n, in this order, where [n] is the number
    of chunks it attempts; all of them lie in (0, 1]. *)
Theorem progress_is_reported_in_order (World : Type)
    (summarizer : Summarizer World) (pb : ProgressBar World)
    (text : str) (D : Z) (w : World) :
  progress_values
    (run_log (generate_comprehensive_summary _ text
                (traced_summarizer summarizer) D
                (Some (traced_progress_bar pb))) w)
  = fractions (len (chunks_of text 400))
  /\ progress_values
       (run_log (generate_bullet_points _ text
                   (traced_summarizer summarizer) D
                   (Some (traced_progress_bar pb))) w)
     = fractions (len (chunks_of text 400))
  /\ (0 <= D ->
      progress_values
        (run_log (generate_flashcards _ text
                    (traced_summarizer summarizer) D
                    (Some (traced_progress_bar pb))) w)
      = fractions (Z.min (len (chunks_of text 500)) (D * 5)))
  /\ (0 <= D ->
      progress_values
        (run_log (generate_qa_format _ text
                    (traced_summarizer summarizer) D
                    (Some (traced_progress_bar pb))) w)
      = fractions (Z.min (len (chunks_of text 400)) (D * 3)))
  /\ (0 <= D ->
      progress_values
        (run_log (generate_concept_map _ text
                    (traced_summarizer summarizer) D
                    (Some (traced_progress_bar pb))) w)
      = fractions (Z.min (len (chunks_of text 500)) (D * 2)))
  /\ forall n, Forall (fun q : Z * Z => 0 < q.1 <= q.2) (fractions n).
Proof.
  unfold run_log.
  split; [|split; [|split; [|split; [|split]]]].
  - rewrite generate_comprehensive_summary_world.
    destruct (traced_world_after_log World summarizer (Some pb)
                (len (chunks_of text 400)) (100 + D * 30) (30 + D * 10)
                (chunks_of text 400) 0 w []) as [more [Hm [Hp _]]].
    cbn [option_map] in Hm. rewrite Hm, app_nil_l, Hp.
    apply (fractions_of_run _ 0). reflexivity.
  - rewrite generate_bullet_points_world.
    destruct (traced_world_after_log World summarizer (Some pb)
                (len (chunks_of text 400)) 120 30
                (chunks_of text 400) 0 w []) as [more [Hm [Hp _]]].
    cbn [option_map] in Hm. rewrite Hm, app_nil_l, Hp.
    apply (fractions_of_run _ 0). reflexivity.
  - intros HD. rewrite generate_flashcards_world.
    destruct (traced_world_after_log World summarizer (Some pb)
                (Z.min (len (chunks_of text 500)) (D * 5)) 80 20
                (slice_to (chunks_of text 500) (D * 5)) 0 w [])
      as [more [Hm [Hp _]]].
    cbn [option_map] in Hm. rewrite Hm, app_nil_l, Hp.
    apply (fractions_of_run _ 0), len_slice_to_cap; lia.
  - intros HD. rewrite generate_qa_format_world.
    destruct (traced_world_after_log World summarizer (Some pb)
                (Z.min (len (chunks_of text 400)) (D * 3)) 100 30
                (slice_to (chunks_of text 400) (D * 3)) 0 w [])
      as [more [Hm [Hp _]]].
    cbn [option_map] in Hm. rewrite Hm, app_nil_l, Hp.
    apply (fractions_of_run _ 0), len_slice_to_cap; lia.
  - intros HD. rewrite generate_concept_map_world.
    destruct (traced_world_after_log World summarizer (Some pb)
                (Z.min (len (chunks_of text 500)) (D * 2)) 60 20
                (slice_to (chunks_of text 500) (D * 2)) 0 w [])
      as [more [Hm [Hp _]]].
    cbn [option_map] in Hm. rewrite Hm, app_nil_l, Hp.
    apply (fractions_of_run _ 0), len_slice_to_cap; lia.
  - intros n. unfold fractions. apply Forall_map, Forall_forall.
    intros j Hin. apply list_elem_of_In, in_seq in Hin. cbn [fst snd]. lia.
Qed.

Lemma progress_is_reported_in_order_witness :
  0 <= 3
  /\ progress_values
       (run_log (generate_qa_format _ two_chunk_text
                   (traced_summarizer scripted_summarizer) 3
                   (Some (traced_progress_bar (fun _ w => (w, Ok tt)))))
          short_then_long)
     = [(1, 2); (2, 2)].
Proof.
  split; [lia|].
  destruct (progress_is_reported_in_order _ scripted_summarizer
              (fun _ w => (w, Ok tt)) two_chunk_text 3 short_then_long)
    as [_ [_ [_ [Q _]]]].
  rewrite (Q ltac:(lia)). vm_compute. reflexivity.
Defined.

Lemma In_take {A} (x : A) (n : nat) (l : list A) : In x (take n l) -> In x l.
Proof.
  intros H. rewrite <- (take_drop n l). apply in_or_app. left. exact H.
Qed.

Lemma calls_within (chunks xs : list str) (mx mn : Z)
    (calls : list summarizer_call) :
  (forall chunk, In chunk xs -> In chunk chunks) ->
  Forall (fun c => exists chunk,
            In chunk xs
            /\ c = {| call_text := slice_to chunk 3000;
                      call_max_length := mx;
                      call_min_length := mn;
                      call_do_sample := false |}) calls ->
  Forall (call_within chunks mx mn) calls.
Proof.
  intros Hsub H. eapply Forall_impl; [exact H|].
  intros c [chunk [Hin ->]]. unfold call_within. cbn.
  destruct (slice_to_3000 chunk) as [E Hlen].
  split; [exists chunk; split; [apply Hsub, Hin|exact E]|].
  split; [exact Hlen|auto].
Qed.

(** X10: what the summarizer is asked. The calls a generator makes are
    those for a sublist of the chunks it attempts: they come in chunk
    order and there is at most one for each chunk. Every call is on its
    chunk cut to at most 3000 characters, with that generator's length
    bounds and with sampling off; so there are at most as many calls as
    chunks, and for the capped generators at most [5 D], [3 D] and [2 D]
    calls. *)
Theorem summarizer_calls_are_bounded (World : Type)
    (summarizer : Summarizer World) (pb : option (ProgressBar World))
    (text : str) (D : Z) (w : World) :
  (let calls :=
     summarizer_calls
       (run_log (generate_comprehensive_summary _ text
                   (traced_summarizer summarizer) D
                   (option_map traced_progress_bar pb)) w) in
   Forall (call_within (chunks_of text 400) (100 + D * 30) (30 + D * 10)) calls
   /\ len calls <= len (chunks_of text 400)
   /\ exists called,
        sublist called (chunks_of text 400)
        /\ calls = List.map (call_for (100 + D * 30) (30 + D * 10)) called)
  /\ (let calls :=
     summarizer_calls
       (run_log (generate_bullet_points _ text
                   (traced_summarizer summarizer) D
                   (option_map traced_progress_bar pb)) w) in
   Forall (call_within (chunks_of text 400) 120 30) calls
   /\ len calls <= len (chunks_of text 400)
   /\ exists called,
        sublist called (chunks_of text 400)
        /\ calls = List.map (call_for 120 30) called)
  /\ (let calls :=
     summarizer_calls
       (run_log (generate_flashcards _ text
                   (traced_summarizer summarizer) D
                   (option_map traced_progress_bar pb)) w) in
   Forall (call_within (chunks_of text 500) 80 20) calls
   /\ len calls <= len (chunks_of text 500)
   /\ (0 <= D -> len calls <= 5 * D)
   /\ exists called,
        sublist called (slice_to (chunks_of text 500) (D * 5))
        /\ calls = List.map (call_for 80 20) called)
  /\ (let calls :=
     summarizer_calls
       (run_log (generate_qa_format _ text
                   (traced_summarizer summarizer) D
                   (option_map traced_progress_bar pb)) w) in
   Forall (call_within (chunks_of text 400) 100 30) calls
   /\ len calls <= len (chunks_of text 400)
   /\ (0 <= D -> len calls <= 3 * D)
   /\ exists called,
        sublist called (slice_to (chunks_of text 400) (D * 3))
        /\ calls = List.map (call_for 100 30) called)
  /\ (let calls :=
     summarizer_calls
       (run_log (generate_concept_map _ text
                   (traced_summarizer summarizer) D
                   (option_map traced_progress_bar pb)) w) in
   Forall (call_within (chunks_of text 500) 60 20) calls
   /\ len calls <= len (chunks_of text 500)
   /\ (0 <= D -> len calls <= 2 * D)
   /\ exists called,
        sublist called (slice_to (chunks_of text 500) (D * 2))
        /\ calls = List.map (call_for 60 20) called).
Proof.
  unfold run_log. cbv zeta.
  split; [|split; [|split; [|split]]].
  - rewrite generate_comprehensive_summary_world.
    destruct (traced_world_after_log World summarizer pb
                (len (chunks_of text 400)) (100 + D * 30) (30 + D * 10)
                (chunks_of text 400) 0 w []) as [more [Hm [_ [Hc Hn]]]].
    destruct (traced_calls_sublist World summarizer pb
                (len (chunks_of text 400)) (100 + D * 30) (30 + D * 10)
                (chunks_of text 400) 0 w []) as [more' [called [Hm' [Hsub Hcalled]]]].
    rewrite Hm in Hm'. apply app_inv_head in Hm'. subst more'.
    rewrite Hm, app_nil_l.
    split; [apply (calls_within _ (chunks_of text 400)); auto|].
    split; [unfold len; lia|].
    exists called. split; [exact Hsub|exact Hcalled].
  - rewrite generate_bullet_points_world.
    destruct (traced_world_after_log World summarizer pb
                (len (chunks_of text 400)) 120 30
                (chunks_of text 400) 0 w []) as [more [Hm [_ [Hc Hn]]]].
    destruct (traced_calls_sublist World summarizer pb
                (len (chunks_of text 400)) 120 30
                (chunks_of text 400) 0 w []) as [more' [called [Hm' [Hsub Hcalled]]]].
    rewrite Hm in Hm'. apply app_inv_head in Hm'. subst more'.
    rewrite Hm, app_nil_l.
    split; [apply (calls_within _ (chunks_of text 400)); auto|].
    split; [unfold len; lia|].
    exists called. split; [exact Hsub|exact Hcalled].
  - rewrite generate_flashcards_world.
    destruct (traced_world_after_log World summarizer pb
                (Z.min (len (chunks_of text 500)) (D * 5)) 80 20
                (slice_to (chunks_of text 500) (D * 5)) 0 w []) as [more [Hm [_ [Hc Hn]]]].
    destruct (traced_calls_sublist World summarizer pb
                (Z.min (len (chunks_of text 500)) (D * 5)) 80 20
                (slice_to (chunks_of text 500) (D * 5)) 0 w []) as [more' [called [Hm' [Hsub Hcalled]]]].
    rewrite Hm in Hm'. apply app_inv_head in Hm'. subst more'.
    rewrite Hm, app_nil_l.
    split; [apply (calls_within _ (slice_to (chunks_of text 500) (D * 5)));
            [intros c; apply In_take|exact Hc]|].
    assert (Hle : (length (slice_to (chunks_of text 500) (D * 5))
                   <= length (chunks_of text 500))%nat)
      by (unfold slice_to; rewrite length_take; lia).
    split; [unfold len; lia|].
    split; [|exists called; split; [exact Hsub|exact Hcalled]].
    intros HD.
    pose proof (length_slice_to (chunks_of text 500) (D * 5) ltac:(lia)) as Hs.
    unfold len in *. lia.
  - rewrite generate_qa_format_world.
    destruct (traced_world_after_log World summarizer pb
                (Z.min (len (chunks_of text 400)) (D * 3)) 100 30
                (slice_to (chunks_of text 400) (D * 3)) 0 w []) as [more [Hm [_ [Hc Hn]]]].
    destruct (traced_calls_sublist World summarizer pb
                (Z.min (len (chunks_of text 400)) (D * 3)) 100 30
                (slice_to (chunks_of text 400) (D * 3)) 0 w []) as [more' [called [Hm' [Hsub Hcalled]]]].
    rewrite Hm in Hm'. apply app_inv_head in Hm'. subst more'.
    rewrite Hm, app_nil_l.
    split; [apply (calls_within _ (slice_to (chunks_of text 400) (D * 3)));
            [intros c; apply In_take|exact Hc]|].
    assert (Hle : (length (slice_to (chunks_of text 400) (D * 3))
                   <= length (chunks_of text 400))%nat)
      by (unfold slice_to; rewrite length_take; lia).
    split; [unfold len; lia|].
    split; [|exists called; split; [exact Hsub|exact Hcalled]].
    intros HD.
    pose proof (length_slice_to (chunks_of text 400) (D * 3) ltac:(lia)) as Hs.
    unfold len in *. lia.
  - rewrite generate_concept_map_world.
    destruct (traced_world_after_log World summarizer pb
                (Z.min (len (chunks_of text 500)) (D * 2)) 60 20
                (slice_to (chunks_of text 500) (D * 2)) 0 w []) as [more [Hm [_ [Hc Hn]]]].
    destruct (traced_calls_sublist World summarizer pb
                (Z.min (len (chunks_of text 500)) (D * 2)) 60 20
                (slice_to (chunks_of text 500) (D * 2)) 0 w []) as [more' [called [Hm' [Hsub Hcalled]]]].
    rewrite Hm in Hm'. apply app_inv_head in Hm'. subst more'.
    rewrite Hm, app_nil_l.
    split; [apply (calls_within _ (slice_to (chunks_of text 500) (D * 2)));
            [intros c; apply In_take|exact Hc]|].
    assert (Hle : (length (slice_to (chunks_of text 500) (D * 2))
                   <= length (chunks_of text 500))%nat)
      by (unfold slice_to; rewrite length_take; lia).
    split; [unfold len; lia|].
    split; [|exists called; split; [exact Hsub|exact Hcalled]].
    intros HD.
    pose proof (length_slice_to (chunks_of text 500) (D * 2) ltac:(lia)) as Hs.
    unfold len in *. lia.
Qed.

Lemma summarizer_calls_are_bounded_witness :
  0 <= 1
  /\ len (summarizer_calls
            (run_log (generate_concept_map _ two_chunk_text
                        (traced_summarizer scripted_summarizer) 1
                        (option_map traced_progress_bar None))
               short_then_long))
     <= 2 * 1
  /\ exists called,
       sublist called (slice_to (chunks_of two_chunk_text 500) (1 * 2))
       /\ summarizer_calls
            (run_log (generate_concept_map _ two_chunk_text
                        (traced_summarizer scripted_summarizer) 1
                        (option_map traced_progress_bar None))
               short_then_long)
          = List.map (call_for 60 20) called.
Proof.
  split; [lia|].
  destruct (summarizer_calls_are_bounded _ scripted_summarizer None
              two_chunk_text 1 short_then_long)
    as [_ [_ [_ [_ [_ [_ [H Hcalled]]]]]]].
  split; [apply H; lia|exact Hcalled].
Defined.

(** The first piece of a split is a prefix of the string. *)
Lemma split_sep_go_hd_prefix (sep cur s : str) :
  exists p rest,
    List.hd [] (split_sep_go sep 0 cur s) = rev cur ++ p /\ s = p ++ rest.
Proof.
  revert cur. induction s as [|c s IH]; intros cur.
  - exists [], []. cbn. rewrite app_nil_r. split; reflexivity.
  - cbn [split_sep_go]. destruct (startswith (c :: s) sep).
    + exists [], (c :: s). cbn. rewrite app_nil_r. split; reflexivity.
    + destruct (IH (c :: cur)) as [p [rest [Hhd Hs]]].
      exists (c :: p), rest. rewrite Hhd, Hs. cbn [rev].
      rewrite <- app_assoc. split; reflexivity.
Qed.

(** X11: the question of a flashcard quotes the answer: its stem is a
    prefix of the summary, at most 50 characters long, taken from the
    first sentence. *)
Theorem flashcard_question_quotes_answer (summary : str) :
  exists stem rest,
    flashcard summary (py_split_sep summary [dot; space])
    = lit "Q: What is important about: " ++ stem ++ lit "...?" ++ [nl]
      ++ lit "A: " ++ summary
    /\ summary = stem ++ rest
    /\ len stem <= 50
    /\ exists more, List.hd [] (py_split_sep summary [dot; space])
                    = stem ++ more.
Proof.
  destruct (split_sep_go_hd_prefix [dot; space] [] summary)
    as [p [rest [Hhd Hs]]].
  cbn [rev app] in Hhd. fold (py_split_sep summary [dot; space]) in Hhd.
  exists (slice_to p 50), (drop (Z.to_nat (Z.min (len p) 50)) p ++ rest).
  split; [|split; [|split]].
  - unfold flashcard. rewrite Hhd, <- !app_assoc. reflexivity.
  - rewrite slice_to_nonneg by lia. rewrite app_assoc, take_drop. exact Hs.
  - rewrite length_slice_to by lia. lia.
  - exists (drop (Z.to_nat (Z.min (len p) 50)) p).
    rewrite Hhd, slice_to_nonneg by lia. symmetry. apply take_drop.
Qed.

(** ** The generation loop: what is shown and what is stored *)

Section LoopShape.

Variable World : Type.
Variable gens : GeneratorTable World.
Variable summarizer : Summarizer World.
Variable st_progress_bar : ProgressBar World.

Lemma dispatch_page (fmt input : str) (D : Z) (result : option str)
    (p : Page World) :
  (dispatch World gens summarizer st_progress_bar fmt input D result p).1.2
  = p.2.
Proof.
  unfold dispatch.
  repeat (destruct (bool_decide _));
    try (unfold bind, on_world, ret;
         match goal with
         | |- context [?g input summarizer D (Some st_progress_bar) p.1] =>
             destruct (g input summarizer D (Some st_progress_bar) p.1)
               as [w' [r|e]]
         end; reflexivity).
  reflexivity.
Qed.

Lemma try_format_page_exact (fmt input : str) (D : Z)
    (results : gmap (list N) (list N)) (result : option str)
    (p : Page World) :
  (try_format gens summarizer st_progress_bar fmt input D results result p).1.2
  = p.2
    ++ match (try_format gens summarizer st_progress_bar fmt input D
                results result p).2 with
       | Ok _ =>
           [ProgressEmpty;
            StSuccess ([white_check_mark] ++ lit " " ++ fmt
                       ++ lit " complete!")]
       | Raise _ => []
       end.
Proof.
  pose proof (dispatch_page fmt input D result p) as Hd.
  unfold try_format, bind, show, ret, raise.
  destruct (dispatch _ _ _ _ _ _ _ _ _) as [p1 [[r|]|e]]; cbn [fst snd] in *;
    rewrite ?app_nil_r, Hd, <- ?app_assoc; reflexivity.
Qed.

Lemma run_formats_shape (formats : list str) (input : str) (D : Z)
    (results : gmap (list N) (list N)) (result : option str)
    (p p' : Page World) (final : gmap (list N) (list N) * option str) :
  run_formats gens summarizer st_progress_bar formats input D results result p
  = (p', Ok final) ->
  exists failures : list (option exn),
    length failures = length formats
    /\ p'.2 = p.2 ++ concat (List.map format_block (combine formats failures))
    /\ Forall (fun f => match f with
                        | Some e => is_Exception e = true
                        | None => True
                        end) failures.
Proof.
  revert results result p.
  induction formats as [|fmt rest IH]; intros results result p H.
  - injection H as <- _. exists []. cbn. rewrite app_nil_r. auto.
  - rewrite run_formats_cons in H.
    pose proof (try_format_page_exact fmt input D results result
                  (opened fmt p)) as Hpage.
    destruct (try_format _ _ _ _ _ _ _ _ _) as [p1 [[rs r]|e]];
      cbn [fst snd] in Hpage.
    + destruct (IH _ _ _ H) as [fs [Hlen [Hp Hall]]].
      exists (None :: fs). split; [simpl; lia|]. split; [|constructor; auto].
      rewrite Hp, Hpage. unfold opened, format_block. cbn [fst snd combine
        List.map concat]. rewrite <- !app_assoc. reflexivity.
    + destruct (is_Exception e) eqn:He; [|discriminate H].
      destruct (IH _ _ _ H) as [fs [Hlen [Hp Hall]]].
      exists (Some e :: fs). split; [simpl; lia|]. split; [|constructor; auto].
      rewrite Hp. unfold handled. cbn [fst snd]. rewrite Hpage.
      unfold opened, format_block. cbn [fst snd combine List.map concat].
      rewrite app_nil_r, <- !app_assoc. reflexivity.
Qed.

End LoopShape.

(** X12: when the generation loop completes, the page has grown by one
    block per requested format, in order: heading and progress bar, then
    either cleared bar and success line or error line and cleared bar.
    So every progress bar is cleared and every format is reported exactly
    once. *)
Theorem generation_page_shape (World : Type)
    (gens : GeneratorTable World) (summarizer : Summarizer World)
    (st_progress_bar : ProgressBar World)
    (formats : list str) (input : str) (D : Z)
    (results : gmap (list N) (list N)) (result : option str)
    (p p' : Page World) (final : gmap (list N) (list N) * option str) :
  run_formats gens summarizer st_progress_bar formats input D results result p
  = (p', Ok final) ->
  exists failures : list (option exn),
    length failures = length formats
    /\ p'.2 = p.2 ++ concat (List.map format_block (combine formats failures))
    /\ Forall (fun f => match f with
                        | Some e => is_Exception e = true
                        | None => True
                        end) failures.
Proof. apply run_formats_shape. Qed.

Lemma generation_page_shape_witness :
  exists failures : list (option exn),
    length failures = 2%nat
    /\ (run_formats flashcards_raise failing_summarizer quiet_progress_bar
          [lit "Flashcards"; lit "Q&A Format"] (lit "Too short.") 3 ∅ None
          (tt, [])).1.2
       = [] ++ concat (List.map format_block
                         (combine [lit "Flashcards"; lit "Q&A Format"]
                            failures)).
Proof.
  assert (E : exists p' final,
             run_formats flashcards_raise failing_summarizer
               quiet_progress_bar [lit "Flashcards"; lit "Q&A Format"]
               (lit "Too short.") 3 ∅ None (tt, [])
             = (p', Ok final))
    by (eexists; eexists; vm_compute; reflexivity).
  destruct E as [p' [final E]].
  destruct (generation_page_shape _ _ _ _ _ _ _ _ _ _ _ _ E)
    as [failures [H1 [H2 _]]].
  exists failures. rewrite E. split; [exact H1|exact H2].
Defined.

Lemma run_formats_app_generators (World : Type)
    (summarizer : Summarizer World) (st_progress_bar : ProgressBar World)
    (formats : list str) (input : str) (D : Z) :
  Forall (fun fmt => In fmt all_formats) formats ->
  forall (results : gmap (list N) (list N)) (result : option str)
         (p : Page World),
  exists p' results' result',
    run_formats app_generators summarizer st_progress_bar formats input D
      results result p = (p', Ok (results', result'))
    /\ (forall fmt, In fmt formats ->
        exists out, results' !! fmt = Some out /\ out <> [])
    /\ (forall fmt, ~ In fmt formats -> results' !! fmt = results !! fmt).
Proof.
  induction 1 as [|fmt rest Hfmt _ IH]; intros results result p.
  - exists p, results, result. split; [reflexivity|].
    split; [intros fmt []|reflexivity].
  - rewrite run_formats_cons.
    destruct (try_format_app_generators World summarizer st_progress_bar
                fmt input D results result (opened fmt p) Hfmt)
      as [out [p1 [Hout ->]]].
    destruct (IH (<[fmt := out]> results) (Some out) p1)
      as [p' [results' [result' [Hrun [Hin Hnot]]]]].
    exists p', results', result'. split; [exact Hrun|]. split.
    + intros f [<-|Hf]; [|apply Hin, Hf].
      destruct (in_dec (List.list_eq_dec N.eq_dec) fmt rest) as [Hr|Hr];
        [apply Hin, Hr|].
      exists out. rewrite (Hnot _ Hr), lookup_insert_eq. auto.
    + intros f Hf. rewrite Hnot by (intros Hr; apply Hf; right; exact Hr).
      apply lookup_insert_ne. intros ->. apply Hf. left. reflexivity.
Qed.

(** X13: with the generators of the application, a generation for one of
    the six choices of the format box always completes and stores a new
    NoteSet, whatever the summarizer does and whatever NoteSet was held
    before: its entries are exactly the requested formats, each with a
    non-empty artifact, and its metadata are the time of the run, the
    detail level and the length of the input. *)
Theorem generation_always_yields_notes (World : Type)
    (summarizer : Summarizer World) (st_progress_bar : ProgressBar World)
    (note_type input now : str) (D : Z) (generated_notes : option NoteSet)
    (p : Page World) :
  In note_type (lit "All Formats" :: all_formats) ->
  exists p' notes,
    generate_notes app_generators summarizer st_progress_bar note_type input
      D now generated_notes p = (p', Ok (Some notes))
    /\ timestamp notes = now
    /\ ns_detail_level notes = D
    /\ original_length notes = len input
    /\ (forall fmt,
           In fmt (select_formats note_type)
           <-> is_Some (content notes !! fmt))
    /\ (forall fmt out, content notes !! fmt = Some out -> out <> []).
Proof.
  intros Hnt. unfold generate_notes, select_formats.
  set (formats := if bool_decide (note_type = lit "All Formats")
                  then all_formats else [note_type]).
  assert (Hknown : Forall (fun fmt => In fmt all_formats) formats).
  { subst formats. destruct (bool_decide_reflect (note_type = lit "All Formats"))
      as [E|E].
    - apply Forall_forall. intros f Hf. apply list_elem_of_In, Hf.
    - destruct Hnt as [Hall|Hin]; [symmetry in Hall; contradiction|].
      constructor; [exact Hin|constructor]. }
  assert (Hne : exists fmt, In fmt formats).
  { subst formats. destruct (bool_decide _);
      [exists (lit "Flashcards"); cbn; auto|exists note_type; left; reflexivity]. }
  destruct (run_formats_app_generators World summarizer st_progress_bar
              formats input D Hknown ∅ None p)
    as [p1 [results [result [Hrun [Hin Hnot]]]]].
  unfold bind at 1. rewrite Hrun. cbn [fst].
  assert (Hnonempty : results <> ∅).
  { destruct Hne as [f Hf]. destruct (Hin f Hf) as [out [Hl _]].
    intros ->. rewrite lookup_empty in Hl. discriminate Hl. }
  rewrite bool_decide_eq_false_2 by exact Hnonempty.
  unfold bind, show, ret. cbn [fst snd].
  eexists. eexists. split; [reflexivity|]. cbn [timestamp ns_detail_level
    original_length content].
  split; [reflexivity|]. split; [reflexivity|]. split; [reflexivity|].
  split.
  - intros f. split.
    + intros Hf. destruct (Hin f Hf) as [out [Hl _]]. exists out. exact Hl.
    + intros [out Hl].
      destruct (in_dec (List.list_eq_dec N.eq_dec) f formats) as [Hf|Hf];
        [exact Hf|].
      rewrite (Hnot f Hf), lookup_empty in Hl. discriminate Hl.
  - intros f out Hl.
    destruct (in_dec (List.list_eq_dec N.eq_dec) f formats) as [Hf|Hf].
    + destruct (Hin f Hf) as [out' [Hl' Hout]].
      rewrite Hl in Hl'. injection Hl' as ->. exact Hout.
    + rewrite (Hnot f Hf), lookup_empty in Hl. discriminate Hl.
Qed.

Lemma generation_always_yields_notes_witness :
  In (lit "Bullet Points") (lit "All Formats" :: all_formats)
  /\ exists p' notes,
       generate_notes app_generators failing_summarizer quiet_progress_bar
         (lit "Bullet Points") one_chunk_text 3 (lit "2025-01-01 00:00:00")
         None (tt, []) = (p', Ok (Some notes))
       /\ is_Some (content notes !! lit "Bullet Points").
Proof.
  assert (H : In (lit "Bullet Points") (lit "All Formats" :: all_formats))
    by (right; right; left; reflexivity).
  split; [exact H|].
  destruct (generation_always_yields_notes unit failing_summarizer
              quiet_progress_bar (lit "Bullet Points") one_chunk_text
              (lit "2025-01-01 00:00:00") 3 None (tt, []) H)
    as [p' [notes [Hrun [_ [_ [_ [Hkeys _]]]]]]].
  exists p', notes. split; [exact Hrun|].
  apply Hkeys. left. reflexivity.
Defined.

(** X14: a format name that is none of the five leaves the local
    variable [result] unbound: the loop shows the heading, the progress
    bar and an error line for it, stores nothing, and the NoteSet held
    before stays as it was. *)
Theorem unknown_format_keeps_notes (World : Type)
    (gens : GeneratorTable World) (summarizer : Summarizer World)
    (st_progress_bar : ProgressBar World)
    (note_type input now : str) (D : Z) (generated_notes : option NoteSet)
    (p : Page World) :
  ~ In note_type (lit "All Formats" :: all_formats) ->
  exists msg,
    generate_notes gens summarizer st_progress_bar note_type input D now
      generated_notes p
    = ((p.1,
        p.2 ++ [StMarkdown (lit "### Generating " ++ note_type ++ lit "...");
                StProgress 0;
                StError (lit "Error generating " ++ note_type ++ lit ": "
                         ++ msg);
                ProgressEmpty]),
       Ok generated_notes).
Proof.
  intros Hnot. eexists.
  assert (Hne : forall name, In name (lit "All Formats" :: all_formats) ->
                             bool_decide (note_type = name) = false).
  { intros name Hin. apply bool_decide_eq_false_2. intros ->. exact (Hnot Hin). }
  unfold generate_notes, select_formats.
  rewrite (Hne (lit "All Formats")) by (left; reflexivity).
  unfold bind at 1. rewrite run_formats_cons.
  unfold try_format, dispatch.
  rewrite !Hne by (cbn; auto 10).
  unfold bind, ret, raise. cbn [is_Exception].
  cbn [run_formats]. unfold ret. cbn [fst].
  rewrite bool_decide_eq_true_2 by reflexivity.
  unfold handled, opened, error_marker. cbn [fst snd exn_str].
  rewrite <- !app_assoc. reflexivity.
Qed.

Lemma unknown_format_keeps_notes_witness :
  ~ In (lit "Mind Map") (lit "All Formats" :: all_formats)
  /\ (generate_notes flashcards_raise failing_summarizer quiet_progress_bar
        (lit "Mind Map") one_chunk_text 3 (lit "2025-01-01 00:00:00")
        None (tt, [])).2 = Ok None.
Proof.
  assert (H : ~ In (lit "Mind Map") (lit "All Formats" :: all_formats)).
  { intros Hin. vm_compute in Hin.
    repeat (destruct Hin as [Hin|Hin]; [discriminate Hin|]). exact Hin. }
  split; [exact H|].
  destruct (unknown_format_keeps_notes unit flashcards_raise failing_summarizer
              quiet_progress_bar (lit "Mind Map") one_chunk_text
              (lit "2025-01-01 00:00:00") 3 None (tt, []) H) as [msg ->].
  reflexivity.
Defined.

(** ** Text extraction and the input of a run *)

Lemma lstrip_shape (s : str) :
  lstrip s = [] \/ exists c t, lstrip s = c :: t /\ isspace c = false.
Proof.
  induction s as [|c s IH]; [left; reflexivity|].
  cbn [lstrip]. destruct (isspace c) eqn:Hc; [exact IH|].
  right. exists c, s. auto.
Qed.

Lemma py_strip_shape (s : str) :
  py_strip s = []
  \/ ((exists c t, py_strip s = c :: t /\ isspace c = false)
      /\ (exists t c, py_strip s = t ++ [c] /\ isspace c = false)).
Proof.
  unfold py_strip, rstrip.
  destruct (lstrip_shape s) as [->|[c [t [-> Hc]]]]; [left; reflexivity|].
  right. cbn [rev].
  destruct (lstrip_keeps_last (rev t) c Hc) as [v Hv]. rewrite Hv.
  split.
  - exists c, (rev v). rewrite rev_app_distr. split; [reflexivity|exact Hc].
  - destruct (lstrip_shape (rev t ++ [c])) as [E|[c' [t' [E Hc']]]].
    + rewrite Hv in E. destruct v; discriminate E.
    + rewrite Hv in E. rewrite E. exists (rev t'), c'. cbn [rev].
      split; [reflexivity|exact Hc'].
Qed.

Lemma py_strip_idempotent (s : str) : py_strip (py_strip s) = py_strip s.
Proof.
  destruct (py_strip_shape s) as [->|[[c [t [E Hc]]] [t' [c' [E' Hc']]]]];
    [reflexivity|].
  unfold py_strip at 1. rewrite E, lstrip_nonspace_hd, <- E, E' by assumption.
  apply rstrip_nonspace_last, Hc'.
Qed.

Lemma lstrip_spaces (s : str) :
  Forall (fun c => isspace c = true) s -> lstrip s = [].
Proof.
  induction 1 as [|c s Hc _ IH]; [reflexivity|].
  cbn [lstrip]. rewrite Hc. exact IH.
Qed.

Lemma py_strip_spaces (s : str) :
  Forall (fun c => isspace c = true) s -> py_strip s = [].
Proof.
  intros H. unfold py_strip. rewrite lstrip_spaces by assumption. reflexivity.
Qed.

Section Extraction.

Variable World : Type.
Variables File PdfPage : Type.
Variable PdfReader_pages : File -> result (list PdfPage).
Variable page_extract_text : PdfPage -> result str.
Variable Document_paragraph_texts : File -> result (list str).
Variable read_decode_utf8 : File -> result str.
Variable file_type : File -> str.
Variable file_name : File -> str.

(** What [try_extract] makes of a body whose value, if any, is stripped. *)
Lemma try_extract_stripped (label : str) (body : result str)
    (p : Page World) :
  (forall text, body = Ok text -> py_strip text = text) ->
  (try_extract label body p).1.1 = p.1
  /\ match (try_extract label body p).2 with
     | Ok out => py_strip out = out
     | Raise e => is_Exception e = false
     end.
Proof.
  intros Hbody. unfold try_extract. destruct body as [text|e].
  - split; [reflexivity|]. apply Hbody. reflexivity.
  - destruct (is_Exception e) eqn:He.
    + split; reflexivity.
    + split; [reflexivity|exact He].
Qed.

Lemma extract_text_from_pdf_stripped (f : File) (p : Page World) :
  (extract_text_from_pdf PdfReader_pages page_extract_text f p).1.1 = p.1
  /\ match (extract_text_from_pdf PdfReader_pages page_extract_text f p).2 with
     | Ok out => py_strip out = out
     | Raise e => is_Exception e = false
     end.
Proof.
  apply try_extract_stripped. intros text H.
  destruct (PdfReader_pages f) as [pages|e]; [|discriminate H].
  destruct (pdf_pages_text page_extract_text pages []) as [t|e];
    [|discriminate H].
  injection H as <-. apply py_strip_idempotent.
Qed.

Lemma extract_text_from_docx_stripped (f : File) (p : Page World) :
  (extract_text_from_docx Document_paragraph_texts f p).1.1 = p.1
  /\ match (extract_text_from_docx Document_paragraph_texts f p).2 with
     | Ok out => py_strip out = out
     | Raise e => is_Exception e = false
     end.
Proof.
  apply try_extract_stripped. intros text H.
  destruct (Document_paragraph_texts f) as [ps|e]; [|discriminate H].
  injection H as <-. apply py_strip_idempotent.
Qed.

Lemma extract_text_from_txt_stripped (f : File) (p : Page World) :
  (extract_text_from_txt read_decode_utf8 f p).1.1 = p.1
  /\ match (extract_text_from_txt read_decode_utf8 f p).2 with
     | Ok out => py_strip out = out
     | Raise e => is_Exception e = false
     end.
Proof.
  apply try_extract_stripped. intros text H.
  destruct (read_decode_utf8 f) as [t|e]; [|discriminate H].
  injection H as <-. apply py_strip_idempotent.
Qed.

Lemma pdf_pages_text_ok (pages : list PdfPage) (texts : list str)
    (acc : str) :
  List.map page_extract_text pages = List.map Ok texts ->
  pdf_pages_text page_extract_text pages acc
  = Ok (acc ++ concat (List.map (fun t => t ++ [nl]) texts)).
Proof.
  revert texts acc. induction pages as [|pg pages IH]; intros texts acc H.
  - destruct texts; [|discriminate H]. cbn. rewrite app_nil_r. reflexivity.
  - destruct texts as [|t texts]; [discriminate H|].
    cbn [List.map] in H. injection H as Hpg Hrest.
    cbn [pdf_pages_text]. rewrite Hpg, (IH texts) by exact Hrest.
    cbn [List.map concat]. rewrite <- !app_assoc. reflexivity.
Qed.

Lemma pdf_pages_text_raise (pre post : list PdfPage) (bad : PdfPage)
    (texts : list str) (acc : str) (e : exn) :
  List.map page_extract_text pre = List.map Ok texts ->
  page_extract_text bad = Raise e ->
  pdf_pages_text page_extract_text (pre ++ bad :: post) acc = Raise e.
Proof.
  revert texts acc. induction pre as [|pg pre IH]; intros texts acc H Hbad.
  - cbn. rewrite Hbad. reflexivity.
  - destruct texts as [|t texts]; [discriminate H|].
    cbn [List.map] in H. injection H as Hpg Hrest.
    cbn [app pdf_pages_text]. rewrite Hpg. apply (IH texts); assumption.
Qed.

Lemma select_input_file_part (f : File) (p : Page World) :
  let chosen :=
    if bool_decide (file_type f = lit "application/pdf")
    then extract_text_from_pdf PdfReader_pages page_extract_text f
    else if bool_decide
              (file_type f
               = lit "application/vnd.openxmlformats-officedocument.wordprocessingml.document")
    then extract_text_from_docx Document_paragraph_texts f
    else if bool_decide (file_type f = lit "text/plain")
    then extract_text_from_txt read_decode_utf8 f
    else ret [] in
  (chosen p).1.1 = p.1
  /\ match (chosen p).2 with
     | Ok out => py_strip out = out
     | Raise e => is_Exception e = false
     end.
Proof.
  cbv zeta. repeat (destruct (bool_decide _)).
  - apply extract_text_from_pdf_stripped.
  - apply extract_text_from_docx_stripped.
  - apply extract_text_from_txt_stripped.
  - split; reflexivity.
Qed.

End Extraction.

(** X15: whatever the file and whatever the reading libraries do, the
    three extraction functions leave the collaborators' world alone, let
    no [Exception] escape, and return a text with nothing left to strip
    at either end. *)
Theorem extraction_is_contained (World File PdfPage : Type)
    (PdfReader_pages : File -> result (list PdfPage))
    (page_extract_text : PdfPage -> result str)
    (Document_paragraph_texts : File -> result (list str))
    (read_decode_utf8 : File -> result str)
    (f : File) (p : Page World) :
  ((extract_text_from_pdf PdfReader_pages page_extract_text f p).1.1 = p.1
   /\ match (extract_text_from_pdf PdfReader_pages page_extract_text f p).2
      with
      | Ok out => py_strip out = out
      | Raise e => is_Exception e = false
      end)
  /\ ((extract_text_from_docx Document_paragraph_texts f p).1.1 = p.1
      /\ match (extract_text_from_docx Document_paragraph_texts f p).2 with
         | Ok out => py_strip out = out
         | Raise e => is_Exception e = false
         end)
  /\ ((extract_text_from_txt read_decode_utf8 f p).1.1 = p.1
      /\ match (extract_text_from_txt read_decode_utf8 f p).2 with
         | Ok out => py_strip out = out
         | Raise e => is_Exception e = false
         end).
Proof.
  split; [apply extract_text_from_pdf_stripped|].
  split; [apply extract_text_from_docx_stripped|].
  apply extract_text_from_txt_stripped.
Qed.

(** X16: extracting a PDF is all or nothing: when one page fails with an
    [Exception], the text of the pages read before it is discarded, the
    error is shown and the result is the empty string. *)
Theorem pdf_extraction_all_or_nothing (World File PdfPage : Type)
    (PdfReader_pages : File -> result (list PdfPage))
    (page_extract_text : PdfPage -> result str)
    (f : File) (p : Page World)
    (pre post : list PdfPage) (bad : PdfPage) (texts : list str) (e : exn) :
  PdfReader_pages f = Ok (pre ++ bad :: post) ->
  List.map page_extract_text pre = List.map Ok texts ->
  page_extract_text bad = Raise e ->
  is_Exception e = true ->
  extract_text_from_pdf PdfReader_pages page_extract_text f p
  = ((p.1, p.2 ++ [StError (lit "Error reading PDF: " ++ exn_str e)]), Ok []).
Proof.
  intros Hpages Hpre Hbad He. unfold extract_text_from_pdf.
  rewrite Hpages, (pdf_pages_text_raise _ _ pre post bad texts [] e Hpre Hbad).
  unfold try_extract. rewrite He. reflexivity.
Qed.

Lemma pdf_extraction_all_or_nothing_witness :
  extract_text_from_pdf (World := unit)
    (fun _ : unit => Ok [Ok (lit "Chapter one."); Raise (OtherException (lit "bad page"));
                         Ok (lit "Chapter three.")])
    (fun page : result str => page) tt (tt, [])
  = ((tt, [StError (lit "Error reading PDF: bad page")]), Ok []).
Proof.
  apply (pdf_extraction_all_or_nothing unit unit (result str) _ _ tt (tt, [])
           [Ok (lit "Chapter one.")] [Ok (lit "Chapter three.")]
           (Raise (OtherException (lit "bad page"))) [lit "Chapter one."]
           (OtherException (lit "bad page")));
    reflexivity.
Defined.

(** X17: a pasted text always wins: when it is not empty it is the input
    of the run whatever file was uploaded, even one that cannot be read;
    without an uploaded file the input is the pasted text as it is, and
    nothing is shown. The only other outcome is an exception that is not
    an [Exception], passing through. *)
Theorem pasted_text_wins (World File PdfPage : Type)
    (PdfReader_pages : File -> result (list PdfPage))
    (page_extract_text : PdfPage -> result str)
    (Document_paragraph_texts : File -> result (list str))
    (read_decode_utf8 : File -> result str)
    (file_type file_name : File -> str)
    (uploaded_file : option File) (pasted_text : str) (p : Page World) :
  (pasted_text <> [] ->
   match (select_input PdfReader_pages page_extract_text
            Document_paragraph_texts read_decode_utf8 file_type file_name
            uploaded_file pasted_text p).2 with
   | Ok input_text => input_text = pasted_text
   | Raise e => is_Exception e = false
   end)
  /\ select_input PdfReader_pages page_extract_text
       Document_paragraph_texts read_decode_utf8 file_type file_name
       None pasted_text p
     = (p, Ok pasted_text).
Proof.
  split.
  - intros Hne. unfold select_input. destruct uploaded_file as [f|].
    + pose proof (select_input_file_part World File PdfPage PdfReader_pages
                    page_extract_text Document_paragraph_texts
                    read_decode_utf8 file_type f p) as [_ Hres].
      cbv zeta in Hres.
      match goal with
      | |- context [bind (bind ?c _) _ p] => set (chosen := c) in *
      end.
      unfold bind at 1 2.
      destruct (chosen p) as [p1 [out|e]]; cbn [snd] in *.
      * destruct out as [|c out]; unfold ret, bind, show; cbn [fst snd];
          destruct pasted_text; [contradiction|reflexivity
                                |contradiction|reflexivity].
      * exact Hres.
    + unfold bind, ret. destruct pasted_text; [contradiction|reflexivity].
  - unfold select_input, bind, ret. destruct pasted_text; reflexivity.
Qed.

Lemma pasted_text_wins_witness :
  lit "Pasted notes." <> []
  /\ (select_input demo_pages demo_page_text demo_paragraphs demo_read
        (fun _ => lit "application/pdf") (fun _ => lit "scan.pdf")
        (Some [Raise (OtherException (lit "bad page"))])
        (lit "Pasted notes.") (tt, [])).2
     = Ok (lit "Pasted notes.").
Proof.
  assert (H : lit "Pasted notes." <> [])
    by (intros E; vm_compute in E; discriminate E).
  split; [exact H|].
  destruct (pasted_text_wins unit _ _ demo_pages demo_page_text
              demo_paragraphs demo_read
              (fun _ => lit "application/pdf") (fun _ => lit "scan.pdf")
              (Some [Raise (OtherException (lit "bad page"))])
              (lit "Pasted notes.") (tt, [])) as [Hw _].
  specialize (Hw H).
  destruct (select_input _ _ _ _ _ _ _ _ _) as [p' [input|e]] eqn:E;
    cbn [snd] in *.
  - rewrite Hw. reflexivity.
  - exfalso. vm_compute in E. discriminate E.
Defined.

Lemma py_join_Forall (P : N -> Prop) (sep : str) (l : list str) :
  Forall P sep -> Forall (Forall P) l -> Forall P (py_join sep l).
Proof.
  intros Hsep. induction 1 as [|x l Hx Hl IH]; [constructor|].
  destruct l as [|y l]; [exact Hx|].
  rewrite py_join_cons2. repeat (apply Forall_app; split); assumption.
Qed.

Lemma concat_lines_spaces (texts : list str) :
  Forall (Forall (fun c => isspace c = true)) texts ->
  Forall (fun c => isspace c = true)
    (concat (List.map (fun t => t ++ [nl]) texts)).
Proof.
  induction 1 as [|t l Ht _ IH]; [constructor|].
  cbn [List.map concat]. repeat (apply Forall_app; split);
    [exact Ht|repeat constructor|exact IH].
Qed.

(** X18: a document without text is no input: a PDF whose pages yield
    only whitespace, a DOCX whose paragraphs are blank and a blank text
    file all extract to the empty string, without any message; and with
    an empty input a click on "Generate" only shows "Please provide some
    study material!", leaving the world and the NoteSet held before as
    they were. *)
Theorem blank_document_is_no_input (World File PdfPage : Type)
    (PdfReader_pages : File -> result (list PdfPage))
    (page_extract_text : PdfPage -> result str)
    (Document_paragraph_texts : File -> result (list str))
    (read_decode_utf8 : File -> result str)
    (f : File) (p : Page World) :
  (forall pages texts,
      PdfReader_pages f = Ok pages ->
      List.map page_extract_text pages = List.map Ok texts ->
      Forall (Forall (fun c => isspace c = true)) texts ->
      extract_text_from_pdf PdfReader_pages page_extract_text f p = (p, Ok []))
  /\ (forall paragraphs,
         Document_paragraph_texts f = Ok paragraphs ->
         Forall (Forall (fun c => isspace c = true)) paragraphs ->
         extract_text_from_docx Document_paragraph_texts f p = (p, Ok []))
  /\ (forall text,
         read_decode_utf8 f = Ok text ->
         Forall (fun c => isspace c = true) text ->
         extract_text_from_txt read_decode_utf8 f p = (p, Ok []))
  /\ (forall gens summarizer st_progress_bar note_type D now generated_notes,
         on_generate gens summarizer st_progress_bar true note_type [] D now
           generated_notes p
         = ((p.1,
             p.2 ++ [StError ([9888%N; 65039%N]
                              ++ lit " Please provide some study material!")]),
            Ok generated_notes)).
Proof.
  split; [|split; [|split]].
  - intros pages texts Hpages Htexts Hblank. unfold extract_text_from_pdf.
    rewrite Hpages, (pdf_pages_text_ok _ _ pages texts [] Htexts).
    rewrite app_nil_l, py_strip_spaces by (apply concat_lines_spaces, Hblank).
    reflexivity.
  - intros paragraphs Hdoc Hblank. unfold extract_text_from_docx.
    rewrite Hdoc, py_strip_spaces; [reflexivity|].
    apply py_join_Forall; [repeat constructor|exact Hblank].
  - intros text Hread Hblank. unfold extract_text_from_txt.
    rewrite Hread, py_strip_spaces by exact Hblank. reflexivity.
  - intros. reflexivity.
Qed.

Lemma blank_document_is_no_input_witness :
  extract_text_from_pdf (World := unit) demo_pages demo_page_text
    [Ok (lit "  "); Ok []; Ok [nl; 9%N]] (tt, [])
  = ((tt, []), Ok []).
Proof.
  destruct (blank_document_is_no_input unit _ _ demo_pages demo_page_text
              demo_paragraphs demo_read
              [Ok (lit "  "); Ok []; Ok [nl; 9%N]] (tt, [])) as [H _].
  apply (H [Ok (lit "  "); Ok []; Ok [nl; 9%N]] [lit "  "; []; [nl; 9%N]]);
    [reflexivity|reflexivity|repeat constructor].
Defined.

(** ** Display and download *)

Lemma replace_go_char (c d : N) (s : str) :
  replace_go [c] [d] 0 s
  = List.map (fun x => if (c =? x)%N then d else x) s.
Proof.
  induction s as [|x s IH]; [reflexivity|].
  cbn [replace_go startswith List.map length Nat.sub].
  rewrite startswith_nil, andb_true_r.
  destruct (c =? x)%N; rewrite IH; reflexivity.
Qed.

Lemma replace_go_char_by (c : N) (new s : str) :
  replace_go [c] new 0 s
  = flat_map (fun x => if (c =? x)%N then new else [x]) s.
Proof.
  induction s as [|x s IH]; [reflexivity|].
  cbn [replace_go startswith flat_map length Nat.sub].
  rewrite startswith_nil, andb_true_r.
  destruct (c =? x)%N; rewrite IH; reflexivity.
Qed.

(** X19: the Markdown download is the text download with every "="
    turned into "#", character by character: it has the same length, no
    "=" is left in it, and this reaches the "=" inside the artifacts (the
    rule of the concept map, a formula in a summary) as much as the
    banners. *)
Theorem markdown_is_text_with_hashes (upper : str -> str)
    (timestamp : str) (D : Z) (items : list (str * str)) :
  markdown_content upper timestamp D items
  = List.map (fun c => if (61 =? c)%N then 35%N else c)
      (download_content upper timestamp D items)
  /\ len (markdown_content upper timestamp D items)
     = len (download_content upper timestamp D items)
  /\ Forall (fun c => c <> 61%N) (markdown_content upper timestamp D items).
Proof.
  assert (E : markdown_content upper timestamp D items
              = List.map (fun c => if (61 =? c)%N then 35%N else c)
                  (download_content upper timestamp D items))
    by apply replace_go_char.
  split; [exact E|]. rewrite E. split.
  - unfold len. rewrite length_map. reflexivity.
  - apply Forall_map, Forall_forall. intros c _. cbn beta.
    destruct (N.eqb_spec 61 c) as [|Hne]; [discriminate|].
    intros ->. apply Hne. reflexivity.
Qed.

Lemma download_content_sections (upper : str -> str) (timestamp : str)
    (D : Z) (items : list (str * str)) :
  download_content upper timestamp D items
  = download_header timestamp D
    ++ concat (List.map (download_section upper) items).
Proof. apply fold_left_app_concat. Qed.

(** X20: the text download is the header followed by one section per
    artifact, in the order of the items; every artifact stands in it
    verbatim, under the banner with its upper-cased format name, and
    adding an item only appends its section. *)
Theorem download_keeps_every_artifact (upper : str -> str)
    (timestamp : str) (D : Z) (items : list (str * str)) :
  download_content upper timestamp D items
  = download_header timestamp D
    ++ concat (List.map (download_section upper) items)
  /\ (forall fmt content,
         In (fmt, content) items ->
         exists before after,
           download_content upper timestamp D items
           = before ++ upper fmt ++ [nl] ++ repeat 61%N 60 ++ [nl; nl]
             ++ content ++ [nl] ++ after)
  /\ (forall item,
         download_content upper timestamp D (items ++ [item])
         = download_content upper timestamp D items
           ++ download_section upper item).
Proof.
  split; [apply download_content_sections|]. split.
  - intros fmt content Hin. rewrite download_content_sections.
    apply in_split in Hin as [l1 [l2 ->]].
    rewrite List.map_app, concat_app. cbn [List.map concat].
    exists (download_header timestamp D
            ++ concat (List.map (download_section upper) l1)
            ++ [nl; nl] ++ str_mul 61%N 60 ++ [nl]),
      (concat (List.map (download_section upper) l2)).
    unfold download_section. rewrite <- !app_assoc. reflexivity.
  - intros item. unfold download_content. rewrite fold_left_app. reflexivity.
Qed.

Lemma download_keeps_every_artifact_witness :
  In (lit "Flashcards", lit "Q: What?")
    [(lit "Bullet Points", lit "A point."); (lit "Flashcards", lit "Q: What?")]
  /\ exists before after,
       download_content ascii_upper (lit "2025-01-01 00:00:00") 3
         [(lit "Bullet Points", lit "A point.");
          (lit "Flashcards", lit "Q: What?")]
       = before ++ lit "FLASHCARDS" ++ [nl] ++ repeat 61%N 60 ++ [nl; nl]
         ++ lit "Q: What?" ++ [nl] ++ after.
Proof.
  assert (H : In (lit "Flashcards", lit "Q: What?")
                [(lit "Bullet Points", lit "A point.");
                 (lit "Flashcards", lit "Q: What?")])
    by (right; left; reflexivity).
  split; [exact H|].
  destruct (download_keeps_every_artifact ascii_upper
              (lit "2025-01-01 00:00:00") 3
              [(lit "Bullet Points", lit "A point.");
               (lit "Flashcards", lit "Q: What?")]) as [_ [Hin _]].
  exact (Hin _ _ H).
Defined.

(** X21: the HTML shown for an artifact is the artifact with every line
    feed turned into "<br>" inside the note-section block, and nothing
    else changed: no line feed is left, and characters such as "<" are
    passed on as they are. *)
Theorem note_html_breaks_lines (content : str) :
  note_html content
  = lit "<div class=" ++ [34%N] ++ lit "note-section" ++ [34%N] ++ lit ">"
    ++ flat_map (fun c => if (nl =? c)%N then lit "<br>" else [c]) content
    ++ lit "</div>"
  /\ Forall (fun c => c <> nl) (note_html content)
  /\ len (note_html content)
     = 32 + len content
       + 3 * len (List.filter (fun c => (nl =? c)%N) content).
Proof.
  assert (E : py_replace content [nl] (lit "<br>")
              = flat_map (fun c => if (nl =? c)%N then lit "<br>" else [c])
                  content)
    by apply replace_go_char_by.
  unfold note_html. rewrite E. clear E. split; [reflexivity|]. split.
  - repeat (apply Forall_app; split);
      try (vm_compute; repeat constructor; discriminate).
    induction content as [|c s IH]; [constructor|].
    cbn [flat_map]. apply Forall_app. split; [|exact IH].
    destruct (N.eqb_spec nl c) as [|Hne].
    + vm_compute. repeat constructor; discriminate.
    + repeat constructor. intros ->. apply Hne. reflexivity.
  - unfold len. rewrite !length_app.
    assert (Hf : length (flat_map (fun c => if (nl =? c)%N then lit "<br>"
                                            else [c]) content)
                 = (length content
                    + 3 * length (List.filter (fun c => (nl =? c)%N) content))%nat).
    { induction content as [|c s IH]; [reflexivity|].
      cbn [flat_map List.filter]. rewrite length_app, IH.
      destruct (nl =? c)%N; cbn [length]; [|lia].
      change (length (lit "<br>")) with 4%nat. lia. }
    rewrite Hf.
    change (length (lit "<div class=")) with 11%nat.
    change (length (lit "note-section")) with 12%nat.
    change (length (lit ">")) with 1%nat.
    change (length (lit "</div>")) with 6%nat.
    cbn [length]. lia.
Qed.
